(** * Two tutorial notebooks as programs over library calls

    The repository holds two Jupyter notebooks:

    - the quantization notebook (quantization-aware training of a GLUE text
      classifier with Intel Neural Compressor), and
    - [examples/patch_tst.ipynb] (pre-training a PatchTST forecaster on the
      Electricity data and transferring it to ETTh1).

    Both are Python scripts whose statements call external libraries.  The
    embedding below keeps the Python control flow as Rocq control flow
    ([if] stays [if], the [for] loop is a recursion over the list it walks)
    and turns every call into a library -- a function call, a method call, an
    attribute read or write, a subscript -- into one [Do] node of a program
    tree.  A [try] statement is a [Try] node; neither notebook has one.  A
    library is an arbitrary function answering such calls over a
    world of its own choosing, so every statement about a run is a statement
    about every behaviour of the libraries. *)

From stdpp Require Import gmap strings list.
From Stdlib Require Import Ascii ZArith QArith Qround Lia.

Set Warnings "-register-all".

Local Open Scope string_scope.
Local Open Scope Z_scope.

(** ** Python values *)

(** Values the notebooks handle.  Objects owned by a library are known by
    identity only; an imported name passed along unapplied
    ([default_data_collator], [__version__]) is [PName]; a function defined
    in the notebook and handed to a library is [PFun].  A float is kept as
    the rational number it denotes. *)
Inductive pyval : Type :=
| PNone
| PBool (b : bool)
| PInt (z : Z)
| PFloat (q : Q)
| PStr (s : string)
| PList (l : list pyval)
| PTuple (l : list pyval)
| PSlice (lo hi : pyval)
| PRange (stop : Z)
| PFStr (parts : list pyval)
| PObj (o : N)
| PName (s : string)
| PFun (name : string).

Inductive exn : Type := Exn (cls msg : string).

(** ** Library calls *)

(** What a call hands back to the notebook, as far as the notebook looks at
    it: nothing, an integer, a list it iterates, or a value it only passes
    on. *)
Inductive rty : Type := TNone | TInt | TObj | TObjs.

Definition rval (t : rty) : Type :=
  match t with
  | TNone => unit
  | TInt => Z
  | TObj => pyval
  | TObjs => list pyval
  end.

Definition to_pyval {t : rty} : rval t -> pyval :=
  match t with
  | TNone => fun _ => PNone
  | TInt => PInt
  | TObj => fun v => v
  | TObjs => PList
  end.

Inductive access : Type := Invoke | GetAttr | SetAttr | GetItem.

(** One call site reached at run time.  [line] is the line of the notebook
    file the call is written on, [callee] the callee expression as written,
    [modl] the module its root name was imported from (empty when the root
    is a notebook variable holding a library object, ["builtins"] for Python
    built-ins). *)
Record call : Type := Call {
  line : nat;
  kind : access;
  modl : string;
  callee : string;
  recv : option pyval;
  args : list pyval;
  kwargs : list (string * pyval);
  ret : rty
}.

(** ** Programs *)

(** The body of a [try] statement, or of its [except] clause: calls one
    after the other, ending in a value or in an exception. *)
Inductive block : Type :=
| BRet (v : pyval)
| BRaise (e : exn)
| BDo (c : call) (k : rval (ret c) -> block).

(** A program returns, raises, calls a library and goes on with the answer,
    or runs a [try] statement and goes on with what its body, or its
    [except] clause, came to: [Try body handler k] is
    [try: body / except Exception as e: handler e], followed by [k]. *)
Inductive prog (A : Type) : Type :=
| Ret (a : A)
| Raise (e : exn)
| Do (c : call) (k : rval (ret c) -> prog A)
| Try (body : block) (handler : exn -> block) (k : pyval -> prog A).

Arguments Ret {A} a.
Arguments Raise {A} e.
Arguments Do {A} c k.
Arguments Try {A} body handler k.

Fixpoint bind {A B : Type} (p : prog A) (f : A -> prog B) : prog B :=
  match p with
  | Ret a => f a
  | Raise e => Raise e
  | Do c k => Do c (fun x => bind (k x) f)
  | Try body handler k => Try body handler (fun v => bind (k v) f)
  end.

#[global] Instance prog_ret : MRet prog := @Ret.
#[global] Instance prog_bind : MBind prog := fun A B f p => bind p f.

(** Python's [for x in xs: body]. *)
Fixpoint for_each {X : Type} (xs : list X) (body : X -> prog unit) : prog unit :=
  match xs with
  | [] => Ret tt
  | x :: xs' => bind (body x) (fun _ => for_each xs' body)
  end.

Definition invoke (ln : nat) (m f : string) (a : list pyval)
    (kw : list (string * pyval)) (t : rty) : prog (rval t) :=
  Do (Call ln Invoke m f None a kw t) Ret.

Definition method (ln : nat) (f : string) (self : pyval) (a : list pyval)
    (kw : list (string * pyval)) (t : rty) : prog (rval t) :=
  Do (Call ln Invoke EmptyString f (Some self) a kw t) Ret.

Definition getattr (ln : nat) (f : string) (self : pyval) (t : rty) : prog (rval t) :=
  Do (Call ln GetAttr EmptyString f (Some self) [] [] t) Ret.

Definition setattr (ln : nat) (f : string) (self v : pyval) : prog unit :=
  Do (Call ln SetAttr EmptyString f (Some self) [v] [] TNone) Ret.

Definition getitem (ln : nat) (f : string) (self key : pyval) : prog pyval :=
  Do (Call ln GetItem EmptyString f (Some self) [key] [] TObj) Ret.

Definition print (ln : nat) (v : pyval) : prog unit :=
  invoke ln "builtins" "print" [v] [] TNone.

(** ** Running a program against a library *)

Inductive outcome (A : Type) : Type :=
| Done (a : A)
| Failed (e : exn).

Arguments Done {A} a.
Arguments Failed {A} e.

Record event : Type := Event { ev_call : call; ev_ans : exn + pyval }.

Definition library (W : Type) : Type :=
  forall c : call, W -> (exn + rval (ret c)) * W.

Fixpoint run_block {W : Type} (lib : library W) (b : block) (w : W)
    : outcome pyval * list event * W :=
  match b with
  | BRet v => (Done v, [], w)
  | BRaise e => (Failed e, [], w)
  | BDo c k =>
      match lib c w with
      | (inl e, w') => (Failed e, [Event c (inl e)], w')
      | (inr x, w') =>
          let '(o, tr, w'') := run_block lib (k x) w' in
          (o, Event c (inr (to_pyval x)) :: tr, w'')
      end
  end.

(** An exception, of a library call or of the program's own, ends the run,
    unless it comes up in the body of a [try]: then the [except] clause runs
    and the program goes on after the statement. *)
Fixpoint run {W A : Type} (lib : library W) (p : prog A) (w : W)
    : outcome A * list event * W :=
  match p with
  | Ret a => (Done a, [], w)
  | Raise e => (Failed e, [], w)
  | Do c k =>
      match lib c w with
      | (inl e, w') => (Failed e, [Event c (inl e)], w')
      | (inr x, w') =>
          let '(o, tr, w'') := run lib (k x) w' in
          (o, Event c (inr (to_pyval x)) :: tr, w'')
      end
  | Try body handler k =>
      match run_block lib body w with
      | (Done v, tr, w') =>
          let '(o, tr', w'') := run lib (k v) w' in (o, (tr ++ tr')%list, w'')
      | (Failed e, tr, w') =>
          match run_block lib (handler e) w' with
          | (Done v, tr', w'') =>
              let '(o, tr'', w3) := run lib (k v) w'' in
              (o, (tr ++ tr' ++ tr'')%list, w3)
          | (Failed e', tr', w'') => (Failed e', (tr ++ tr')%list, w'')
          end
      end
  end.

Definition result_of {W A : Type} (r : outcome A * list event * W) : outcome A := r.1.1.
Definition trace_of {W A : Type} (r : outcome A * list event * W) : list event := r.1.2.
Definition world_of {W A : Type} (r : outcome A * list event * W) : W := r.2.

Definition calls (tr : list event) : list call := ev_call <$> tr.
Definition lines (tr : list event) : list nat := line <$> calls tr.

Definition succeeded {A : Type} (o : outcome A) : Prop :=
  match o with Done _ => True | Failed _ => False end.

(** ** Python floats

    A float is a binary64 number; the model keeps its exact value as a
    rational and rounds after every operation to the nearest number with a
    53-bit significand, ties to even.  Exponent range is not modelled: row
    counts, file sizes and their quotients stay far inside it. *)

Definition ge_pow2 (n d l : Z) : bool :=
  if 0 <=? l then d * 2 ^ l <=? n else d <=? n * 2 ^ (- l).

Definition rnd_pos (n d : Z) : Q :=
  let l := Z.log2 n - Z.log2 d in
  let E := if ge_pow2 n d l then l else l - 1 in
  let e := E - 52 in
  let num := if 0 <=? e then n else n * 2 ^ (- e) in
  let den := if 0 <=? e then d * 2 ^ e else d in
  let m := num / den in
  let r := num mod den in
  let m' := if 2 * r <? den then m
            else if den <? 2 * r then m + 1
            else if Z.even m then m else m + 1 in
  Qred (if 0 <=? e then inject_Z (m' * 2 ^ e) else Qmake m' (Z.to_pos (2 ^ (- e)))).

Definition rnd (q : Q) : Q :=
  match Qnum q with
  | Z0 => 0%Q
  | Zpos _ => rnd_pos (Qnum q) (Zpos (Qden q))
  | Zneg _ => Qopp (rnd_pos (- Qnum q) (Zpos (Qden q)))
  end.

(** [float(n)], [a * b] on floats, [a / b] on ints (true division, correctly
    rounded) and on floats, [int(x)]. *)
Definition float_of_int (n : Z) : Q := rnd (inject_Z n).
Definition float_mul (a b : Q) : Q := rnd (a * b)%Q.
Definition int_truediv (a b : Z) : option Q :=
  if b =? 0 then None else Some (rnd (inject_Z a / inject_Z b)%Q).
Definition float_truediv (a b : Q) : option Q :=
  if Qeq_bool b 0 then None else Some (rnd (a / b)%Q).
Definition int_of_float (x : Q) : Z := Z.quot (Qnum x) (Zpos (Qden x)).

(** Nearest integer, ties to even: Python's [round(x)]. *)
Definition round_half_even (x : Q) : Z :=
  let n := Qnum x in
  let d := Zpos (Qden x) in
  let m := n / d in
  let r := n mod d in
  if 2 * r <? d then m
  else if d <? 2 * r then m + 1
  else if Z.even m then m else m + 1.

(** [round(x, 2)]: the decimal with two places nearest to the exact value of
    [x], ties to even, converted back to a float. *)
Definition round_ndigits2 (x : Q) : Q :=
  rnd (Qmake (round_half_even (x * 100)%Q) 100).

(** ** Python strings *)

(** [s.split(sep)] for a one-character separator. *)
Fixpoint split_on (sep : ascii) (s : string) : list string :=
  match s with
  | EmptyString => [EmptyString]
  | String c s' =>
      if Ascii.eqb c sep then EmptyString :: split_on sep s'
      else match split_on sep s' with
           | [] => [String c EmptyString]
           | w :: ws => String c w :: ws
           end
  end.

(** [l[-1]] on a list of strings that [split] returned (never empty). *)
Definition last_item (l : list string) : string := List.last l EmptyString.

(** ** The quantization notebook *)

Module Quant.

(** Imports of the notebook, in the order of the cells (lines 55, 186-187,
    228, 266, 414, 434, 490, 518-519, 574-575, 630-631). *)
Definition imports : list string :=
  [ "optimum.intel.version"; "evaluate"; "datasets"; "transformers.utils";
    "transformers"; "transformers"; "neural_compressor"; "numpy"; "copy";
    "optimum.intel.neural_compressor"; "os"; "torch";
    "optimum.intel.neural_compressor"; "optimum.onnxruntime" ].

(** The settings cell, lines 87-92.  The notebook is written to be run for
    any GLUE task, so the settings are a parameter of the program. *)
Record config : Type := Config {
  task : string;
  model_checkpoint : string;
  batch_size : Z;
  max_train_samples : Z;
  max_eval_samples : Z
}.

Definition GLUE_TASKS : list string :=
  ["cola"; "mnli"; "mnli-mm"; "mrpc"; "qnli"; "qqp"; "rte"; "sst2"; "stsb"; "wnli"].

Definition default_config : config :=
  {| task := "sst2";
     model_checkpoint := "distilbert-base-uncased-finetuned-sst-2-english";
     batch_size := 16;
     max_train_samples := 200;
     max_eval_samples := 200 |}.

(** Lines 288-299.  A value is the pair of column names; Python's [None] in
    the second place is [None]. *)
Definition task_to_keys : gmap string (string * option string) :=
  list_to_map
    [ ("cola", ("sentence", None));
      ("mnli", ("premise", Some "hypothesis"));
      ("mnli-mm", ("premise", Some "hypothesis"));
      ("mrpc", ("sentence1", Some "sentence2"));
      ("qnli", ("question", Some "sentence"));
      ("qqp", ("question1", Some "question2"));
      ("rte", ("sentence1", Some "sentence2"));
      ("sst2", ("sentence", None));
      ("stsb", ("sentence1", Some "sentence2"));
      ("wnli", ("sentence1", Some "sentence2")) ].

(** [task_to_keys[task]], line 320: a missing key raises [KeyError]. *)
Definition lookup_task (t : string) : prog (string * option string) :=
  match task_to_keys !! t with
  | Some ks => Ret ks
  | None => Raise (Exn "KeyError" t)
  end.

(** *** Functions defined in the notebook

    A function body reads module-level names when it runs, from the module's
    dictionary of globals; a name that is not there raises [NameError]. *)

Definition lookup_name (g : gmap string pyval) (x : string) : prog pyval :=
  match g !! x with
  | Some v => Ret v
  | None => Raise (Exn "NameError" x)
  end.

Definition is_none (v : pyval) : bool :=
  match v with PNone => true | _ => false end.

(** [v != s] for a string literal [s]. *)
Definition ne_str (v : pyval) (s : string) : bool :=
  match v with PStr s' => negb (String.eqb s' s) | _ => true end.

(** Lines 346-350. *)
Definition preprocess_function (g : gmap string pyval) (examples : pyval) : prog pyval :=
  s2 ← lookup_name g "sentence2_key";
  a ← (if is_none s2 then
         s1 ← lookup_name g "sentence1_key";
         x ← getitem 348 "examples" examples s1;
         Ret [x]
       else
         s1 ← lookup_name g "sentence1_key";
         x ← getitem 348 "examples" examples s1;
         s2' ← lookup_name g "sentence2_key";
         y ← getitem 348 "examples" examples s2';
         Ret [x; y]);
  tokenizer ← lookup_name g "tokenizer";
  padding ← lookup_name g "padding";
  max_seq_length ← lookup_name g "max_seq_length";
  method 350 "tokenizer" tokenizer a
    [("padding", padding); ("max_length", max_seq_length); ("truncation", PBool true)] TObj.

(** [a, b = v], line 493: [v] is iterated and must yield two items. *)
Definition unpack2 (ln : nat) (v : pyval) : prog (pyval * pyval) :=
  xs ← invoke ln "builtins" "iter" [v] [] TObjs;
  match xs with
  | [a; b] => Ret (a, b)
  | _ => Raise (Exn "ValueError" "unpack")
  end.

(** Lines 492-498. *)
Definition compute_metrics (g : gmap string pyval) (eval_pred : pyval) : prog pyval :=
  '(predictions, labels) ← unpack2 493 eval_pred;
  task ← lookup_name g "task";
  predictions ← (if ne_str task "stsb" then
                   np ← lookup_name g "np";
                   method 495 "np.argmax" np [predictions] [("axis", PInt 1)] TObj
                 else
                   getitem 497 "predictions" predictions
                     (PTuple [PSlice PNone PNone; PInt 0]));
  metric ← lookup_name g "metric";
  method 498 "metric.compute" metric []
    [("predictions", predictions); ("references", labels)] TObj.

(** [a / b] on ints inside a program: a zero divisor raises. *)
Definition truediv_int (a b : Z) : prog Q :=
  match int_truediv a b with
  | Some q => Ret q
  | None => Raise (Exn "ZeroDivisionError" "division by zero")
  end.

Definition truediv_float (a b : Q) : prog Q :=
  match float_truediv a b with
  | Some q => Ret q
  | None => Raise (Exn "ZeroDivisionError" "float division by zero")
  end.

(** Lines 577-581. *)
Definition get_model_size (model : pyval) : prog Q :=
  sd ← method 578 "model.state_dict" model [] [] TObj;
  invoke 578 "torch" "torch.save" [sd; PStr "tmp.pt"] [] TNone;;
  size ← invoke 579 "os" "os.path.getsize" [PStr "tmp.pt"] [] TInt;
  model_size ← truediv_int size (1024 * 1024);
  invoke 580 "os" "os.remove" [PStr "tmp.pt"] [] TNone;;
  Ret (round_ndigits2 model_size).

(** *** Top-level program *)

Definition actual_task (cfg : config) : string :=
  if String.eqb (task cfg) "mnli-mm" then "mnli" else task cfg.

Definition metric_name (cfg : config) : string :=
  if String.eqb (task cfg) "stsb" then "pearson"
  else if String.eqb (task cfg) "cola" then "matthews_correlation"
  else "accuracy".

Definition save_directory (cfg : config) : string :=
  last_item (split_on "/" (model_checkpoint cfg)) +:+ "-finetuned-" +:+ task cfg.

Definition validation_key (cfg : config) : string :=
  if String.eqb (task cfg) "mnli-mm" then "validation_mismatched"
  else if String.eqb (task cfg) "mnli" then "validation_matched"
  else "validation".

(** Lines 55-603: from the version check to [trainer.save_model]. *)
Definition main (cfg : config) : prog unit :=
  print 57 (PName "optimum.intel.version.__version__");;
  dataset ← invoke 190 "datasets" "load_dataset" [PStr "glue"; PStr (actual_task cfg)] [] TObj;
  metric ← invoke 191 "evaluate" "evaluate.load" [PStr "glue"; PStr (actual_task cfg)] [] TObj;
  invoke 230 "transformers.utils" "send_example_telemetry"
    [PStr "text_classification_quantization_inc_notebook"]
    [("framework", PStr "none")] TNone;;
  tokenizer ← invoke 268 "transformers" "AutoTokenizer.from_pretrained"
    [PStr (model_checkpoint cfg)] [] TObj;
  '(sentence1_key, sentence2_key) ← lookup_task (task cfg);
  match sentence2_key with
  | None =>
      d ← getitem 322 "dataset" dataset (PStr "train");
      r ← getitem 322 "dataset['train']" d (PInt 0);
      s ← getitem 322 "dataset['train'][0]" r (PStr sentence1_key);
      print 322 (PFStr [PStr "Sentence: "; s])
  | Some sentence2_key =>
      d ← getitem 324 "dataset" dataset (PStr "train");
      r ← getitem 324 "dataset['train']" d (PInt 0);
      s ← getitem 324 "dataset['train'][0]" r (PStr sentence1_key);
      print 324 (PFStr [PStr "Sentence 1: "; s]);;
      d ← getitem 325 "dataset" dataset (PStr "train");
      r ← getitem 325 "dataset['train']" d (PInt 0);
      s ← getitem 325 "dataset['train'][0]" r (PStr sentence2_key);
      print 325 (PFStr [PStr "Sentence 2: "; s])
  end;;
  model_max_length ← getattr 343 "tokenizer.model_max_length" tokenizer TInt;
  let max_seq_length := Z.min 128 model_max_length in
  let padding := "max_length" in
  encoded_dataset ← method 371 "dataset.map" dataset [PFun "preprocess_function"]
    [("batched", PBool true)] TObj;
  model ← invoke 416 "transformers" "AutoModelForSequenceClassification.from_pretrained"
    [PStr (model_checkpoint cfg)] [] TObj;
  quantization_config ← invoke 436 "neural_compressor" "QuantizationAwareTrainingConfig"
    [] [] TObj;
  args ← invoke 457 "transformers" "TrainingArguments" []
    [ ("output_dir", PStr (save_directory cfg));
      ("do_train", PBool true);
      ("do_eval", PBool false);
      ("eval_strategy", PStr "epoch");
      ("save_strategy", PStr "epoch");
      ("learning_rate", PFloat (2 # 100000));
      ("per_device_train_batch_size", PInt (batch_size cfg));
      ("per_device_eval_batch_size", PInt (batch_size cfg));
      ("num_train_epochs", PInt 1);
      ("weight_decay", PFloat (1 # 100));
      ("load_best_model_at_end", PBool true);
      ("metric_for_best_model", PStr (metric_name cfg)) ] TObj;
  tr ← getitem 527 "encoded_dataset" encoded_dataset (PStr "train");
  train_dataset ← method 527 "encoded_dataset['train'].select" tr
    [PRange (max_train_samples cfg)] [] TObj;
  ev ← getitem 528 "encoded_dataset" encoded_dataset (PStr (validation_key cfg));
  eval_dataset ← method 528 "encoded_dataset[validation_key].select" ev
    [PRange (max_eval_samples cfg)] [] TObj;
  trainer ← invoke 522 "optimum.intel.neural_compressor" "INCTrainer" []
    [ ("model", model);
      ("quantization_config", quantization_config);
      ("task", PStr "sequence-classification");
      ("args", args);
      ("train_dataset", train_dataset);
      ("eval_dataset", eval_dataset);
      ("compute_metrics", PFun "compute_metrics");
      ("tokenizer", tokenizer);
      ("data_collator", PName "transformers.default_data_collator") ] TObj;
  fp_model ← invoke 533 "copy" "copy.deepcopy" [model] [] TObj;
  method 549 "trainer.train" trainer [] [] TObj;;
  method 565 "trainer.evaluate" trainer [] [] TObj;;
  fp_model_size ← get_model_size fp_model;
  q_model ← getattr 584 "trainer.model" trainer TObj;
  q_model_size ← get_model_size q_model;
  print 586 (PFStr [ PStr "The full-precision model size is ";
                     PInt (round_half_even fp_model_size);
                     PStr " MB while the quantized model one is ";
                     PInt (round_half_even q_model_size);
                     PStr " MB." ]);;
  ratio ← truediv_float fp_model_size q_model_size;
  print 587 (PFStr [ PStr "The quantized model is ";
                     PFloat (round_ndigits2 ratio);
                     PStr "x smaller than the full-precision one." ]);;
  method 603 "trainer.save_model" trainer [] [("save_onnx_model", PBool true)] TNone.

(** Lines 630-634: the saved model is loaded back twice. *)
Definition reload (cfg : config) : prog unit :=
  invoke 633 "optimum.intel.neural_compressor"
    "INCModelForSequenceClassification.from_pretrained"
    [PStr (save_directory cfg)] [] TObj;;
  invoke 634 "optimum.onnxruntime" "ORTModelForSequenceClassification.from_pretrained"
    [PStr (save_directory cfg)] [] TObj;;
  Ret tt.

Definition notebook (cfg : config) : prog unit :=
  main cfg;; reload cfg.

End Quant.

(** ** The PatchTST notebook, [examples/patch_tst.ipynb] *)

Module PatchTST.

(** Imports, lines 74-94. *)
Definition imports : list string :=
  [ "os"; "transformers"; "numpy"; "pandas"; "tsfm_public.toolkit.dataset";
    "tsfm_public.toolkit.time_series_preprocessor"; "tsfm_public.toolkit.util";
    "warnings" ].

(** The settings cell, lines 146-154. *)
Record config : Type := Config {
  dataset_path : string;
  timestamp_column : string;
  id_columns : list string;
  context_length : Z;
  forecast_horizon : Z;
  patch_length : Z;
  num_workers : Z;
  batch_size : Z
}.

Definition default_config : config :=
  {| dataset_path := "~/data/ECL.csv";
     timestamp_column := "date";
     id_columns := [];
     context_length := 512;
     forecast_horizon := 96;
     patch_length := 16;
     num_workers := 16;
     batch_size := 64 |}.

Definition strs (l : list string) : pyval := PList (PStr <$> l).

(** *** The Electricity split, lines 170-189

    [len(data)] is written five times (lines 170, 171, 172, 176 and 178);
    each is a call of its own, so the computation takes the five answers. *)
Record split : Type := Split {
  num_train : Z;
  num_test : Z;
  num_valid : Z;
  border1s : list Z;
  border2s : list Z;
  train_start_index : Z;
  train_end_index : Z;
  valid_start_index : Z;
  valid_end_index : Z;
  test_start_index : Z;
  test_end_index : Z
}.

Definition split_of (len170 len171 len172 len176 len178 context_length : Z) : split :=
  let num_train := int_of_float (float_mul (float_of_int len170) (rnd (7 # 10))) in
  let num_test := int_of_float (float_mul (float_of_int len171) (rnd (2 # 10))) in
  let num_valid := len172 - num_train - num_test in
  let border1s := [0; num_train - context_length; len176 - num_test - context_length] in
  let border2s := [num_train; num_train + num_valid; len178] in
  {| num_train := num_train;
     num_test := num_test;
     num_valid := num_valid;
     border1s := border1s;
     border2s := border2s;
     train_start_index := border1s !!! 0%nat;
     train_end_index := border2s !!! 0%nat;
     valid_start_index := border1s !!! 1%nat;
     valid_end_index := border2s !!! 1%nat;
     test_start_index := border1s !!! 2%nat;
     test_end_index := border2s !!! 2%nat |}.

(** The split of a dataframe of [len_data] rows: every [len(data)] answers
    [len_data]. *)
Definition electricity_split (len_data context_length : Z) : split :=
  split_of len_data len_data len_data len_data len_data context_length.

Definition nl : string := String (ascii_of_nat 10) EmptyString.

(** *** Top-level program *)

(** Lines 96 and 112. *)
Definition prologue : prog unit :=
  invoke 96 "warnings" "warnings.filterwarnings" [PStr "ignore"] [("module", PStr "torch")] TNone;;
  invoke 112 "transformers" "set_seed" [PInt 2023] [] TNone.

Definition select_by_index (ln : nat) (data : pyval) (ids : list string)
    (start_index end_index : pyval) : prog pyval :=
  invoke ln "tsfm_public.toolkit.util" "select_by_index" [data]
    [ ("id_columns", strs ids); ("start_index", start_index); ("end_index", end_index) ] TObj.

Definition make_preprocessor (ln : nat) (ts : string) (ids : list string)
    (forecast_columns : list pyval) : prog pyval :=
  invoke ln "tsfm_public.toolkit.time_series_preprocessor" "TimeSeriesPreprocessor" []
    [ ("timestamp_column", PStr ts);
      ("id_columns", strs ids);
      ("input_columns", PList forecast_columns);
      ("output_columns", PList forecast_columns);
      ("scaling", PBool true) ] TObj.

(** Part 1, lines 163-415: pre-training on the Electricity data. *)
Definition part1 (cfg : config) : prog unit :=
  data ← invoke 163 "pandas" "pd.read_csv" [PStr (dataset_path cfg)]
    [("parse_dates", strs [timestamp_column cfg])] TObj;
  columns ← getattr 167 "data.columns" data TObj;
  tail ← getitem 167 "data.columns" columns (PSlice (PInt 1) PNone);
  forecast_columns ← invoke 167 "builtins" "list" [tail] [] TObjs;
  len170 ← invoke 170 "builtins" "len" [data] [] TInt;
  len171 ← invoke 171 "builtins" "len" [data] [] TInt;
  len172 ← invoke 172 "builtins" "len" [data] [] TInt;
  len176 ← invoke 176 "builtins" "len" [data] [] TInt;
  len178 ← invoke 178 "builtins" "len" [data] [] TInt;
  let s := split_of len170 len171 len172 len176 len178 (context_length cfg) in
  train_data ← select_by_index 191 data (id_columns cfg)
    (PInt (train_start_index s)) (PInt (train_end_index s));
  valid_data ← select_by_index 197 data (id_columns cfg)
    (PInt (valid_start_index s)) (PInt (valid_end_index s));
  test_data ← select_by_index 203 data (id_columns cfg)
    (PInt (test_start_index s)) (PInt (test_end_index s));
  time_series_preprocessor ← make_preprocessor 210 (timestamp_column cfg) (id_columns cfg)
    forecast_columns;
  time_series_preprocessor ← method 217 "time_series_preprocessor.train"
    time_series_preprocessor [train_data] [] TObj;
  let dataset_kwargs :=
    [ ("id_columns", strs (id_columns cfg));
      ("timestamp_column", PStr "date");
      ("input_columns", PList forecast_columns);
      ("output_columns", PList forecast_columns);
      ("context_length", PInt (context_length cfg));
      ("prediction_length", PInt (forecast_horizon cfg)) ] in
  p ← method 227 "time_series_preprocessor.preprocess" time_series_preprocessor
    [train_data] [] TObj;
  train_dataset ← invoke 226 "tsfm_public.toolkit.dataset" "ForecastDFDataset" [p]
    dataset_kwargs TObj;
  p ← method 236 "time_series_preprocessor.preprocess" time_series_preprocessor
    [valid_data] [] TObj;
  valid_dataset ← invoke 235 "tsfm_public.toolkit.dataset" "ForecastDFDataset" [p]
    dataset_kwargs TObj;
  p ← method 245 "time_series_preprocessor.preprocess" time_series_preprocessor
    [test_data] [] TObj;
  test_dataset ← invoke 244 "tsfm_public.toolkit.dataset" "ForecastDFDataset" [p]
    dataset_kwargs TObj;
  config ← invoke 294 "transformers" "PatchTSTConfig" []
    [ ("num_input_channels", PInt (Z.of_nat (length forecast_columns)));
      ("context_length", PInt (context_length cfg));
      ("patch_length", PInt (patch_length cfg));
      ("patch_stride", PInt (patch_length cfg));
      ("prediction_length", PInt (forecast_horizon cfg));
      ("random_mask_ratio", PFloat (4 # 10));
      ("d_model", PInt 128);
      ("num_attention_heads", PInt 16);
      ("num_hidden_layers", PInt 3);
      ("ffn_dim", PInt 256);
      ("dropout", PFloat (2 # 10));
      ("head_dropout", PFloat (2 # 10));
      ("pooling_type", PNone);
      ("channel_attention", PBool false);
      ("scaling", PStr "std");
      ("loss", PStr "mse");
      ("pre_norm", PBool true);
      ("norm_type", PStr "batchnorm") ] TObj;
  model ← invoke 314 "transformers" "PatchTSTForPrediction" [config] [] TObj;
  training_args ← invoke 332 "transformers" "TrainingArguments" []
    [ ("output_dir", PStr "./checkpoint/patchtst/electricity/pretrain/output/");
      ("overwrite_output_dir", PBool true);
      ("num_train_epochs", PInt 100);
      ("do_eval", PBool true);
      ("eval_strategy", PStr "epoch");
      ("per_device_train_batch_size", PInt (batch_size cfg));
      ("per_device_eval_batch_size", PInt (batch_size cfg));
      ("dataloader_num_workers", PInt (num_workers cfg));
      ("save_strategy", PStr "epoch");
      ("logging_strategy", PStr "epoch");
      ("save_total_limit", PInt 3);
      ("logging_dir", PStr "./checkpoint/patchtst/electricity/pretrain/logs/");
      ("load_best_model_at_end", PBool true);
      ("metric_for_best_model", PStr "eval_loss");
      ("greater_is_better", PBool false);
      ("label_names", strs ["future_values"]) ] TObj;
  early_stopping_callback ← invoke 353 "transformers" "EarlyStoppingCallback" []
    [ ("early_stopping_patience", PInt 10);
      ("early_stopping_threshold", PFloat (1 # 10000)) ] TObj;
  trainer ← invoke 359 "transformers" "Trainer" []
    [ ("model", model);
      ("args", training_args);
      ("train_dataset", train_dataset);
      ("eval_dataset", valid_dataset);
      ("callbacks", PList [early_stopping_callback]) ] TObj;
  method 369 "trainer.train" trainer [] [] TObj;;
  results ← method 388 "trainer.evaluate" trainer [test_dataset] [] TObj;
  print 389 (PStr "Test result:");;
  print 390 results;;
  let save_dir := "patchtst/electricity/model/pretrain/" in
  invoke 414 "os" "os.makedirs" [PStr save_dir] [("exist_ok", PBool true)] TNone;;
  method 415 "trainer.save_model" trainer [PStr save_dir] [] TNone.

(** Line 452. *)
Definition dataset : string := "ETTh1".

Definition finetune_kwargs (cfg : config) : list (string * pyval) :=
  [ ("output_dir", PStr "./checkpoint/patchtst/transfer/finetune/output/");
    ("overwrite_output_dir", PBool true);
    ("learning_rate", PFloat (1 # 10000));
    ("num_train_epochs", PInt 100);
    ("do_eval", PBool true);
    ("eval_strategy", PStr "epoch");
    ("per_device_train_batch_size", PInt (batch_size cfg));
    ("per_device_eval_batch_size", PInt (batch_size cfg));
    ("dataloader_num_workers", PInt (num_workers cfg));
    ("report_to", PStr "tensorboard");
    ("save_strategy", PStr "epoch");
    ("logging_strategy", PStr "epoch");
    ("save_total_limit", PInt 3);
    ("logging_dir", PStr "./checkpoint/patchtst/transfer/finetune/logs/");
    ("load_best_model_at_end", PBool true);
    ("metric_for_best_model", PStr "eval_loss");
    ("greater_is_better", PBool false);
    ("label_names", strs ["future_values"]) ].

(** Part 2, lines 452-736: transfer to ETTh1.  The settings of lines 150-154
    are still in force; lines 462-464 rebind the path and the column
    names. *)
Definition part2 (cfg : config) : prog unit :=
  print 461 (PFStr [PStr "Loading target dataset: "; PStr dataset]);;
  let dataset_path :=
    "https://raw.githubusercontent.com/zhouhaoyi/ETDataset/main/ETT-small/"
      +:+ dataset +:+ ".csv" in
  let timestamp_column := "date" in
  let id_columns : list string := [] in
  let forecast_columns := PStr <$> ["HUFL"; "HULL"; "MUFL"; "MULL"; "LUFL"; "LULL"; "OT"] in
  let train_start_index := PNone in
  let train_end_index := 12 * 30 * 24 in
  let valid_start_index := 12 * 30 * 24 - context_length cfg in
  let valid_end_index := 12 * 30 * 24 + 4 * 30 * 24 in
  let test_start_index := 12 * 30 * 24 + 4 * 30 * 24 - context_length cfg in
  let test_end_index := 12 * 30 * 24 + 8 * 30 * 24 in
  data ← invoke 484 "pandas" "pd.read_csv" [PStr dataset_path]
    [("parse_dates", strs [timestamp_column])] TObj;
  train_data ← select_by_index 489 data id_columns train_start_index (PInt train_end_index);
  valid_data ← select_by_index 495 data id_columns
    (PInt valid_start_index) (PInt valid_end_index);
  test_data ← select_by_index 501 data id_columns
    (PInt test_start_index) (PInt test_end_index);
  time_series_preprocessor ← make_preprocessor 508 timestamp_column id_columns
    forecast_columns;
  time_series_preprocessor ← method 515 "time_series_preprocessor.train"
    time_series_preprocessor [train_data] [] TObj;
  let dataset_kwargs :=
    [ ("id_columns", strs id_columns);
      ("input_columns", PList forecast_columns);
      ("output_columns", PList forecast_columns);
      ("context_length", PInt (context_length cfg));
      ("prediction_length", PInt (forecast_horizon cfg)) ] in
  p ← method 525 "time_series_preprocessor.preprocess" time_series_preprocessor
    [train_data] [] TObj;
  train_dataset ← invoke 524 "tsfm_public.toolkit.dataset" "ForecastDFDataset" [p]
    dataset_kwargs TObj;
  p ← method 533 "time_series_preprocessor.preprocess" time_series_preprocessor
    [valid_data] [] TObj;
  valid_dataset ← invoke 532 "tsfm_public.toolkit.dataset" "ForecastDFDataset" [p]
    dataset_kwargs TObj;
  p ← method 541 "time_series_preprocessor.preprocess" time_series_preprocessor
    [test_data] [] TObj;
  test_dataset ← invoke 540 "tsfm_public.toolkit.dataset" "ForecastDFDataset" [p]
    dataset_kwargs TObj;
  finetune_forecast_model ← invoke 565 "transformers" "PatchTSTForPrediction.from_pretrained"
    [PStr "patchtst/electricity/model/pretrain/"]
    [ ("num_input_channels", PInt (Z.of_nat (length forecast_columns)));
      ("head_dropout", PFloat (7 # 10)) ] TObj;
  finetune_forecast_args ← invoke 578 "transformers" "TrainingArguments" []
    (finetune_kwargs cfg) TObj;
  early_stopping_callback ← invoke 600 "transformers" "EarlyStoppingCallback" []
    [ ("early_stopping_patience", PInt 10);
      ("early_stopping_threshold", PFloat (1 # 1000)) ] TObj;
  finetune_forecast_trainer ← invoke 605 "transformers" "Trainer" []
    [ ("model", finetune_forecast_model);
      ("args", finetune_forecast_args);
      ("train_dataset", train_dataset);
      ("eval_dataset", valid_dataset);
      ("callbacks", PList [early_stopping_callback]) ] TObj;
  print 613 (PStr (nl +:+ nl +:+ "Doing zero-shot forecasting on target data"));;
  result ← method 614 "finetune_forecast_trainer.evaluate" finetune_forecast_trainer
    [test_dataset] [] TObj;
  print 615 (PStr "Target data zero-shot forecasting result:");;
  print 616 result;;
  m ← getattr 644 "finetune_forecast_trainer.model" finetune_forecast_trainer TObj;
  backbone ← getattr 644 "finetune_forecast_trainer.model.model" m TObj;
  parameters ← method 644 "finetune_forecast_trainer.model.model.parameters" backbone
    [] [] TObjs;
  for_each parameters (fun param =>
    setattr 645 "param.requires_grad" param (PBool false));;
  print 647 (PStr (nl +:+ nl +:+ "Linear probing on the target data"));;
  method 648 "finetune_forecast_trainer.train" finetune_forecast_trainer [] [] TObj;;
  print 649 (PStr "Evaluating");;
  result ← method 650 "finetune_forecast_trainer.evaluate" finetune_forecast_trainer
    [test_dataset] [] TObj;
  print 651 (PStr "Target data head/linear probing result:");;
  print 652 result;;
  let save_dir := "patchtst/electricity/model/transfer/" +:+ dataset
                    +:+ "/model/linear_probe/" in
  invoke 669 "os" "os.makedirs" [PStr save_dir] [("exist_ok", PBool true)] TNone;;
  method 670 "finetune_forecast_trainer.save_model" finetune_forecast_trainer
    [PStr save_dir] [] TNone;;
  let save_dir := "patchtst/electricity/model/transfer/" +:+ dataset
                    +:+ "/preprocessor/" in
  invoke 673 "os" "os.makedirs" [PStr save_dir] [("exist_ok", PBool true)] TNone;;
  method 674 "time_series_preprocessor.save_pretrained" time_series_preprocessor
    [PStr save_dir] [] TObj;;
  finetune_forecast_model ← invoke 700 "transformers" "PatchTSTForPrediction.from_pretrained"
    [PStr "patchtst/electricity/model/pretrain/"]
    [ ("num_input_channels", PInt (Z.of_nat (length forecast_columns)));
      ("dropout", PFloat (7 # 10));
      ("head_dropout", PFloat (7 # 10)) ] TObj;
  finetune_forecast_trainer ← invoke 706 "transformers" "Trainer" []
    [ ("model", finetune_forecast_model);
      ("args", finetune_forecast_args);
      ("train_dataset", train_dataset);
      ("eval_dataset", valid_dataset);
      ("callbacks", PList [early_stopping_callback]) ] TObj;
  print 713 (PStr (nl +:+ nl +:+ "Finetuning on the target data"));;
  method 714 "finetune_forecast_trainer.train" finetune_forecast_trainer [] [] TObj;;
  print 715 (PStr "Evaluating");;
  result ← method 716 "finetune_forecast_trainer.evaluate" finetune_forecast_trainer
    [test_dataset] [] TObj;
  print 717 (PStr "Target data full finetune result:");;
  print 718 result;;
  let save_dir := "patchtst/electricity/model/transfer/" +:+ dataset
                    +:+ "/model/fine_tuning/" in
  invoke 735 "os" "os.makedirs" [PStr save_dir] [("exist_ok", PBool true)] TNone;;
  method 736 "finetune_forecast_trainer.save_model" finetune_forecast_trainer
    [PStr save_dir] [] TNone.

Definition notebook (cfg : config) : prog unit :=
  prologue;; part1 cfg;; part2 cfg.

(** The keywords of a [select_by_index] call. *)
Definition index_kwargs (ids : list string) (start_index end_index : Z)
    : list (string * pyval) :=
  [ ("id_columns", strs ids); ("start_index", PInt start_index);
    ("end_index", PInt end_index) ].

(** The integers written in the notebook: the settings of lines 150-154 and
    the literals of the other cells. *)
Definition int_literals (cfg : config) : list Z :=
  [ context_length cfg; forecast_horizon cfg; patch_length cfg; num_workers cfg;
    batch_size cfg; 2023; 1; 0; 128; 16; 3; 256; 100; 10; 12; 30; 24; 4; 8 ].

End PatchTST.

(** ** Libraries *)

(** A library that never fails: it numbers the objects it hands out, lists
    hold [k] objects, every dataframe has 1000 rows, every file written by
    [torch.save] has 256 MiB, a tokenizer takes 512 tokens. *)
Definition sample_int (c : call) : Z :=
  if String.eqb (callee c) "len" then 1000
  else if String.eqb (callee c) "os.path.getsize" then 268435456
  else 512.

Definition sample_answer (k : nat) (c : call) (w : N) (t : rty) : rval t :=
  match t with
  | TNone => tt
  | TInt => sample_int c
  | TObj => PObj w
  | TObjs => (fun i => PObj (w + N.of_nat i)) <$> seq 0 k
  end.

Definition sample_library (k : nat) : library N :=
  fun c w => (inr (sample_answer k c w (ret c)), (w + 1 + N.of_nat k)%N).

(** The same library, except that the call written on line [ln] raises. *)
Definition failing_library (ln : nat) (e : exn) : library N :=
  fun c w => if Nat.eqb (line c) ln then (inl e, w) else sample_library 2 c w.

(** A library that answers every call with a description of the call: the
    callee and what it was given.  Results then show what was asked for. *)
Definition describe (c : call) : list pyval :=
  PStr (callee c) :: (args c ++ (snd <$> kwargs c))%list.

Definition symbolic_answer (c : call) (t : rty) : rval t :=
  match t with
  | TNone => tt
  | TInt => 0
  | TObj => PTuple (describe c)
  | TObjs => [PTuple (PInt 0 :: describe c); PTuple (PInt 1 :: describe c)]
  end.

Definition symbolic_library : library unit :=
  fun c w => (inr (symbolic_answer c (ret c)), w).

(** *** Files

    What [torch.save], [os.path.getsize] and [os.remove] do to the files of
    the working directory.  A file is known by its path; what is in a file
    is left open ([file]), only its size in bytes is looked at.
    [state_dict] is the answer of [model.state_dict()] and [pickle] what
    [torch.save] writes for it. *)
Section Files.

Context {file : Type}.
Variable file_size : file -> Z.
Variable state_dict : pyval -> pyval.
Variable pickle : pyval -> file.

Definition give_none (t : rty) : exn + rval t :=
  match t with TNone => inr tt | _ => inl (Exn "TypeError" "no value") end.

Definition give_int (z : Z) (t : rty) : exn + rval t :=
  match t with TInt => inr z | _ => inl (Exn "TypeError" "int") end.

Definition give_obj (v : pyval) (t : rty) : exn + rval t :=
  match t with TObj => inr v | _ => inl (Exn "TypeError" "object") end.

Definition file_library : library (gmap string file) :=
  fun c fs =>
    if String.eqb (callee c) "model.state_dict" then
      match recv c with
      | Some m => (give_obj (state_dict m) (ret c), fs)
      | None => (inl (Exn "TypeError" "state_dict"), fs)
      end
    else if String.eqb (callee c) "torch.save" then
      match args c with
      | [v; PStr path] => (give_none (ret c), <[path := pickle v]> fs)
      | _ => (inl (Exn "TypeError" "torch.save"), fs)
      end
    else if String.eqb (callee c) "os.path.getsize" then
      match args c with
      | [PStr path] =>
          match fs !! path with
          | Some f => (give_int (file_size f) (ret c), fs)
          | None => (inl (Exn "FileNotFoundError" path), fs)
          end
      | _ => (inl (Exn "TypeError" "os.path.getsize"), fs)
      end
    else if String.eqb (callee c) "os.remove" then
      match args c with
      | [PStr path] =>
          match fs !! path with
          | Some _ => (give_none (ret c), delete path fs)
          | None => (inl (Exn "FileNotFoundError" path), fs)
          end
      | _ => (inl (Exn "TypeError" "os.remove"), fs)
      end
    else (inl (Exn "NotImplementedError" (callee c)), fs).

End Files.

(** ** Observations on runs *)

(** *** The pipeline of the specification

    The specification names six steps, the fifth being two calls: load the
    dataset, load the tokenizer or preprocessor, configure the model and
    the training arguments, instantiate a trainer, train and evaluate, save.
    [phase_of] says which calls of the notebooks perform which step; a call
    that performs none of them (printing, preparing splits, measuring the
    model, creating a directory) has no phase. *)
Inductive phase : Type :=
| LoadDataset | LoadTokenizer | Configure | MakeTrainer | Train | Evaluate | Save.

Definition pipeline : list phase :=
  [LoadDataset; LoadTokenizer; Configure; MakeTrainer; Train; Evaluate; Save].

Definition phase_table : list (string * phase) :=
  [ ("load_dataset", LoadDataset);
    ("pd.read_csv", LoadDataset);
    ("AutoTokenizer.from_pretrained", LoadTokenizer);
    ("TimeSeriesPreprocessor", LoadTokenizer);
    ("AutoModelForSequenceClassification.from_pretrained", Configure);
    ("QuantizationAwareTrainingConfig", Configure);
    ("TrainingArguments", Configure);
    ("PatchTSTConfig", Configure);
    ("PatchTSTForPrediction", Configure);
    ("PatchTSTForPrediction.from_pretrained", Configure);
    ("EarlyStoppingCallback", Configure);
    ("INCModelForSequenceClassification.from_pretrained", Configure);
    ("ORTModelForSequenceClassification.from_pretrained", Configure);
    ("INCTrainer", MakeTrainer);
    ("Trainer", MakeTrainer);
    ("trainer.train", Train);
    ("finetune_forecast_trainer.train", Train);
    ("trainer.evaluate", Evaluate);
    ("finetune_forecast_trainer.evaluate", Evaluate);
    ("trainer.save_model", Save);
    ("finetune_forecast_trainer.save_model", Save);
    ("time_series_preprocessor.save_pretrained", Save) ].

Definition mem (s : string) (l : list string) : bool := existsb (String.eqb s) l.

Fixpoint assoc {V : Type} (k : string) (l : list (string * V)) : option V :=
  match l with
  | [] => None
  | (k', v) :: l' => if String.eqb k k' then Some v else assoc k l'
  end.

Definition phase_of (c : call) : option phase := assoc (callee c) phase_table.

Definition phases (tr : list event) : list phase := omap phase_of (calls tr).

Definition phase_eqb (a b : phase) : bool :=
  match a, b with
  | LoadDataset, LoadDataset | LoadTokenizer, LoadTokenizer | Configure, Configure
  | MakeTrainer, MakeTrainer | Train, Train | Evaluate, Evaluate | Save, Save => true
  | _, _ => false
  end.

(** Consecutive calls of one step count as that step once. *)
Fixpoint squash (l : list phase) : list phase :=
  match l with
  | [] => []
  | a :: l' =>
      match l' with
      | b :: _ => if phase_eqb a b then squash l' else a :: squash l'
      | [] => [a]
      end
  end.

(** The run went through the steps of the pipeline once each, in order. *)
Definition linear_pipeline (tr : list event) : Prop :=
  squash (phases tr) = pipeline.

(** *** Straight-line programs

    A program is straight-line when every run that completes goes through
    the same call sites in the same order, whatever the settings and
    whatever the libraries answer. *)
Definition straight_line_except {C : Type} (skip : list nat) (nb : C -> prog unit) : Prop :=
  ∃ sites : list nat,
    ∀ (W : Type) (lib : library W) (w : W) (cfg : C),
      succeeded (result_of (run lib (nb cfg) w)) →
      filter (λ ln, ln ∉ skip) (lines (trace_of (run lib (nb cfg) w))) = sites.

Definition straight_line {C : Type} (nb : C -> prog unit) : Prop :=
  straight_line_except [] nb.

(** *** Integers handed to libraries *)

Definition int_of (v : pyval) : option Z :=
  match v with PInt z => Some z | _ => None end.

Definition int_args (c : call) : list Z :=
  omap int_of (args c ++ (snd <$> kwargs c))%list.

Definition int_answer (e : event) : list Z :=
  match ev_ans e with inr (PInt z) => [z] | _ => [] end.

(** Every integer argument of every call is one of [known] or an integer
    some earlier call answered: nothing computed in between. *)
Fixpoint passes_ints (known : list Z) (tr : list event) : bool :=
  match tr with
  | [] => true
  | e :: tr' =>
      forallb (λ z, bool_decide (z ∈ known)) (int_args (ev_call e))
      && passes_ints (int_answer e ++ known)%list tr'
  end.

(** The integer answered by the call on line [ln] (the first, if several). *)
Fixpoint int_at (ln : nat) (tr : list event) : Z :=
  match tr with
  | [] => 0
  | e :: tr' =>
      if Nat.eqb (line (ev_call e)) ln then
        match ev_ans e with inr (PInt z) => z | _ => int_at ln tr' end
      else int_at ln tr'
  end.

(** The calls written on line [ln]. *)
Definition calls_at (ln : nat) (tr : list event) : list call :=
  filter (λ c, line c = ln) (calls tr).

(** *** Values computed between calls *)

(** The three [select_by_index] calls of Part 1 of the PatchTST notebook
    are given the borders computed from what the five [len(data)] of lines
    170-178 answered. *)
Definition borders_handed_over (cfg : PatchTST.config) (tr : list event) : Prop :=
  let s := PatchTST.split_of (int_at 170 tr) (int_at 171 tr) (int_at 172 tr)
             (int_at 176 tr) (int_at 178 tr) (PatchTST.context_length cfg) in
  kwargs <$> calls_at 191 tr
  = [PatchTST.index_kwargs (PatchTST.id_columns cfg)
       (PatchTST.train_start_index s) (PatchTST.train_end_index s)]
  /\ kwargs <$> calls_at 197 tr
     = [PatchTST.index_kwargs (PatchTST.id_columns cfg)
          (PatchTST.valid_start_index s) (PatchTST.valid_end_index s)]
  /\ kwargs <$> calls_at 203 tr
     = [PatchTST.index_kwargs (PatchTST.id_columns cfg)
          (PatchTST.test_start_index s) (PatchTST.test_end_index s)].

(** The second call of [compute_metrics] is [np.argmax] or a subscript, and
    what it answers is what [metric.compute] gets as predictions. *)
Definition metric_gets_reduced (tr : list event) : Prop :=
  exists (e : event) (reduced : pyval),
    tr !! 1%nat = Some e
    /\ (callee (ev_call e) = "np.argmax" \/ kind (ev_call e) = GetItem)
    /\ ev_ans e = inr reduced
    /\ (fun c => assoc "predictions" (kwargs c)) <$> calls_at 498 tr = [Some reduced].

(** *** Concurrency *)

(** Python's modules for threads, processes, locks and asynchronous
    tasks, and those of the libraries the notebooks import. *)
Definition concurrency_modules : list string :=
  [ "threading"; "_thread"; "multiprocessing"; "concurrent"; "asyncio";
    "subprocess"; "queue"; "sched"; "signal"; "contextvars"; "selectors";
    "socketserver"; "pty"; "torch.multiprocessing"; "torch.distributed";
    "torch.futures"; "joblib" ].

(** [name] is the module [m] or lies inside it. *)
Definition within (m name : string) : bool :=
  String.eqb m name || String.prefix (m +:+ ".") name.

Definition concurrent_module (m : string) : bool :=
  existsb (λ cm, within cm m) concurrency_modules.

(** Functions of general modules ([os], [torch]) that start, replace, signal
    or wait for a process or a thread, or synchronise with one; a callee is
    one of them when its name starts like this. *)
Definition process_functions : list string :=
  [ "os.fork"; "os.forkpty"; "os.spawn"; "os.exec"; "os.posix_spawn"; "os.system";
    "os.popen"; "os.startfile"; "os.kill"; "os.killpg"; "os.wait"; "os.abort";
    "os._exit"; "os.pipe"; "os.register_at_fork"; "os.nice"; "os.sched_";
    "torch.multiprocessing"; "torch.distributed"; "torch.futures"; "torch.jit.fork";
    "torch.jit.wait"; "torch.cuda.Stream"; "torch.cuda.stream"; "torch.cuda.Event";
    "torch.cuda.synchronize"; "torch.set_num_threads"; "torch.set_num_interop_threads";
    "torch.nn.DataParallel"; "torch.nn.parallel" ].

Definition process_function (f : string) : bool :=
  existsb (λ p, String.prefix p f) process_functions.

(** The functions of imported modules and of the built-ins that the
    notebooks and the functions they define call, each with its module. *)
Definition module_functions : list (string * string) :=
  [ ("builtins", "print"); ("builtins", "len"); ("builtins", "list"); ("builtins", "iter");
    ("datasets", "load_dataset"); ("evaluate", "evaluate.load");
    ("transformers.utils", "send_example_telemetry");
    ("transformers", "AutoTokenizer.from_pretrained");
    ("transformers", "AutoModelForSequenceClassification.from_pretrained");
    ("neural_compressor", "QuantizationAwareTrainingConfig");
    ("transformers", "TrainingArguments");
    ("optimum.intel.neural_compressor", "INCTrainer");
    ("copy", "copy.deepcopy"); ("torch", "torch.save");
    ("os", "os.path.getsize"); ("os", "os.remove"); ("os", "os.makedirs");
    ("optimum.intel.neural_compressor", "INCModelForSequenceClassification.from_pretrained");
    ("optimum.onnxruntime", "ORTModelForSequenceClassification.from_pretrained");
    ("warnings", "warnings.filterwarnings"); ("transformers", "set_seed");
    ("pandas", "pd.read_csv"); ("tsfm_public.toolkit.util", "select_by_index");
    ("tsfm_public.toolkit.time_series_preprocessor", "TimeSeriesPreprocessor");
    ("tsfm_public.toolkit.dataset", "ForecastDFDataset");
    ("transformers", "PatchTSTConfig"); ("transformers", "PatchTSTForPrediction");
    ("transformers", "PatchTSTForPrediction.from_pretrained");
    ("transformers", "EarlyStoppingCallback"); ("transformers", "Trainer") ].

(** The call is on an object a library handed out, or it is a call of one of
    [module_functions]. *)
Definition known_function (c : call) : bool :=
  match recv c with
  | Some _ => true
  | None =>
      existsb (λ mf, String.eqb (modl c) mf.1 && String.eqb (callee c) mf.2) module_functions
  end.

(** The parameters through which the notebooks ask a library for parallel
    work. *)
Definition parallel_parameters : list string :=
  ["num_workers"; "dataloader_num_workers"; "batched"].

Definition scalar (v : pyval) : bool :=
  match v with PInt _ | PBool _ => true | _ => false end.

(** The call is not into a concurrency module, it is not a call of a
    function that starts or synchronises a process or a thread, and where
    it names a parallelism parameter it gives it a number or a boolean. *)
Definition sequential_call (c : call) : bool :=
  negb (concurrent_module (modl c))
  && negb (process_function (callee c))
  && forallb (λ kv, implb (mem kv.1 parallel_parameters) (scalar kv.2)) (kwargs c).

(** The call goes to a library: it is a method, attribute or subscript of an
    object a library handed out, or a function of an imported module or of
    Python's built-ins. *)
Definition library_call (imports : list string) (c : call) : bool :=
  match recv c with
  | Some _ => true
  | None => mem (modl c) ("builtins" :: imports)
  end.

(** The events of [for x in xs: x.f = v]. *)
Definition loop_events (ln : nat) (f : string) (v : pyval) (xs : list pyval) : list event :=
  (λ x, Event (Call ln SetAttr EmptyString f (Some x) [v] [] TNone) (inr PNone)) <$> xs.

(** Every call of [f] hands it the keyword [k] with value [v]. *)
Definition passes (f k : string) (v : pyval) (c : call) : Prop :=
  callee c = f -> assoc k (kwargs c) = Some v.

(** *** The events of one line *)

(** The events of the calls written on line [ln], in the order of the
    calls. *)
Definition events_at (ln : nat) (tr : list event) : list event :=
  filter (λ e, line (ev_call e) = ln) tr.

Definition answered (e : event) : option pyval :=
  match ev_ans e with inr v => Some v | inl _ => None end.

(** What these calls answered, what they were called on, and what they were
    given. *)
Definition answers_at (ln : nat) (tr : list event) : list pyval :=
  omap answered (events_at ln tr).

Definition recv_at (ln : nat) (tr : list event) : list (option pyval) :=
  (λ e, recv (ev_call e)) <$> events_at ln tr.

Definition args_at (ln : nat) (tr : list event) : list (list pyval) :=
  (λ e, args (ev_call e)) <$> events_at ln tr.

Definition kwarg_at (ln : nat) (k : string) (tr : list event) : list (option pyval) :=
  (λ e, assoc k (kwargs (ev_call e))) <$> events_at ln tr.

Definition callee_at (ln : nat) (tr : list event) : list string :=
  (λ e, callee (ev_call e)) <$> events_at ln tr.

(** *** Saving *)

(** The directories a run created with [os.makedirs], and the directories
    into which it had a trainer save its model, in the order of the calls;
    only calls that returned count. *)
Definition made_dir (e : event) : option string :=
  if String.eqb (callee (ev_call e)) "os.makedirs" then
    match ev_ans e, args (ev_call e) with
    | inr _, [PStr d] => Some d
    | _, _ => None
    end
  else None.

Definition model_dir (e : event) : option string :=
  if mem (callee (ev_call e)) ["trainer.save_model"; "finetune_forecast_trainer.save_model"]
  then
    match ev_ans e, recv (ev_call e), args (ev_call e) with
    | inr _, Some _, [PStr d] => Some d
    | _, _, _ => None
    end
  else None.

Definition made_dirs (tr : list event) : list string := omap made_dir tr.
Definition model_dirs (tr : list event) : list string := omap model_dir tr.

(** The run built training arguments with output directory [dir] (line 457)
    and a quantization configuration (line 436), built the trainer from the
    two (line 522), had this trainer train (line 549), and after that had
    it save its model with no other directory named and with the ONNX
    export asked for (line 603); each of these calls returned. *)
Definition saves_to_output_dir (dir : string) (tr : list event) : Prop :=
  exists quantization_config training_args trainer trained : pyval,
    callee_at 436 tr = ["QuantizationAwareTrainingConfig"]
    /\ answers_at 436 tr = [quantization_config]
    /\ callee_at 457 tr = ["TrainingArguments"]
    /\ kwarg_at 457 "output_dir" tr = [Some (PStr dir)]
    /\ answers_at 457 tr = [training_args]
    /\ callee_at 522 tr = ["INCTrainer"]
    /\ kwarg_at 522 "quantization_config" tr = [Some quantization_config]
    /\ kwarg_at 522 "args" tr = [Some training_args]
    /\ answers_at 522 tr = [trainer]
    /\ callee_at 549 tr = ["trainer.train"]
    /\ recv_at 549 tr = [Some trainer]
    /\ answers_at 549 tr = [trained]
    /\ callee_at 603 tr = ["trainer.save_model"]
    /\ recv_at 603 tr = [Some trainer]
    /\ args_at 603 tr = [[]]
    /\ kwarg_at 603 "save_onnx_model" tr = [Some (PBool true)]
    /\ answers_at 603 tr = [PNone]
    /\ filter (λ ln, ln ∈ [436; 457; 522; 549; 603]%nat) (lines tr)
       = [436; 457; 522; 549; 603]%nat.

(** The trainer built on line [mk] trained (line [train]); after that the
    directory [dir] was created (line [mkdir]) and this trainer saved its
    model into it (line [save]); each of these calls returned.  [name] is
    the variable the notebook keeps the trainer in. *)
Definition saves_trained_model (name : string) (mk train mkdir save : nat) (dir : string)
    (tr : list event) : Prop :=
  exists trainer trained : pyval,
    callee_at mk tr = ["Trainer"]
    /\ answers_at mk tr = [trainer]
    /\ callee_at train tr = [name +:+ ".train"]
    /\ recv_at train tr = [Some trainer]
    /\ answers_at train tr = [trained]
    /\ callee_at mkdir tr = ["os.makedirs"]
    /\ args_at mkdir tr = [[PStr dir]]
    /\ kwarg_at mkdir "exist_ok" tr = [Some (PBool true)]
    /\ answers_at mkdir tr = [PNone]
    /\ callee_at save tr = [name +:+ ".save_model"]
    /\ recv_at save tr = [Some trainer]
    /\ args_at save tr = [[PStr dir]]
    /\ answers_at save tr = [PNone]
    /\ filter (λ ln, ln ∈ [mk; train; mkdir; save]) (lines tr) = [mk; train; mkdir; save].

(** *** Properties of all calls and of completed runs *)

(** The three properties below are read off a program that has no [try]
    statement; of a program that has one they hold never. *)

(** The program has no [try] statement, and [P] holds of every call it can
    make, whatever is answered. *)
Fixpoint all_calls {A : Type} (P : call -> Prop) (p : prog A) : Prop :=
  match p with
  | Ret _ => True
  | Raise _ => True
  | Do c k => P c ∧ ∀ x, all_calls P (k x)
  | Try _ _ _ => False
  end.

(** No statement of the program handles an exception. *)
Definition handler_free {A : Type} (p : prog A) : Prop := all_calls (λ _, True) p.

(** The program has no [try] statement, and [Q] holds of the trace and the
    result of every run that completes. *)
Fixpoint completes {A : Type} (p : prog A) (Q : list event -> A -> Prop) : Prop :=
  match p with
  | Ret a => Q [] a
  | Raise _ => True
  | Do c k => ∀ x, completes (k x) (λ tr a, Q (Event c (inr (to_pyval x)) :: tr) a)
  | Try _ _ _ => False
  end.

(** *** Exceptions *)

(** The run ended in a library call that raised. *)
Definition library_raised (tr : list event) : bool :=
  match last tr with
  | Some e => match ev_ans e with inl _ => true | inr _ => false end
  | None => false
  end.

(** The program has no [try] statement, and [Q] holds of every exception it
    raises itself, whatever the library answers. *)
Fixpoint raises {A : Type} (p : prog A) (Q : exn -> Prop) : Prop :=
  match p with
  | Ret _ => True
  | Raise e => Q e
  | Do c k => ∀ x, raises (k x) Q
  | Try _ _ _ => False
  end.

(** *** Values handed from call to call in the quantization notebook *)

(** The tokenizer and the model are loaded from the same checkpoint, and
    they are what the trainer is built from. *)
Definition trainer_of_checkpoint (cfg : Quant.config) (tr : list event) : Prop :=
  exists tokenizer model : pyval,
    args_at 268 tr = [[PStr (Quant.model_checkpoint cfg)]]
    /\ answers_at 268 tr = [tokenizer]
    /\ args_at 416 tr = [[PStr (Quant.model_checkpoint cfg)]]
    /\ answers_at 416 tr = [model]
    /\ kwarg_at 522 "model" tr = [Some model]
    /\ kwarg_at 522 "tokenizer" tr = [Some tokenizer].

(** The dataset and the metric are loaded for the same GLUE configuration;
    the dataset is mapped through [preprocess_function]; the trainer gets
    the first [max_train_samples] rows of its training split and the first
    [max_eval_samples] rows of its validation split. *)
Definition trainer_datasets (cfg : Quant.config) (tr : list event) : Prop :=
  exists dataset encoded_dataset train_split train_dataset eval_split eval_dataset : pyval,
    args_at 190 tr = [[PStr "glue"; PStr (Quant.actual_task cfg)]]
    /\ args_at 191 tr = [[PStr "glue"; PStr (Quant.actual_task cfg)]]
    /\ answers_at 190 tr = [dataset]
    /\ recv_at 371 tr = [Some dataset]
    /\ args_at 371 tr = [[PFun "preprocess_function"]]
    /\ answers_at 371 tr = [encoded_dataset]
    /\ recv_at 527 tr = [Some encoded_dataset; Some train_split]
    /\ args_at 527 tr = [[PStr "train"]; [PRange (Quant.max_train_samples cfg)]]
    /\ answers_at 527 tr = [train_split; train_dataset]
    /\ recv_at 528 tr = [Some encoded_dataset; Some eval_split]
    /\ args_at 528 tr = [[PStr (Quant.validation_key cfg)];
                         [PRange (Quant.max_eval_samples cfg)]]
    /\ answers_at 528 tr = [eval_split; eval_dataset]
    /\ kwarg_at 522 "train_dataset" tr = [Some train_dataset]
    /\ kwarg_at 522 "eval_dataset" tr = [Some eval_dataset].

(** The full-precision size is measured on a copy of the model taken before
    training, the quantized size on the model of the trainer after training
    and evaluation. *)
Definition sizes_of_copy_and_trained (tr : list event) : Prop :=
  exists model trainer fp_model q_model : pyval,
    answers_at 416 tr = [model]
    /\ args_at 533 tr = [[model]]
    /\ answers_at 533 tr = [fp_model]
    /\ answers_at 522 tr = [trainer]
    /\ recv_at 549 tr = [Some trainer]
    /\ recv_at 565 tr = [Some trainer]
    /\ recv_at 584 tr = [Some trainer]
    /\ answers_at 584 tr = [q_model]
    /\ recv_at 578 tr = [Some fp_model; None; Some q_model; None]
    /\ filter (λ ln, ln ∈ [533; 549; 565; 578; 584]%nat) (lines tr)
       = [533; 549; 565; 578; 578; 584; 578; 578]%nat.

(** The two models loaded at the end are read from the output directory of
    the training arguments, after the trainer has saved there. *)
Definition reloads_from_output_dir (tr : list event) : Prop :=
  exists dir : pyval,
    kwarg_at 457 "output_dir" tr = [Some dir]
    /\ args_at 603 tr = [[]]
    /\ args_at 633 tr = [[dir]]
    /\ args_at 634 tr = [[dir]]
    /\ filter (λ ln, ln ∈ [457; 603; 633; 634]%nat) (lines tr) = [457; 603; 633; 634]%nat.

(** The file of the quantized model has more than 5242 bytes (or its
    size was answered as a negative number). *)
Definition quantized_size_not_zero (tr : list event) : Prop :=
  exists fp q : Z, answers_at 579 tr = [PInt fp; PInt q] /\ ~ 0 <= q <= 5242.

(** What holds of a run of the quantization notebook that completes. *)
Definition completed_quantization (cfg : Quant.config) (tr : list event) : Prop :=
  trainer_of_checkpoint cfg tr
  /\ trainer_datasets cfg tr
  /\ sizes_of_copy_and_trained tr
  /\ reloads_from_output_dir tr
  /\ quantized_size_not_zero tr.

(** *** Values handed from call to call in the PatchTST notebook *)

(** The rows [select_by_index] answered on line [sel] are preprocessed on
    line [pre], and what comes of it is made a dataset on line [ds]. *)
Definition dataset_of_split (sel pre ds : nat) (dataset : pyval) (tr : list event) : Prop :=
  exists rows p : pyval,
    answers_at sel tr = [rows]
    /\ args_at pre tr = [[rows]]
    /\ answers_at pre tr = [p]
    /\ args_at ds tr = [[p]]
    /\ answers_at ds tr = [dataset].

(** Part 1: the three splits are cut from the one dataframe read; the
    preprocessor is trained on the training rows and is what preprocesses
    all three; the trainer is given the training and the validation
    dataset, and the test dataset goes to [evaluate]. *)
Definition splits_kept_apart (tr : list event) : Prop :=
  exists train valid test : pyval,
    args_at 191 tr = [answers_at 163 tr]
    /\ args_at 197 tr = [answers_at 163 tr]
    /\ args_at 203 tr = [answers_at 163 tr]
    /\ args_at 217 tr = [answers_at 191 tr]
    /\ recv_at 227 tr = Some <$> answers_at 217 tr
    /\ recv_at 236 tr = Some <$> answers_at 217 tr
    /\ recv_at 245 tr = Some <$> answers_at 217 tr
    /\ dataset_of_split 191 227 226 train tr
    /\ dataset_of_split 197 236 235 valid tr
    /\ dataset_of_split 203 245 244 test tr
    /\ kwarg_at 359 "train_dataset" tr = [Some train]
    /\ kwarg_at 359 "eval_dataset" tr = [Some valid]
    /\ args_at 388 tr = [[test]].

(** Part 2, the same for the target data: both trainers are given the
    training and the validation dataset, all three evaluations the test
    dataset, and the preprocessor saved is the one trained on the target
    training rows. *)
Definition target_splits_kept_apart (tr : list event) : Prop :=
  exists train valid test : pyval,
    args_at 489 tr = [answers_at 484 tr]
    /\ args_at 495 tr = [answers_at 484 tr]
    /\ args_at 501 tr = [answers_at 484 tr]
    /\ args_at 515 tr = [answers_at 489 tr]
    /\ recv_at 525 tr = Some <$> answers_at 515 tr
    /\ recv_at 533 tr = Some <$> answers_at 515 tr
    /\ recv_at 541 tr = Some <$> answers_at 515 tr
    /\ recv_at 674 tr = Some <$> answers_at 515 tr
    /\ dataset_of_split 489 525 524 train tr
    /\ dataset_of_split 495 533 532 valid tr
    /\ dataset_of_split 501 541 540 test tr
    /\ kwarg_at 605 "train_dataset" tr = [Some train]
    /\ kwarg_at 605 "eval_dataset" tr = [Some valid]
    /\ kwarg_at 706 "train_dataset" tr = [Some train]
    /\ kwarg_at 706 "eval_dataset" tr = [Some valid]
    /\ args_at 614 tr = [[test]]
    /\ args_at 650 tr = [[test]]
    /\ args_at 716 tr = [[test]].

(** The rows of the target data: twelve months of hourly rows for training,
    four for validation, four for testing; the validation and the test
    window start [context_length] rows early. *)
Definition target_windows (cfg : PatchTST.config) (tr : list event) : Prop :=
  kwarg_at 489 "start_index" tr = [Some PNone]
  /\ kwarg_at 489 "end_index" tr = [Some (PInt 8640)]
  /\ kwarg_at 495 "start_index" tr = [Some (PInt (8640 - PatchTST.context_length cfg))]
  /\ kwarg_at 495 "end_index" tr = [Some (PInt 11520)]
  /\ kwarg_at 501 "start_index" tr = [Some (PInt (11520 - PatchTST.context_length cfg))]
  /\ kwarg_at 501 "end_index" tr = [Some (PInt 14400)].

(** The model is configured, and loaded, for as many channels as the
    datasets have input columns. *)
Definition channels_of_columns (tr : list event) : Prop :=
  exists (columns tail : pyval) (forecast_columns target_columns : list pyval),
    answers_at 167 tr = [columns; tail; PList forecast_columns]
    /\ kwarg_at 226 "input_columns" tr = [Some (PList forecast_columns)]
    /\ kwarg_at 235 "input_columns" tr = [Some (PList forecast_columns)]
    /\ kwarg_at 244 "input_columns" tr = [Some (PList forecast_columns)]
    /\ kwarg_at 294 "num_input_channels" tr
       = [Some (PInt (Z.of_nat (length forecast_columns)))]
    /\ kwarg_at 524 "input_columns" tr = [Some (PList target_columns)]
    /\ kwarg_at 532 "input_columns" tr = [Some (PList target_columns)]
    /\ kwarg_at 540 "input_columns" tr = [Some (PList target_columns)]
    /\ kwarg_at 565 "num_input_channels" tr
       = [Some (PInt (Z.of_nat (length target_columns)))]
    /\ kwarg_at 700 "num_input_channels" tr
       = [Some (PInt (Z.of_nat (length target_columns)))].

(** The model configured on line 294 is the one trained, evaluated and
    saved in Part 1. *)
Definition pretrained_model_saved (tr : list event) : Prop :=
  exists config model trainer : pyval,
    answers_at 294 tr = [config]
    /\ args_at 314 tr = [[config]]
    /\ answers_at 314 tr = [model]
    /\ kwarg_at 359 "model" tr = [Some model]
    /\ answers_at 359 tr = [trainer]
    /\ recv_at 369 tr = [Some trainer]
    /\ recv_at 388 tr = [Some trainer]
    /\ recv_at 415 tr = [Some trainer].

(** Linear probing and full fine-tuning each start from the model saved by
    Part 1: two loads from that directory, a trainer for each, both with the
    training arguments of line 578; each trainer trains, evaluates and saves
    the model it was built with. *)
Definition fine_tuning_starts_over (tr : list event) : Prop :=
  exists dir args probed probe_trainer tuned tune_trainer : pyval,
    args_at 415 tr = [[dir]]
    /\ args_at 565 tr = [[dir]]
    /\ args_at 700 tr = [[dir]]
    /\ answers_at 578 tr = [args]
    /\ answers_at 565 tr = [probed]
    /\ kwarg_at 605 "model" tr = [Some probed]
    /\ kwarg_at 605 "args" tr = [Some args]
    /\ answers_at 605 tr = [probe_trainer]
    /\ recv_at 614 tr = [Some probe_trainer]
    /\ recv_at 648 tr = [Some probe_trainer]
    /\ recv_at 650 tr = [Some probe_trainer]
    /\ recv_at 670 tr = [Some probe_trainer]
    /\ answers_at 700 tr = [tuned]
    /\ kwarg_at 706 "model" tr = [Some tuned]
    /\ kwarg_at 706 "args" tr = [Some args]
    /\ answers_at 706 tr = [tune_trainer]
    /\ recv_at 714 tr = [Some tune_trainer]
    /\ recv_at 716 tr = [Some tune_trainer]
    /\ recv_at 736 tr = [Some tune_trainer].

(** Before linear probing, [requires_grad] is set to [False] once on each
    parameter of the backbone of the model of the first target trainer, in
    the order the library lists them, and then that trainer trains. *)
Definition backbone_frozen (tr : list event) : Prop :=
  exists (trainer model backbone : pyval) (parameters : list pyval),
    answers_at 605 tr = [trainer]
    /\ recv_at 644 tr = [Some trainer; Some model; Some backbone]
    /\ answers_at 644 tr = [model; backbone; PList parameters]
    /\ recv_at 645 tr = Some <$> parameters
    /\ args_at 645 tr = replicate (length parameters) [PBool false]
    /\ recv_at 648 tr = [Some trainer]
    /\ filter (λ ln, ln ∈ [644; 645; 648]%nat) (lines tr)
       = ([644; 644; 644] ++ replicate (length parameters) 645 ++ [648])%list%nat.

(** The directory a model is loaded from. *)
Definition loaded_dir (e : event) : option string :=
  if String.eqb (callee (ev_call e)) "PatchTSTForPrediction.from_pretrained" then
    match args (ev_call e) with
    | [PStr d] => Some d
    | _ => None
    end
  else None.

Definition loaded_dirs (tr : list event) : list string := omap loaded_dir tr.

(** Every directory a model is loaded from is one into which a trainer had
    saved its model before, [saved] or later in the run. *)
Fixpoint loads_saved_models (saved : list string) (tr : list event) : bool :=
  match tr with
  | [] => true
  | e :: tr' =>
      match loaded_dir e with
      | Some d => mem d saved
      | None => true
      end
      && loads_saved_models
           (match model_dir e with Some d => d :: saved | None => saved end) tr'
  end.

(** What holds of a run of the PatchTST notebook that completes. *)
Definition completed_patch_tst (cfg : PatchTST.config) (tr : list event) : Prop :=
  splits_kept_apart tr
  /\ target_splits_kept_apart tr
  /\ target_windows cfg tr
  /\ channels_of_columns tr
  /\ pretrained_model_saved tr
  /\ fine_tuning_starts_over tr
  /\ backbone_frozen tr
  /\ (loads_saved_models [] tr = true
      /\ loaded_dirs tr = ["patchtst/electricity/model/pretrain/";
                           "patchtst/electricity/model/pretrain/"]).

(** *** The functions the notebook defines *)

(** A call of [compute_metrics] that returns [r]: the argument yielded a
    pair, [task] and [metric] are bound, the second item of the pair is
    handed to [metric.compute] as the references, and [r] is what
    [metric.compute] answered. *)
Definition metric_of_pair (g : gmap string pyval) (r : pyval) (tr : list event) : Prop :=
  exists predictions labels task metric : pyval,
    answers_at 493 tr = [PList [predictions; labels]]
    /\ g !! "task" = Some task
    /\ g !! "metric" = Some metric
    /\ recv_at 498 tr = [Some metric]
    /\ kwarg_at 498 "references" tr = [Some labels]
    /\ answers_at 498 tr = [r]
    /\ length tr = 3%nat.

(** A call of [preprocess_function] that returns [r]: the five names are
    bound; one column of the examples is read when [sentence2_key] is
    [None] and two otherwise; the tokenizer is called on what was read, with
    the module's padding and maximal length and with truncation, and [r] is
    what it answered. *)
Definition tokenized_columns (g : gmap string pyval) (examples r : pyval)
    (tr : list event) : Prop :=
  exists s1 s2 tokenizer padding max_seq_length : pyval,
    g !! "sentence1_key" = Some s1
    /\ g !! "sentence2_key" = Some s2
    /\ g !! "tokenizer" = Some tokenizer
    /\ g !! "padding" = Some padding
    /\ g !! "max_seq_length" = Some max_seq_length
    /\ args_at 348 tr = (if Quant.is_none s2 then [[s1]] else [[s1]; [s2]])
    /\ recv_at 348 tr = ((fun _ => Some examples) <$> args_at 348 tr)
    /\ recv_at 350 tr = [Some tokenizer]
    /\ args_at 350 tr = [answers_at 348 tr]
    /\ kwarg_at 350 "padding" tr = [Some padding]
    /\ kwarg_at 350 "max_length" tr = [Some max_seq_length]
    /\ kwarg_at 350 "truncation" tr = [Some (PBool true)]
    /\ answers_at 350 tr = [r].

(** *** Path segments *)

(** [c in s] for a character [c]. *)
Fixpoint contains (c : ascii) (s : string) : bool :=
  match s with
  | EmptyString => false
  | String c' s' => Ascii.eqb c' c || contains c s'
  end.

(** * Facts about programs and runs *)

Section RunFacts.

Context {W : Type} (lib : library W).

Lemma run_bind {A B : Type} (p : prog A) (f : A -> prog B) (w : W) :
  run lib (bind p f) w =
  match run lib p w with
  | (Done a, tr, w') =>
      let '(o, tr', w'') := run lib (f a) w' in (o, (tr ++ tr')%list, w'')
  | (Failed e, tr, w') => (Failed e, tr, w')
  end.
Proof.
  revert w. induction p as [a | e | c k IH | body handler k IH]; intros w; simpl.
  - destruct (run lib (f a) w) as [[o tr] w']. reflexivity.
  - reflexivity.
  - destruct (lib c w) as [[e | x] w']; [reflexivity |].
    rewrite IH. destruct (run lib (k x) w') as [[[a | e] tr] w''].
    + destruct (run lib (f a) w'') as [[o tr'] w3]. reflexivity.
    + reflexivity.
  - destruct (run_block lib body w) as [[[v | e] tr] w'].
    + rewrite IH. destruct (run lib (k v) w') as [[[a | e] tr'] w''].
      * destruct (run lib (f a) w'') as [[o tr''] w3]. rewrite app_assoc. reflexivity.
      * reflexivity.
    + destruct (run_block lib (handler e) w') as [[[v | e'] tr'] w'']; [| reflexivity].
      rewrite IH. destruct (run lib (k v) w'') as [[[a | e'] tr''] w3].
      * destruct (run lib (f a) w3) as [[o tr3] w4]. rewrite !app_assoc. reflexivity.
      * reflexivity.
Qed.

(** A property of completed runs, read off the program. *)
Lemma completes_run {A : Type} (p : prog A) (Q : list event -> A -> Prop) (w : W) (a : A) :
  completes p Q ->
  result_of (run lib p w) = Done a ->
  Q (trace_of (run lib p w)) a.
Proof.
  revert Q w. induction p as [a' | e | c k IH | body handler k IH]; intros Q w; simpl.
  - intros HQ [= <-]. exact HQ.
  - intros _ [=].
  - intros HQ. destruct (lib c w) as [[e | x] w'].
    + intros [=].
    + specialize (IH x _ w' (HQ x)).
      destruct (run lib (k x) w') as [[o tr] w'']. exact IH.
  - intros [].
Qed.

Lemma completes_succeeded {A : Type} (p : prog A) (Q : list event -> Prop) (w : W) :
  completes p (fun tr _ => Q tr) ->
  succeeded (result_of (run lib p w)) ->
  Q (trace_of (run lib p w)).
Proof.
  intros HQ Hs. destruct (result_of (run lib p w)) as [a | e] eqn:E; [| destruct Hs].
  exact (completes_run p (fun tr _ => Q tr) w a HQ E).
Qed.

(** A property of every call of every run, completed or not. *)
Lemma all_calls_run {A : Type} (p : prog A) (P : call -> Prop) (w : W) :
  all_calls P p -> Forall P (calls (trace_of (run lib p w))).
Proof.
  revert w. induction p as [a | e | c k IH | body handler k IH]; intros w; simpl.
  - intros _. constructor.
  - intros _. constructor.
  - intros [Hc Hk]. destruct (lib c w) as [[e | x] w'].
    + repeat constructor. exact Hc.
    + specialize (IH x w' (Hk x)).
      destruct (run lib (k x) w') as [[o tr] w'']. constructor; assumption.
  - intros [].
Qed.

(** In a program without a handler, a call that raises ends the run, and
    the run fails with what the call raised. *)
Lemma error_ends_run {A : Type} (p : prog A) (w : W) (i : nat) (c : call) (e : exn) :
  handler_free p ->
  trace_of (run lib p w) !! i = Some (Event c (inl e)) ->
  result_of (run lib p w) = Failed e /\ S i = length (trace_of (run lib p w)).
Proof.
  unfold handler_free.
  revert w i. induction p as [a | e' | c' k IH | body handler k IH]; intros w i; simpl.
  - intros _ [=].
  - intros _ [=].
  - intros [_ Hk]. destruct (lib c' w) as [[e' | x] w'].
    + destruct i as [| i]; simpl; [| intros [=]].
      intros [= -> ->]. split; reflexivity.
    + specialize (IH x w').
      destruct (run lib (k x) w') as [[o tr] w''].
      unfold result_of, trace_of in *. simpl in *.
      destruct i as [| i]; simpl; [intros [=] |].
      intros H. destruct (IH i (Hk x) H) as [H1 H2].
      split; [exact H1 | f_equal; exact H2].
  - intros [].
Qed.

End RunFacts.

Lemma completes_bind {A B : Type} (p : prog A) (f : A -> prog B)
    (Q : list event -> B -> Prop) :
  completes p (fun tr a => completes (f a) (fun tr' b => Q (tr ++ tr')%list b)) ->
  completes (bind p f) Q.
Proof.
  revert Q. induction p as [a | e | c k IH | body handler k IH]; intros Q; simpl.
  - intros H. exact H.
  - trivial.
  - intros H x. apply IH. exact (H x).
  - trivial.
Qed.

Lemma completes_for_each_setattr ln f v xs (Q : list event -> unit -> Prop) :
  Q (loop_events ln f v xs) tt -> completes (for_each xs (fun x => setattr ln f x v)) Q.
Proof.
  revert Q. induction xs as [| x xs IH]; intros Q HQ; simpl.
  - exact HQ.
  - intros u. apply IH. exact HQ.
Qed.

Lemma all_calls_bind {A B : Type} (P : call -> Prop) (p : prog A) (f : A -> prog B) :
  all_calls P p -> (forall a, all_calls P (f a)) -> all_calls P (bind p f).
Proof.
  induction p as [a | e | c k IH | body handler k IH]; simpl.
  - intros _ Hf. apply Hf.
  - trivial.
  - intros [Hc Hk] Hf. split; [exact Hc |]. intros x. apply IH; [apply Hk | exact Hf].
  - intros [].
Qed.

Lemma all_calls_for_each {X : Type} (P : call -> Prop) (xs : list X) (body : X -> prog unit) :
  (forall x, all_calls P (body x)) -> all_calls P (for_each xs body).
Proof.
  intros Hb. induction xs as [| x xs IH]; simpl; [trivial |].
  apply all_calls_bind; [apply Hb | intros _; exact IH].
Qed.

Lemma completes_bind_assoc {A B C : Type} (p : prog A) (f : A -> prog B) (g : B -> prog C)
    (Q : list event -> C -> Prop) :
  completes (bind p (fun a => bind (f a) g)) Q -> completes (bind (bind p f) g) Q.
Proof.
  revert Q. induction p as [a | e | c k IH | body handler k IH]; intros Q; simpl.
  - intros H. exact H.
  - trivial.
  - intros H x. apply IH. exact (H x).
  - trivial.
Qed.

Lemma all_calls_bind_assoc {A B C : Type} (P : call -> Prop) (p : prog A) (f : A -> prog B)
    (g : B -> prog C) :
  all_calls P (bind p (fun a => bind (f a) g)) -> all_calls P (bind (bind p f) g).
Proof.
  induction p as [a | e | c k IH | body handler k IH]; simpl.
  - intros H. exact H.
  - trivial.
  - intros [Hc Hk]. split; [exact Hc |]. intros x. apply IH. apply Hk.
  - trivial.
Qed.

Lemma truediv_int_MiB (size : Z) :
  Quant.truediv_int size (1024 * 1024)
  = Ret (rnd (inject_Z size / inject_Z (1024 * 1024))).
Proof. reflexivity. Qed.

(** Going through a program call by call: every answer becomes a variable,
    a branch on a value not known splits the proof, the loop is taken with
    its lemma. *)
Ltac exec :=
  unfold mbind, prog_bind;
  repeat first
    [ intro
    | match goal with
      | |- completes (bind (bind _ _) _) _ => apply completes_bind_assoc
      | |- completes (match ?x with _ => _ end) _ => destruct x eqn:?
      | |- completes (bind (match ?x with _ => _ end) _) _ => destruct x eqn:?
      | |- completes (bind (for_each _ _) _) _ =>
          apply completes_bind; apply completes_for_each_setattr
      | |- completes (bind (Quant.truediv_int _ _) _) _ => rewrite truediv_int_MiB
      | |- completes _ _ => progress hnf
      | |- completes ?p ?Q =>
          let p' := eval hnf in p in progress change (completes p' Q)
      end ].

(** The same for a property of every call; [solve_call] proves it of one
    call. *)
Ltac exec_calls solve_call :=
  unfold mbind, prog_bind;
  repeat first
    [ intro
    | match goal with
      | |- all_calls _ (bind (bind _ _) _) => apply all_calls_bind_assoc
      | |- all_calls _ (match ?x with _ => _ end) => destruct x eqn:?
      | |- all_calls _ (bind (match ?x with _ => _ end) _) => destruct x eqn:?
      | |- all_calls _ (bind (for_each _ _) _) =>
          apply all_calls_bind; [apply all_calls_for_each |]
      | |- all_calls _ (bind (Quant.truediv_int _ _) _) => rewrite truediv_int_MiB
      | |- _ /\ _ => split; [solve [solve_call] |]
      | |- True => exact I
      | |- all_calls _ _ => progress hnf
      | |- all_calls ?P ?p =>
          let p' := eval hnf in p in progress change (all_calls P p')
      end ].

(** ** Traces with a loop *)

Lemma lines_app (a b : list event) : lines (a ++ b) = (lines a ++ lines b)%list.
Proof. unfold lines, calls. rewrite !fmap_app. reflexivity. Qed.

Lemma lines_loop ln f v xs : lines (loop_events ln f v xs) = replicate (length xs) ln.
Proof. induction xs as [| x xs IH]; [reflexivity |]. cbn. f_equal. exact IH. Qed.

Lemma lines_around_loop (pre post : list event) ln f v xs :
  lines (pre ++ loop_events ln f v xs ++ post)
  = (lines pre ++ replicate (length xs) ln ++ lines post)%list.
Proof. rewrite !lines_app, lines_loop. reflexivity. Qed.

Lemma filter_in_replicate (keep : list nat) (n ln : nat) :
  ln ∈ keep -> filter (fun l => l ∈ keep) (replicate n ln) = replicate n ln.
Proof.
  intros Hin. induction n as [| n IH]; [reflexivity |].
  cbn [replicate]. rewrite filter_cons_True by exact Hin. f_equal. exact IH.
Qed.

Lemma filter_off_replicate (keep : list nat) (n ln : nat) :
  ln ∉ keep -> filter (fun l => l ∈ keep) (replicate n ln) = [].
Proof.
  intros Hin. induction n as [| n IH]; [reflexivity |].
  cbn [replicate]. rewrite filter_cons_False by exact Hin. exact IH.
Qed.

Lemma events_at_app (ln : nat) (a b : list event) :
  events_at ln (a ++ b) = (events_at ln a ++ events_at ln b)%list.
Proof. apply filter_app. Qed.

Lemma events_at_loop (k ln : nat) f v xs :
  events_at k (loop_events ln f v xs)
  = if decide (ln = k) then loop_events ln f v xs else [].
Proof.
  unfold events_at. destruct (decide (ln = k)) as [E | E].
  - induction xs as [| x xs IH]; [reflexivity |].
    cbn [loop_events fmap list_fmap]. rewrite filter_cons_True by exact E.
    f_equal. exact IH.
  - induction xs as [| x xs IH]; [reflexivity |].
    cbn [loop_events fmap list_fmap]. rewrite filter_cons_False by exact E. exact IH.
Qed.

Lemma events_around_loop (pre post : list event) ln f v xs (k : nat) :
  k <> ln ->
  events_at k (pre ++ loop_events ln f v xs ++ post)
  = (events_at k pre ++ events_at k post)%list.
Proof.
  intros Hk. rewrite !events_at_app, events_at_loop.
  destruct (decide (ln = k)); [congruence | reflexivity].
Qed.

Lemma events_of_loop (pre post : list event) ln f v xs :
  events_at ln (pre ++ loop_events ln f v xs ++ post)
  = (events_at ln pre ++ loop_events ln f v xs ++ events_at ln post)%list.
Proof.
  rewrite !events_at_app, events_at_loop.
  destruct (decide (ln = ln)); [reflexivity | congruence].
Qed.

(** Splitting an explicit trace at the events of the loop. *)
Ltac before_loop t :=
  lazymatch t with
  | ?e :: ?t' => let p := before_loop t' in constr:(e :: p)
  | (_ ++ _)%list => constr:(@nil event)
  end.

Ltac from_loop t :=
  lazymatch t with
  | _ :: ?t' => from_loop t'
  | (?a ++ ?b)%list => constr:((a ++ b)%list)
  end.

Ltac split_at_loop :=
  match goal with
  | |- context [ @cons event ?e ?t ] =>
      let p := before_loop (@cons event e t) in
      let s := from_loop (@cons event e t) in
      change (@cons event e t) with (p ++ s)%list
  end.

(** Naming the trace of the goal. *)
Ltac name_trace tr :=
  match goal with
  | |- context [ @cons event ?e ?t ] => set (tr := @cons event e t)
  end.

(** A fact about the events on one line, in a trace split at the loop. *)
Ltac flow Hev :=
  unfold answers_at, args_at, recv_at, kwarg_at, callee_at;
  rewrite ?Hev by (intros ?; discriminate);
  reflexivity.

(** * Checks on concrete inputs *)

(** The Electricity data has 26304 rows. *)
Example split_of_electricity :
  PatchTST.electricity_split 26304 512
  = PatchTST.Split 18412 5260 2632 [0; 17900; 20532] [18412; 21044; 26304]
      0 18412 17900 21044 20532 26304.
Proof. vm_compute. reflexivity. Qed.

(** [int(90 * 0.7)] is 62: the float [0.7] is a little below seven tenths,
    and the product rounds to the float just below 63. *)
Example num_train_of_90_rows :
  PatchTST.num_train (PatchTST.electricity_split 90 512) = 62.
Proof. vm_compute. reflexivity. Qed.

Example save_directory_of_settings :
  Quant.save_directory Quant.default_config
  = "distilbert-base-uncased-finetuned-sst-2-english-finetuned-sst2".
Proof. reflexivity. Qed.

Example last_path_segment :
  last_item (split_on "/" "textattack/bert-base-uncased-SST-2") = "bert-base-uncased-SST-2".
Proof. reflexivity. Qed.

(** [round(0.125, 2)] is the float nearest to 0.12: the tie goes to the even
    digit. *)
Example round_of_an_eighth :
  round_ndigits2 (1 # 8) = rnd (12 # 100).
Proof. vm_compute. reflexivity. Qed.

(** The notebooks complete on the library that never fails; the
    quantization notebook makes 36 calls, the PatchTST notebook 79 when the
    backbone has two parameters. *)
Example quantization_notebook_completes :
  result_of (run (sample_library 2) (Quant.notebook Quant.default_config) 0%N) = Done tt
  /\ length (trace_of (run (sample_library 2) (Quant.notebook Quant.default_config) 0%N))
     = 36%nat.
Proof. split; vm_compute; reflexivity. Qed.

Example patch_tst_notebook_completes :
  result_of (run (sample_library 2) (PatchTST.notebook PatchTST.default_config) 0%N) = Done tt
  /\ length (trace_of (run (sample_library 2) (PatchTST.notebook PatchTST.default_config) 0%N))
     = 79%nat.
Proof. split; vm_compute; reflexivity. Qed.

(** What a handler would do: were [trainer.train()] of line 549 inside a
    [try] whose [except] clause prints the exception, the run would go on
    after the call that raised, and it would complete. *)
Example a_handler_recovers :
  let train := Call 549 Invoke EmptyString "trainer.train" (Some (PObj 0)) [] [] TObj in
  let p := Try (BDo train BRet)
             (fun e => BDo (Call 550 Invoke "builtins" "print" None [PStr (match e with Exn c _ => c end)] [] TNone)
                         (fun _ => BRet PNone))
             (fun _ => print 551 (PStr "done")) in
  let r := run (failing_library 549 (Exn "RuntimeError" "out of memory")) p 0%N in
  result_of r = Done tt
  /\ ev_ans <$> trace_of r
     = [inl (Exn "RuntimeError" "out of memory"); inr PNone; inr PNone].
Proof. vm_compute. split; reflexivity. Qed.

(** * The claims *)

(** ** The task table *)

(** C8.  Every task of [GLUE_TASKS] is a key of [task_to_keys]: for a task
    chosen from the list, the lookup [task_to_keys[task]] of line 320 finds
    a pair of column names and raises no [KeyError]. *)
Theorem glue_tasks_have_keys (t : string) :
  t ∈ Quant.GLUE_TASKS ->
  is_Some (Quant.task_to_keys !! t) /\ exists ks, Quant.lookup_task t = Ret ks.
Proof.
  unfold Quant.GLUE_TASKS. rewrite !elem_of_cons, elem_of_nil.
  intros H. unfold Quant.lookup_task.
  repeat (destruct H as [-> | H]; [vm_compute; eauto |]). destruct H.
Qed.

(** For the task of the settings cell, ["sst2"]. *)
Lemma glue_tasks_have_keys_witness :
  is_Some (Quant.task_to_keys !! "sst2")
  /\ exists ks, Quant.lookup_task "sst2" = Ret ks.
Proof.
  apply (glue_tasks_have_keys "sst2").
  refine (bool_decide_unpack _ _). vm_compute. exact I.
Defined.

(** ** The Electricity split *)

(** C9.  For a dataframe of [len_data] rows the three parts add up to
    [len_data], training covers rows [0, num_train), the test window ends at
    [len_data], and the validation and the test window each start
    [context_length] rows before the end of the part before them. *)
Theorem electricity_split_borders (len_data context_length : Z) :
  let s := PatchTST.electricity_split len_data context_length in
  PatchTST.num_train s + PatchTST.num_valid s + PatchTST.num_test s = len_data
  /\ PatchTST.train_start_index s = 0
  /\ PatchTST.train_end_index s = PatchTST.num_train s
  /\ PatchTST.test_end_index s = len_data
  /\ PatchTST.valid_start_index s = PatchTST.num_train s - context_length
  /\ PatchTST.test_start_index s = len_data - PatchTST.num_test s - context_length
  /\ PatchTST.valid_start_index s + context_length = PatchTST.train_end_index s
  /\ PatchTST.test_start_index s + context_length = PatchTST.valid_end_index s.
Proof.
  unfold PatchTST.electricity_split, PatchTST.split_of. cbn.
  repeat split; lia.
Qed.

(** ** Floats *)

Lemma rnd_pos_MiB (n : Z) :
  0 < n < 2 ^ 53 -> (rnd_pos n 1048576 == n # 1048576)%Q.
Proof.
  intros [Hpos Hlt]. unfold rnd_pos.
  change (Z.log2 1048576) with 20.
  pose proof (Z.log2_spec n Hpos) as [Hlo Hhi].
  pose proof (Z.log2_nonneg n) as Ha0.
  assert (Ha : Z.log2 n < 53) by (apply Z.log2_lt_pow2; lia).
  set (a := Z.log2 n) in *.
  assert (Hge : ge_pow2 n 1048576 (a - 20) = true).
  { unfold ge_pow2. destruct (Z.leb_spec 0 (a - 20)).
    - apply Z.leb_le. change 1048576 with (2 ^ 20).
      rewrite <- Z.pow_add_r by lia. replace (20 + (a - 20)) with a by lia. exact Hlo.
    - apply Z.leb_le. replace (- (a - 20)) with (20 - a) by lia.
      change 1048576 with (2 ^ 20).
      replace 20 with (a + (20 - a)) at 1 by lia.
      rewrite Z.pow_add_r by lia.
      apply Z.mul_le_mono_nonneg_r; [apply Z.pow_nonneg; lia | exact Hlo]. }
  rewrite Hge.
  replace (0 <=? a - 20 - 52) with false by (symmetry; apply Z.leb_gt; lia).
  replace (- (a - 20 - 52)) with (20 + (52 - a)) by lia.
  rewrite Z.pow_add_r by lia. change (2 ^ 20) with 1048576.
  set (s := 2 ^ (52 - a)).
  assert (Hs : 0 < s) by (apply Z.pow_pos_nonneg; lia).
  replace (n * (1048576 * s)) with (n * s * 1048576) by lia.
  rewrite Z.div_mul by lia. rewrite Z.mod_mul by lia.
  change (2 * 0 <? 1048576) with true. cbv iota.
  rewrite Qred_correct. unfold Qeq. cbn [Qnum Qden].
  rewrite Z2Pos.id by lia. lia.
Qed.

Lemma rnd_MiB (size : Z) :
  0 <= size < 2 ^ 53 ->
  (rnd (inject_Z size / inject_Z (1024 * 1024)) == inject_Z size / inject_Z (1024 * 1024))%Q.
Proof.
  intros H. change (1024 * 1024) with 1048576.
  assert (E : (inject_Z size / inject_Z 1048576 == size # 1048576)%Q).
  { unfold Qeq. cbn. lia. }
  rewrite E at 2.
  unfold rnd. change (Qden (inject_Z size / inject_Z 1048576)) with 1048576%positive.
  replace (Qnum (inject_Z size / inject_Z 1048576)) with size by (cbn; lia).
  destruct size as [| p | p].
  - reflexivity.
  - apply rnd_pos_MiB. lia.
  - lia.
Qed.

Lemma round_half_even_near (q : Q) :
  (inject_Z (round_half_even q) - (1 # 2) <= q <= inject_Z (round_half_even q) + (1 # 2))%Q.
Proof.
  destruct q as [n d]. unfold round_half_even. cbn [Qnum Qden].
  pose proof (Z.div_mod n (Z.pos d) ltac:(lia)) as Hdm.
  pose proof (Z.mod_pos_bound n (Z.pos d) ltac:(lia)) as Hr.
  set (m := n / Z.pos d) in *. set (r := n mod Z.pos d) in *.
  assert (forall h : Z, (2 * h - 1) * Z.pos d <= 2 * n <= (2 * h + 1) * Z.pos d ->
            (inject_Z h - (1 # 2) <= n # d <= inject_Z h + (1 # 2))%Q) as Hq.
  { intros h Hh. unfold Qle, Qminus, Qplus, Qopp, inject_Z. cbn [Qnum Qden].
    split; nia. }
  destruct (Z.ltb_spec (2 * r) (Z.pos d)); [apply Hq; nia |].
  destruct (Z.ltb_spec (Z.pos d) (2 * r)); [apply Hq; nia |].
  destruct (Z.even m); apply Hq; nia.
Qed.

Ltac file_step :=
  cbn [bind method invoke run];
  unfold file_library at 1;
  cbn [callee String.eqb Ascii.eqb Bool.eqb recv ret give_obj give_none give_int args].

Lemma get_model_size_run {file : Type} (file_size : file -> Z) (state_dict : pyval -> pyval)
    (pickle : pyval -> file) (model : pyval) (fs : gmap string file) :
  exists tr,
    run (file_library file_size state_dict pickle) (Quant.get_model_size model) fs
    = (Done (round_ndigits2
               (rnd (inject_Z (file_size (pickle (state_dict model)))
                     / inject_Z (1024 * 1024)))),
       tr, delete "tmp.pt" fs).
Proof.
  unfold Quant.get_model_size, mbind, prog_bind.
  file_step. file_step. file_step.
  rewrite lookup_insert_eq. cbn [give_int to_pyval].
  rewrite truediv_int_MiB. file_step.
  rewrite lookup_insert_eq. cbn [give_none run].
  rewrite delete_insert_eq. eexists. reflexivity.
Qed.

(** C10, as far as it holds.  For a model whose saved state has [size]
    bytes, [get_model_size] returns what Python's
    [round(size / (1024 * 1024), 2)] is in floats.  For fewer than [2 ^ 53]
    bytes that is the float nearest to [h / 100], where [h] is the integer
    nearest to a hundred times [size / (1024 * 1024)]: the size in MiB
    rounded to two decimal places.  When it returns there is no file
    [tmp.pt], every other path is as it was, and a working directory that
    had no [tmp.pt] before is left unchanged. *)
Theorem get_model_size_MiB {file : Type} (file_size : file -> Z)
    (state_dict : pyval -> pyval) (pickle : pyval -> file)
    (model : pyval) (fs : gmap string file) :
  let size := file_size (pickle (state_dict model)) in
  let r := run (file_library file_size state_dict pickle) (Quant.get_model_size model) fs in
  result_of r = Done (round_ndigits2 (rnd (inject_Z size / inject_Z (1024 * 1024))))
  /\ (0 <= size < 2 ^ 53 ->
      exists h : Z,
        result_of r = Done (rnd (h # 100))
        /\ (inject_Z h - (1 # 2) <= 100 * (inject_Z size / inject_Z (1024 * 1024))
            <= inject_Z h + (1 # 2))%Q)
  /\ world_of r !! "tmp.pt" = None
  /\ (forall path, path <> "tmp.pt" -> world_of r !! path = fs !! path)
  /\ (fs !! "tmp.pt" = None -> world_of r = fs).
Proof.
  intros size r.
  destruct (get_model_size_run file_size state_dict pickle model fs) as [tr E].
  subst r. rewrite E. unfold result_of, world_of. cbn [fst snd].
  fold size. repeat split.
  - exists (round_half_even (rnd (inject_Z size / inject_Z (1024 * 1024)) * 100)).
    split; [reflexivity |].
    pose proof (round_half_even_near (rnd (inject_Z size / inject_Z (1024 * 1024)) * 100)) as Hn.
    set (x := rnd _) in *. set (h := round_half_even _) in *.
    assert (Ex : (x * 100 == 100 * (inject_Z size / inject_Z (1024 * 1024)))%Q).
    { rewrite (Qmult_comm x). apply Qmult_comp; [reflexivity |].
      apply rnd_MiB. assumption. }
    rewrite Ex in Hn. exact Hn.
  - apply lookup_delete_eq.
  - intros path Hp. apply lookup_delete_ne. congruence.
  - intros Hnone. apply delete_id. exact Hnone.
Qed.

(** For a state of 256 MiB in an empty working directory. *)
Lemma get_model_size_MiB_witness :
  exists h : Z,
    result_of (run (file_library (fun n : Z => n) (fun v => v) (fun _ => 268435456))
                 (Quant.get_model_size (PObj 0)) ∅)
    = Done (rnd (h # 100))
    /\ (inject_Z h - (1 # 2) <= 100 * (inject_Z 268435456 / inject_Z (1024 * 1024))
        <= inject_Z h + (1 # 2))%Q.
Proof.
  refine (proj1 (proj2 (get_model_size_MiB (fun n : Z => n) (fun v => v)
                          (fun _ => 268435456) (PObj 0) ∅)) _).
  lia.
Defined.

(** C10 as stated fails, twice.  For a state of [2 ^ 53 + 15729] bytes the
    size in MiB is a little above 8589934592.015, which to two places is
    8589934592.02; the division rounds it to the float 8589934592.015, and
    [round] gives 8589934592.01.  And a file [tmp.pt] that was in the
    working directory before the call is overwritten and then removed, so
    the files are not what they were. *)
Lemma get_model_size_as_stated_fails :
  (result_of (run (file_library (fun n : Z => n) (fun v => v) (fun _ => 9007199254756721))
                (Quant.get_model_size (PObj 0)) ∅)
   = Done (4503599627375739 # 524288)
   /\ (inject_Z 858993459202 - (1 # 2)
         < 100 * (inject_Z 9007199254756721 / inject_Z (1024 * 1024)))%Q
   /\ (100 * (inject_Z 9007199254756721 / inject_Z (1024 * 1024))
         < inject_Z 858993459202 + (1 # 2))%Q
   /\ ~ (rnd (858993459202 # 100) == 4503599627375739 # 524288)%Q)
  /\ world_of (run (file_library (fun n : Z => n) (fun v => v) (fun _ => 3))
                 (Quant.get_model_size (PObj 0)) {["tmp.pt" := 7]})
     <> {["tmp.pt" := 7]}.
Proof.
  split.
  - split; [vm_compute; reflexivity |].
    split; [vm_compute; reflexivity |].
    split; [vm_compute; reflexivity |].
    vm_compute. discriminate.
  - intros H. apply (f_equal (fun m : gmap string Z => m !! "tmp.pt")) in H.
    vm_compute in H. discriminate H.
Qed.

(** ** Errors *)

Lemma quantization_notebook_handler_free (cfg : Quant.config) :
  handler_free (Quant.notebook cfg).
Proof.
  unfold handler_free, Quant.notebook, Quant.main, Quant.reload, Quant.get_model_size,
    Quant.lookup_task, Quant.truediv_float.
  exec_calls ltac:(exact I).
Qed.

Lemma patch_tst_notebook_handler_free (cfg : PatchTST.config) :
  handler_free (PatchTST.notebook cfg).
Proof.
  unfold handler_free, PatchTST.notebook, PatchTST.prologue, PatchTST.part1, PatchTST.part2,
    PatchTST.select_by_index, PatchTST.make_preprocessor.
  exec_calls ltac:(exact I).
Qed.

Lemma functions_handler_free (g : gmap string pyval) (x : pyval) :
  handler_free (Quant.preprocess_function g x)
  /\ handler_free (Quant.compute_metrics g x)
  /\ handler_free (Quant.get_model_size x).
Proof.
  unfold handler_free. split; [| split].
  - unfold Quant.preprocess_function, Quant.lookup_name. exec_calls ltac:(exact I).
  - unfold Quant.compute_metrics, Quant.unpack2, Quant.lookup_name. exec_calls ltac:(exact I).
  - unfold Quant.get_model_size. exec_calls ltac:(exact I).
Qed.

(** C4.  Neither notebook, nor any function defined in them, has a [try]
    statement, so none handles an error: whatever the libraries do, a
    library call that raises is the last call of the run, and the run fails
    with the very exception the call raised.  (A program with a handler
    does otherwise: [a_handler_recovers].) *)
Theorem library_errors_reach_top_level {W : Type} (lib : library W) (w : W)
    (i : nat) (c : call) (e : exn) :
  (forall cfg,
      trace_of (run lib (Quant.notebook cfg) w) !! i = Some (Event c (inl e)) ->
      result_of (run lib (Quant.notebook cfg) w) = Failed e
      /\ S i = length (trace_of (run lib (Quant.notebook cfg) w)))
  /\ (forall cfg,
      trace_of (run lib (PatchTST.notebook cfg) w) !! i = Some (Event c (inl e)) ->
      result_of (run lib (PatchTST.notebook cfg) w) = Failed e
      /\ S i = length (trace_of (run lib (PatchTST.notebook cfg) w)))
  /\ (forall g examples,
      trace_of (run lib (Quant.preprocess_function g examples) w) !! i
        = Some (Event c (inl e)) ->
      result_of (run lib (Quant.preprocess_function g examples) w) = Failed e
      /\ S i = length (trace_of (run lib (Quant.preprocess_function g examples) w)))
  /\ (forall g eval_pred,
      trace_of (run lib (Quant.compute_metrics g eval_pred) w) !! i
        = Some (Event c (inl e)) ->
      result_of (run lib (Quant.compute_metrics g eval_pred) w) = Failed e
      /\ S i = length (trace_of (run lib (Quant.compute_metrics g eval_pred) w)))
  /\ (forall model,
      trace_of (run lib (Quant.get_model_size model) w) !! i = Some (Event c (inl e)) ->
      result_of (run lib (Quant.get_model_size model) w) = Failed e
      /\ S i = length (trace_of (run lib (Quant.get_model_size model) w))).
Proof.
  split; [| split; [| split; [| split]]]; intros; (eapply error_ends_run; [| eassumption]).
  - apply quantization_notebook_handler_free.
  - apply patch_tst_notebook_handler_free.
  - exact (proj1 (functions_handler_free g examples)).
  - exact (proj1 (proj2 (functions_handler_free g eval_pred))).
  - exact (proj2 (proj2 (functions_handler_free ∅ model))).
Qed.

(** When [trainer.train()] of line 549 raises, the run of the quantization
    notebook ends there, after 21 calls, with that exception. *)
Lemma library_errors_reach_top_level_witness :
  result_of (run (failing_library 549 (Exn "RuntimeError" "out of memory"))
               (Quant.notebook Quant.default_config) 0%N)
  = Failed (Exn "RuntimeError" "out of memory")
  /\ 21%nat = length (trace_of (run (failing_library 549 (Exn "RuntimeError" "out of memory"))
                                 (Quant.notebook Quant.default_config) 0%N)).
Proof.
  refine (proj1 (library_errors_reach_top_level
                   (failing_library 549 (Exn "RuntimeError" "out of memory")) 0%N 20 _ _)
            Quant.default_config _).
  vm_compute. reflexivity.
Defined.

(** ** Concurrency *)


(** What the check refuses: a call of [os.fork], and a call into
    [torch.multiprocessing]. *)
Example forking_is_refused :
  sequential_call (Call 1 Invoke "os" "os.fork" None [] [] TInt) = false
  /\ sequential_call
       (Call 1 Invoke "torch" "torch.multiprocessing.spawn" None [PFun "f"] [] TNone) = false
  /\ sequential_call (Call 1 Invoke "os" "os.system" None [PStr "ls"] [] TInt) = false
  /\ known_function (Call 1 Invoke "threading" "Thread" None [] [] TObj) = false.
Proof. vm_compute. repeat split. Qed.

(** ** Module-level variables *)

(** C7, as far as it holds.  [preprocess_function] and [compute_metrics]
    read module-level names, and only these: two module environments that
    agree on [sentence1_key], [sentence2_key], [tokenizer], [padding] and
    [max_seq_length] make [preprocess_function] the same program of its
    argument, and two that agree on [task], [metric] and [np] make
    [compute_metrics] the same program.  [get_model_size] is called by
    the notebook itself, in the cell that defines it and imports [os] and
    [torch]: every call it makes is a method of its argument or a function
    of one of these two modules, which are among the imports. *)
Theorem functions_read_named_globals {W : Type} (lib : library W) (w : W)
    (g1 g2 : gmap string pyval) (x : pyval) :
  ((forall n, n ∈ ["sentence1_key"; "sentence2_key"; "tokenizer"; "padding"; "max_seq_length"] ->
      g1 !! n = g2 !! n) ->
   Quant.preprocess_function g1 x = Quant.preprocess_function g2 x)
  /\ ((forall n, n ∈ ["task"; "metric"; "np"] -> g1 !! n = g2 !! n) ->
      Quant.compute_metrics g1 x = Quant.compute_metrics g2 x)
  /\ Forall (fun c => recv c = Some x \/ modl c = "torch" \/ modl c = "os")
       (calls (trace_of (run lib (Quant.get_model_size x) w)))
  /\ forallb (fun m => mem m Quant.imports) ["torch"; "os"] = true.
Proof.
  split; [| split; [| split; [| reflexivity]]].
  - intros H. unfold Quant.preprocess_function, Quant.lookup_name.
    rewrite (H "sentence1_key"), (H "sentence2_key"), (H "tokenizer"), (H "padding"),
      (H "max_seq_length") by set_solver.
    reflexivity.
  - intros H. unfold Quant.compute_metrics, Quant.lookup_name.
    rewrite (H "task"), (H "metric"), (H "np") by set_solver.
    reflexivity.
  - apply all_calls_run. unfold Quant.get_model_size.
    exec_calls ltac:(first [ left; reflexivity | right; left; reflexivity
                           | right; right; reflexivity ]).
Qed.

(** Two environments that bind every name the two functions read, as the
    notebook binds them for [sst2], and differ in [fp_model] only: each of
    the two functions is the same program under both, and it runs to its
    end. *)
Lemma functions_read_named_globals_witness :
  let g := <["sentence1_key" := PStr "sentence"]>
             (<["sentence2_key" := PNone]>
                (<["tokenizer" := PObj 7]>
                   (<["padding" := PStr "max_length"]>
                      (<["max_seq_length" := PInt 128]>
                         (<["task" := PStr "sst2"]>
                            (<["metric" := PObj 9]> {["np" := PObj 8]})))))) in
  (Quant.preprocess_function (<["fp_model" := PObj 1]> g) (PObj 0)
   = Quant.preprocess_function (<["fp_model" := PObj 2]> g) (PObj 0)
   /\ Quant.compute_metrics (<["fp_model" := PObj 1]> g) (PObj 0)
      = Quant.compute_metrics (<["fp_model" := PObj 2]> g) (PObj 0))
  /\ succeeded (result_of (run (sample_library 2)
                             (Quant.preprocess_function (<["fp_model" := PObj 1]> g) (PObj 0))
                             0%N))
  /\ succeeded (result_of (run (sample_library 2)
                             (Quant.compute_metrics (<["fp_model" := PObj 1]> g) (PObj 0))
                             0%N))
  /\ Forall (fun c => recv c = Some (PObj 0) \/ modl c = "torch" \/ modl c = "os")
       (calls (trace_of (run (sample_library 2) (Quant.get_model_size (PObj 0)) 0%N))).
Proof.
  intros g.
  pose proof (functions_read_named_globals (sample_library 2) 0%N
                (<["fp_model" := PObj 1]> g) (<["fp_model" := PObj 2]> g) (PObj 0))
    as (H1 & H2 & H3 & _).
  split; [| split; [vm_compute; exact I | split; [vm_compute; exact I | exact H3]]].
  split; [apply H1 | apply H2]; intros n Hn; rewrite !elem_of_cons, elem_of_nil in Hn;
    repeat (destruct Hn as [-> | Hn]; [vm_compute; reflexivity |]); destruct Hn.
Defined.

(** C7 as stated fails: with the same argument, and with [metric] and [np]
    bound alike, [compute_metrics] returns something else when the
    module-level [task] is another.  (The library here answers a call with a
    description of the call: under ["sst2"] the metric is computed on what
    [np.argmax] gave, under ["stsb"] on column 0 of the predictions.) *)
Lemma compute_metrics_depends_on_task :
  succeeded (result_of (run symbolic_library
               (Quant.compute_metrics
                  (<["task" := PStr "sst2"]> (<["np" := PObj 8]> {["metric" := PObj 9]}))
                  (PObj 0)) tt))
  /\ succeeded (result_of (run symbolic_library
               (Quant.compute_metrics
                  (<["task" := PStr "stsb"]> (<["np" := PObj 8]> {["metric" := PObj 9]}))
                  (PObj 0)) tt))
  /\ result_of (run symbolic_library
               (Quant.compute_metrics
                  (<["task" := PStr "sst2"]> (<["np" := PObj 8]> {["metric" := PObj 9]}))
                  (PObj 0)) tt)
     <> result_of (run symbolic_library
                  (Quant.compute_metrics
                     (<["task" := PStr "stsb"]> (<["np" := PObj 8]> {["metric" := PObj 9]}))
                     (PObj 0)) tt).
Proof.
  split; [vm_compute; exact I |]. split; [vm_compute; exact I |].
  vm_compute. intros H. discriminate H.
Qed.

(** ** Order of the steps *)

Lemma phases_app (a b : list event) : phases (a ++ b) = (phases a ++ phases b)%list.
Proof. unfold phases, calls. rewrite fmap_app. apply omap_app. Qed.

Lemma phases_loop ln v xs : phases (loop_events ln "param.requires_grad" v xs) = [].
Proof. induction xs as [| x xs IH]; [reflexivity | exact IH]. Qed.

Lemma phases_around_loop (pre post : list event) ln v xs :
  phases (pre ++ loop_events ln "param.requires_grad" v xs ++ post)
  = (phases pre ++ phases post)%list.
Proof. rewrite !phases_app, phases_loop. reflexivity. Qed.

(** C1, as far as it holds.  In every completed run, the quantization
    notebook up to [trainer.save_model] (lines 55-603) and Part 1 of the
    PatchTST notebook (lines 163-415) go through the steps of the pipeline
    once each and in order.  The notebooks as a whole do more: the
    quantization notebook then loads the saved model twice, and the
    PatchTST notebook goes on to a second pass that evaluates before it
    trains, and to a third that loads neither data nor preprocessor. *)
Theorem pipeline_once_per_pass {W : Type} (lib : library W) (w : W) :
  (forall cfg,
      succeeded (result_of (run lib (Quant.main cfg) w)) ->
      linear_pipeline (trace_of (run lib (Quant.main cfg) w)))
  /\ (forall cfg,
      succeeded (result_of (run lib (PatchTST.part1 cfg) w)) ->
      linear_pipeline (trace_of (run lib (PatchTST.part1 cfg) w)))
  /\ (forall cfg,
      succeeded (result_of (run lib (Quant.notebook cfg) w)) ->
      squash (phases (trace_of (run lib (Quant.notebook cfg) w)))
      = (pipeline ++ [Configure])%list)
  /\ (forall cfg,
      succeeded (result_of (run lib (PatchTST.notebook cfg) w)) ->
      squash (phases (trace_of (run lib (PatchTST.notebook cfg) w)))
      = (pipeline
         ++ [LoadDataset; LoadTokenizer; Configure; MakeTrainer;
             Evaluate; Train; Evaluate; Save]
         ++ [Configure; MakeTrainer; Train; Evaluate; Save])%list).
Proof.
  repeat split; intros cfg Hs.
  - refine (completes_succeeded lib _ (fun tr => linear_pipeline tr) w _ Hs). clear Hs.
    unfold Quant.main, Quant.get_model_size, Quant.lookup_task, Quant.truediv_float.
    exec; try exact I; reflexivity.
  - refine (completes_succeeded lib _ (fun tr => linear_pipeline tr) w _ Hs). clear Hs.
    unfold PatchTST.part1, PatchTST.select_by_index, PatchTST.make_preprocessor.
    exec; reflexivity.
  - refine (completes_succeeded lib _
              (fun tr => squash (phases tr) = (pipeline ++ [Configure])%list) w _ Hs).
    clear Hs.
    unfold Quant.notebook, Quant.main, Quant.reload, Quant.get_model_size,
      Quant.lookup_task, Quant.truediv_float.
    exec; try exact I; reflexivity.
  - refine (completes_succeeded lib _ (fun tr => squash (phases tr) = _) w _ Hs).
    clear Hs.
    unfold PatchTST.notebook, PatchTST.prologue, PatchTST.part1, PatchTST.part2,
      PatchTST.select_by_index, PatchTST.make_preprocessor.
    exec. split_at_loop.
    etransitivity; [apply (f_equal squash); apply phases_around_loop |].
    reflexivity.
Qed.

(** For the settings of the notebook and a library that never fails. *)
Lemma pipeline_once_per_pass_witness :
  linear_pipeline (trace_of (run (sample_library 2) (Quant.main Quant.default_config) 0%N)).
Proof.
  refine (proj1 (pipeline_once_per_pass (sample_library 2) 0%N) Quant.default_config _).
  vm_compute. exact I.
Defined.

(** C1 as stated fails for the PatchTST notebook: a completed run of the
    whole notebook is not one pass through the pipeline. *)
Lemma patch_tst_is_not_one_pass :
  succeeded (result_of (run (sample_library 2) (PatchTST.notebook PatchTST.default_config) 0%N))
  /\ ~ linear_pipeline
         (trace_of (run (sample_library 2) (PatchTST.notebook PatchTST.default_config) 0%N)).
Proof.
  split; [vm_compute; exact I |].
  unfold linear_pipeline. vm_compute. intros H. discriminate H.
Qed.

(** ** Control flow *)

Lemma filter_out_replicate (skip : list nat) (n ln : nat) :
  ln ∈ skip -> filter (fun l => l ∉ skip) (replicate n ln) = [].
Proof.
  intros Hin. induction n as [| n IH]; [reflexivity |].
  cbn [replicate]. rewrite filter_cons_False; [exact IH | intros H; exact (H Hin)].
Qed.

Lemma sites_around_loop (skip : list nat) (pre post : list event) ln f v xs :
  ln ∈ skip ->
  filter (fun l => l ∉ skip) (lines (pre ++ loop_events ln f v xs ++ post))
  = (filter (fun l => l ∉ skip) (lines pre) ++ filter (fun l => l ∉ skip) (lines post))%list.
Proof.
  intros Hin.
  rewrite !lines_app, lines_loop, !filter_app, filter_out_replicate by exact Hin.
  reflexivity.
Qed.

(** C2, as far as it holds.  Two statements of the notebooks are not
    straight-line code: the [if] of lines 321-325 of the quantization
    notebook, which prints one sentence or two, and the [for] of lines
    644-645 of the PatchTST notebook, which runs its body once for every
    parameter of the backbone.  Apart from the call sites of these two
    statements, every completed run goes through the same call sites in the
    same order, whatever the settings and whatever the libraries answer.
    The function [compute_metrics], which the trainer calls back, branches
    as well: it goes through line 495 unless [task] is ["stsb"], and through
    line 497 then. *)
Theorem straight_line_but_two_statements :
  straight_line_except [322; 324; 325]%nat Quant.notebook
  /\ straight_line_except [645]%nat PatchTST.notebook
  /\ (forall (W : Type) (lib : library W) (w : W) g eval_pred,
      succeeded (result_of (run lib (Quant.compute_metrics g eval_pred) w)) ->
      exists t,
        g !! "task" = Some t
        /\ lines (trace_of (run lib (Quant.compute_metrics g eval_pred) w))
           = [493; if Quant.ne_str t "stsb" then 495 else 497; 498]%nat).
Proof.
  split; [| split]; [eexists; intros W lib w cfg Hs .. | intros W lib w g eval_pred Hs].
  - match goal with
    | |- _ = ?s =>
        refine (completes_succeeded lib _
                  (fun tr => filter (fun ln => ln ∉ [322; 324; 325]%nat) (lines tr) = s)
                  w _ Hs)
    end.
    clear Hs.
    unfold Quant.notebook, Quant.main, Quant.reload, Quant.get_model_size,
      Quant.lookup_task, Quant.truediv_float.
    exec; try exact I; lazy; reflexivity.
  - match goal with
    | |- _ = ?s =>
        refine (completes_succeeded lib _
                  (fun tr => filter (fun ln => ln ∉ [645]%nat) (lines tr) = s) w _ Hs)
    end.
    clear Hs.
    unfold PatchTST.notebook, PatchTST.prologue, PatchTST.part1, PatchTST.part2,
      PatchTST.select_by_index, PatchTST.make_preprocessor.
    exec. split_at_loop.
    etransitivity; [apply sites_around_loop; set_solver |].
    lazy. reflexivity.
  - refine (completes_succeeded lib _
              (fun tr => exists t, g !! "task" = Some t
                                   /\ lines tr
                                      = [493; if Quant.ne_str t "stsb" then 495 else 497; 498]%nat)
              w _ Hs).
    clear Hs.
    unfold Quant.compute_metrics, Quant.unpack2, Quant.lookup_name.
    exec; try exact I.
    all: eexists; split; [reflexivity |];
      match goal with H : Quant.ne_str _ _ = _ |- _ => rewrite H end; reflexivity.
Qed.

(** Two runs of the quantization notebook, for a task with one sentence and
    for a task with two, on two libraries: the same call sites apart from
    lines 322-325. *)
Lemma straight_line_but_two_statements_witness :
  filter (fun ln => ln ∉ [322; 324; 325]%nat)
    (lines (trace_of (run (sample_library 2) (Quant.notebook Quant.default_config) 0%N)))
  = filter (fun ln => ln ∉ [322; 324; 325]%nat)
      (lines (trace_of (run (sample_library 0)
                          (Quant.notebook (Quant.Config "mrpc" "bert-base-cased" 8 100 50))
                          7%N))).
Proof.
  destruct straight_line_but_two_statements as [[sites H] _].
  refine (eq_trans (H N (sample_library 2) 0%N Quant.default_config _)
            (eq_sym (H N (sample_library 0) 7%N
                       (Quant.Config "mrpc" "bert-base-cased" 8 100 50) _)));
    vm_compute; exact I.
Defined.

(** C2 as stated fails for both notebooks: which call sites a completed run
    goes through depends on the task in the one (one [print] or two) and on
    the number of parameters the library lists in the other. *)
Lemma notebooks_are_not_straight_line :
  ~ straight_line Quant.notebook /\ ~ straight_line PatchTST.notebook.
Proof.
  split; intros [sites H].
  - pose proof (H N (sample_library 2) 0%N Quant.default_config) as H1.
    pose proof (H N (sample_library 2) 0%N
                  (Quant.Config "mrpc" "bert-base-cased" 8 100 50)) as H2.
    vm_compute in H1, H2. rewrite <- (H2 I) in H1. discriminate (H1 I).
  - pose proof (H N (sample_library 2) 0%N PatchTST.default_config) as H1.
    pose proof (H N (sample_library 0) 0%N PatchTST.default_config) as H2.
    vm_compute in H1, H2. rewrite <- (H2 I) in H1. discriminate (H1 I).
Qed.

(** ** Saving *)

Lemma dirs_around_loop (pre post : list event) ln v xs :
  made_dirs (pre ++ loop_events ln "param.requires_grad" v xs ++ post)
  = (made_dirs pre ++ made_dirs post)%list
  /\ model_dirs (pre ++ loop_events ln "param.requires_grad" v xs ++ post)
     = (model_dirs pre ++ model_dirs post)%list.
Proof.
  unfold made_dirs, model_dirs. rewrite !omap_app.
  assert (omap made_dir (loop_events ln "param.requires_grad" v xs) = []) as ->
    by (induction xs as [| x xs IH]; [reflexivity | exact IH]).
  assert (omap model_dir (loop_events ln "param.requires_grad" v xs) = []) as ->
    by (induction xs as [| x xs IH]; [reflexivity | exact IH]).
  split; reflexivity.
Qed.

(** The lines of four calls, in a trace split at the loop of line 645. *)
Ltac order_around_loop Hlines :=
  rewrite Hlines, !filter_app;
  match goal with
  | |- context [ filter (fun l => l ∈ ?keep) (replicate ?n ?ln) ] =>
      rewrite (filter_off_replicate keep n ln)
        by (refine (bool_decide_unpack _ _); vm_compute; exact I)
  end;
  reflexivity.

(** C6.  A run of the quantization notebook that completes has built its
    training arguments with [output_dir=save_directory], built the trainer
    from them and from the quantization configuration, had this trainer
    train, and after that had it save its model, with the ONNX export asked
    for and no other directory named.  A run of the PatchTST notebook that
    completes has created the pretrain, the linear-probe, the preprocessor
    and the fine-tuning directory, and in each of its three passes the
    trainer built in that pass has trained, and after that saved its model
    into the directory of the pass, created just before.  (What
    [save_model] writes is the library's doing.) *)
Theorem notebooks_save_their_models {W : Type} (lib : library W) (w : W) :
  (forall cfg,
      succeeded (result_of (run lib (Quant.notebook cfg) w)) ->
      saves_to_output_dir (Quant.save_directory cfg)
        (trace_of (run lib (Quant.notebook cfg) w)))
  /\ (forall cfg,
      succeeded (result_of (run lib (PatchTST.notebook cfg) w)) ->
      made_dirs (trace_of (run lib (PatchTST.notebook cfg) w))
      = [ "patchtst/electricity/model/pretrain/";
          "patchtst/electricity/model/transfer/ETTh1/model/linear_probe/";
          "patchtst/electricity/model/transfer/ETTh1/preprocessor/";
          "patchtst/electricity/model/transfer/ETTh1/model/fine_tuning/" ]
      /\ model_dirs (trace_of (run lib (PatchTST.notebook cfg) w))
         = [ "patchtst/electricity/model/pretrain/";
             "patchtst/electricity/model/transfer/ETTh1/model/linear_probe/";
             "patchtst/electricity/model/transfer/ETTh1/model/fine_tuning/" ]
      /\ saves_trained_model "trainer" 359 369 414 415
           "patchtst/electricity/model/pretrain/"
           (trace_of (run lib (PatchTST.notebook cfg) w))
      /\ saves_trained_model "finetune_forecast_trainer" 605 648 669 670
           "patchtst/electricity/model/transfer/ETTh1/model/linear_probe/"
           (trace_of (run lib (PatchTST.notebook cfg) w))
      /\ saves_trained_model "finetune_forecast_trainer" 706 714 735 736
           "patchtst/electricity/model/transfer/ETTh1/model/fine_tuning/"
           (trace_of (run lib (PatchTST.notebook cfg) w))).
Proof.
  split; intros cfg Hs.
  - refine (completes_succeeded lib _
              (fun tr => saves_to_output_dir (Quant.save_directory cfg) tr) w _ Hs).
    clear Hs.
    unfold Quant.notebook, Quant.main, Quant.reload, Quant.get_model_size,
      Quant.lookup_task, Quant.truediv_float.
    exec; try exact I.
    all: name_trace tr; do 4 eexists; repeat apply conj; reflexivity.
  - pose (Q := fun tr : list event =>
             made_dirs tr
             = [ "patchtst/electricity/model/pretrain/";
                 "patchtst/electricity/model/transfer/ETTh1/model/linear_probe/";
                 "patchtst/electricity/model/transfer/ETTh1/preprocessor/";
                 "patchtst/electricity/model/transfer/ETTh1/model/fine_tuning/" ]
             /\ model_dirs tr
                = [ "patchtst/electricity/model/pretrain/";
                    "patchtst/electricity/model/transfer/ETTh1/model/linear_probe/";
                    "patchtst/electricity/model/transfer/ETTh1/model/fine_tuning/" ]
             /\ saves_trained_model "trainer" 359 369 414 415
                  "patchtst/electricity/model/pretrain/" tr
             /\ saves_trained_model "finetune_forecast_trainer" 605 648 669 670
                  "patchtst/electricity/model/transfer/ETTh1/model/linear_probe/" tr
             /\ saves_trained_model "finetune_forecast_trainer" 706 714 735 736
                  "patchtst/electricity/model/transfer/ETTh1/model/fine_tuning/" tr).
    refine (completes_succeeded lib _ Q w _ Hs). clear Hs.
    unfold PatchTST.notebook, PatchTST.prologue, PatchTST.part1, PatchTST.part2,
      PatchTST.select_by_index, PatchTST.make_preprocessor.
    exec. split_at_loop.
    match goal with
    | |- context [ (?pre ++ loop_events ?ln ?f ?v ?xs ++ ?post)%list ] =>
        pose proof (events_around_loop pre post ln f v xs) as Hev;
        pose proof (lines_around_loop pre post ln f v xs) as Hlines;
        destruct (dirs_around_loop pre post ln v xs) as [E1 E2];
        set (before := pre) in *; set (after := post) in *;
        set (tr := (before ++ loop_events ln f v xs ++ after)%list) in *
    end.
    clearbody tr. subst Q. cbv beta.
    split; [rewrite E1; reflexivity |].
    split; [rewrite E2; reflexivity |].
    split; [| split].
    all: do 2 eexists; repeat apply conj; first [flow Hev | order_around_loop Hlines].
Qed.

(** For the settings of the notebooks and a library that never fails. *)
Lemma notebooks_save_their_models_witness :
  saves_to_output_dir "distilbert-base-uncased-finetuned-sst-2-english-finetuned-sst2"
    (trace_of (run (sample_library 2) (Quant.notebook Quant.default_config) 0%N))
  /\ saves_trained_model "trainer" 359 369 414 415 "patchtst/electricity/model/pretrain/"
       (trace_of (run (sample_library 2) (PatchTST.notebook PatchTST.default_config) 0%N))
  /\ saves_trained_model "finetune_forecast_trainer" 605 648 669 670
       "patchtst/electricity/model/transfer/ETTh1/model/linear_probe/"
       (trace_of (run (sample_library 2) (PatchTST.notebook PatchTST.default_config) 0%N))
  /\ saves_trained_model "finetune_forecast_trainer" 706 714 735 736
       "patchtst/electricity/model/transfer/ETTh1/model/fine_tuning/"
       (trace_of (run (sample_library 2) (PatchTST.notebook PatchTST.default_config) 0%N)).
Proof.
  split.
  - refine (proj1 (notebooks_save_their_models (sample_library 2) 0%N)
              Quant.default_config _).
    vm_compute. exact I.
  - refine (proj2 (proj2 (proj2 (notebooks_save_their_models (sample_library 2) 0%N)
                            PatchTST.default_config _))).
    vm_compute. exact I.
Defined.

(** ** Computation in the notebooks *)

(** C3, as far as it holds.  Every call of the notebooks goes to an imported
    library, to a Python built-in, or to an object a library handed out.
    But data is worked on in between: the row indices given to
    [select_by_index] in Part 1 are computed from the answers of
    [len(data)] (lines 170-189); [get_model_size] turns the byte count
    [os.path.getsize] answers into MiB and rounds it; [compute_metrics]
    hands [metric.compute] not the predictions it was given but what
    [np.argmax], or taking column 0, made of them. *)
Theorem library_calls_with_glue_computation {W : Type} (lib : library W) (w : W) :
  (forall cfg,
      Forall (fun c => library_call Quant.imports c = true)
        (calls (trace_of (run lib (Quant.notebook cfg) w))))
  /\ (forall cfg,
      Forall (fun c => library_call PatchTST.imports c = true)
        (calls (trace_of (run lib (PatchTST.notebook cfg) w))))
  /\ (forall cfg,
      succeeded (result_of (run lib (PatchTST.part1 cfg) w)) ->
      borders_handed_over cfg (trace_of (run lib (PatchTST.part1 cfg) w)))
  /\ (forall model size_MiB,
      result_of (run lib (Quant.get_model_size model) w) = Done size_MiB ->
      size_MiB
      = round_ndigits2
          (rnd (inject_Z (int_at 579 (trace_of (run lib (Quant.get_model_size model) w)))
                / inject_Z (1024 * 1024))))
  /\ (forall g eval_pred,
      succeeded (result_of (run lib (Quant.compute_metrics g eval_pred) w)) ->
      metric_gets_reduced (trace_of (run lib (Quant.compute_metrics g eval_pred) w))).
Proof.
  repeat apply conj.
  - intros cfg. apply all_calls_run.
    unfold Quant.notebook, Quant.main, Quant.reload, Quant.get_model_size,
      Quant.lookup_task, Quant.truediv_float.
    exec_calls ltac:(reflexivity).
  - intros cfg. apply all_calls_run.
    unfold PatchTST.notebook, PatchTST.prologue, PatchTST.part1, PatchTST.part2,
      PatchTST.select_by_index, PatchTST.make_preprocessor.
    exec_calls ltac:(reflexivity).
  - intros cfg Hs.
    refine (completes_succeeded lib _ (borders_handed_over cfg) w _ Hs). clear Hs.
    unfold PatchTST.part1, PatchTST.select_by_index, PatchTST.make_preprocessor.
    exec. repeat split; reflexivity.
  - intros model size_MiB.
    refine (completes_run lib _
              (fun tr r =>
                 r = round_ndigits2 (rnd (inject_Z (int_at 579 tr) / inject_Z (1024 * 1024))))
              w size_MiB _).
    unfold Quant.get_model_size.
    exec. reflexivity.
  - intros g eval_pred Hs.
    refine (completes_succeeded lib _ metric_gets_reduced w _ Hs). clear Hs.
    unfold Quant.compute_metrics, Quant.unpack2, Quant.lookup_name.
    exec; try exact I.
    all: do 2 eexists; split; [reflexivity |];
      split; [first [left; reflexivity | right; reflexivity] |];
      split; reflexivity.
Qed.

(** For a dataframe of 1000 rows. *)
Lemma library_calls_with_glue_computation_witness :
  borders_handed_over PatchTST.default_config
    (trace_of (run (sample_library 2) (PatchTST.part1 PatchTST.default_config) 0%N)).
Proof.
  refine (proj1 (proj2 (proj2 (library_calls_with_glue_computation (sample_library 2) 0%N)))
            PatchTST.default_config _).
  vm_compute. exact I.
Defined.

(** C3 as stated fails: in a completed run of the PatchTST notebook on a
    dataframe of 1000 rows, [select_by_index] is given integers (700, 188,
    ...) that are neither written in the notebook nor answered by a
    library: they were computed in between. *)
Lemma split_borders_are_computed :
  succeeded (result_of (run (sample_library 2) (PatchTST.notebook PatchTST.default_config) 0%N))
  /\ int_args <$> calls_at 197
       (trace_of (run (sample_library 2) (PatchTST.notebook PatchTST.default_config) 0%N))
     = [[188; 800]]
  /\ passes_ints (PatchTST.int_literals PatchTST.default_config)
       (trace_of (run (sample_library 2) (PatchTST.notebook PatchTST.default_config) 0%N))
     = false.
Proof.
  split; [vm_compute; exact I | split; vm_compute; reflexivity].
Qed.

(** * Further properties of the code *)

(** ** Rounding to a float *)

(** One rounding step: the quotient, or the next integer, whichever is
    nearer. *)
Lemma round_step (num den : Z) :
  0 < den ->
  let m := num / den in
  let r := num mod den in
  let m' := if 2 * r <? den then m
            else if den <? 2 * r then m + 1
            else if Z.even m then m else m + 1 in
  m <= m' <= m + 1
  /\ (r = 0 -> m' = m)
  /\ - den <= 2 * (m' * den - num) <= den
  /\ m * den <= num < (m + 1) * den.
Proof.
  intros Hden m r m'.
  pose proof (Z.div_mod num den ltac:(lia)) as Hdm.
  pose proof (Z.mod_pos_bound num den Hden) as Hr.
  fold m r in Hdm, Hr. subst m'.
  destruct (Z.ltb_spec (2 * r) den); [repeat split; nia |].
  destruct (Z.ltb_spec den (2 * r)); [repeat split; nia |].
  destruct (Z.even m); repeat split; nia.
Qed.

(** The exponent [rnd_pos] settles on is not above the binary logarithm of
    the quotient. *)
Lemma ge_pow2_exponent (n d : Z) :
  0 < n -> 0 < d ->
  let l := Z.log2 n - Z.log2 d in
  ge_pow2 n d (if ge_pow2 n d l then l else l - 1) = true.
Proof.
  intros Hn Hd l. destruct (ge_pow2 n d l) eqn:E; [exact E |].
  pose proof (Z.log2_spec n Hn) as [Hlo _].
  pose proof (Z.log2_spec d Hd) as [_ Hhi].
  pose proof (Z.log2_nonneg n). pose proof (Z.log2_nonneg d).
  set (a := Z.log2 n) in *. set (b := Z.log2 d) in *.
  unfold ge_pow2. destruct (Z.leb_spec 0 (l - 1)); apply Z.leb_le.
  - assert (2 ^ a = 2 ^ (l - 1) * 2 ^ Z.succ b) as Ea.
    { rewrite <- Z.pow_add_r by lia. f_equal. lia. }
    assert (0 < 2 ^ (l - 1)) by (apply Z.pow_pos_nonneg; lia).
    nia.
  - assert (2 ^ Z.succ b = 2 ^ a * 2 ^ (- (l - 1))) as Eb.
    { rewrite <- Z.pow_add_r by lia. f_equal. lia. }
    assert (0 < 2 ^ (- (l - 1))) by (apply Z.pow_pos_nonneg; lia).
    nia.
Qed.

(** What [rnd_pos] returns: an integer significand [m'] times or over a power
    of two [p], the significand being the quotient [num / den] rounded to
    the nearer integer and at least [2 ^ 52]. *)
Lemma rnd_pos_spec (n d : Z) :
  0 < n -> 0 < d ->
  exists m' num den p : Z,
    0 < den /\ 0 < p /\ den * 2 ^ 52 <= num
    /\ num / den <= m' <= num / den + 1
    /\ (num mod den = 0 -> m' = num / den)
    /\ - den <= 2 * (m' * den - num) <= den
    /\ ((rnd_pos n d = Qred (inject_Z (m' * p)) /\ num = n /\ den = d * p
         /\ (n < d * 2 ^ 53 -> p = 1))
        \/ (rnd_pos n d = Qred (m' # Z.to_pos p) /\ num = n * p /\ den = d)).
Proof.
  intros Hn Hd. unfold rnd_pos.
  pose proof (ge_pow2_exponent n d Hn Hd) as HE. cbv zeta in HE.
  set (E := if ge_pow2 n d (Z.log2 n - Z.log2 d) then _ else _) in *.
  unfold ge_pow2 in HE.
  destruct (Z.leb_spec 0 (E - 52)) as [He | He].
  - (* the unit is a power of two at least one *)
    set (p := 2 ^ (E - 52)).
    assert (0 < p) as Hp by (apply Z.pow_pos_nonneg; lia).
    assert (2 ^ E = p * 2 ^ 52) as EE.
    { unfold p. rewrite <- Z.pow_add_r by lia. f_equal. lia. }
    replace (0 <=? E) with true in HE by (symmetry; apply Z.leb_le; lia).
    apply Z.leb_le in HE. rewrite EE in HE.
    pose proof (round_step n (d * p) ltac:(nia)) as Hs. cbv zeta in Hs.
    destruct Hs as (H1 & H2 & H3 & H4).
    eexists _, n, (d * p), p.
    split; [nia |]. split; [exact Hp |]. split; [nia |].
    split; [exact H1 |]. split; [exact H2 |]. split; [exact H3 |].
    left. split; [reflexivity |]. split; [reflexivity |]. split; [reflexivity |].
    intros Hlt. nia.
  - set (p := 2 ^ (- (E - 52))).
    assert (0 < p) as Hp by (apply Z.pow_pos_nonneg; lia).
    assert (d * 2 ^ 52 <= n * p) as Hunit.
    { destruct (Z.leb_spec 0 E) as [H0 | H0]; apply Z.leb_le in HE.
      - assert (2 ^ 52 = 2 ^ E * p) as E52.
        { unfold p. rewrite <- Z.pow_add_r by lia. f_equal. lia. }
        rewrite E52. nia.
      - assert (p = 2 ^ (- E) * 2 ^ 52) as Ep.
        { unfold p. rewrite <- Z.pow_add_r by lia. f_equal. lia. }
        rewrite Ep. nia. }
    pose proof (round_step (n * p) d Hd) as Hs. cbv zeta in Hs.
    destruct Hs as (H1 & H2 & H3 & H4).
    eexists _, (n * p), d, p.
    split; [exact Hd |]. split; [exact Hp |]. split; [exact Hunit |].
    split; [exact H1 |]. split; [exact H2 |]. split; [exact H3 |].
    right. split; [reflexivity |]. split; reflexivity.
Qed.

(** Rounding moves a positive quotient by at most one part in [2 ^ 53]. *)
Lemma rnd_pos_error (n : Z) (d : positive) :
  0 < n ->
  ((n # d) * ((2 ^ 53 - 1) # 2 ^ 53) <= rnd_pos n (Zpos d)
   /\ rnd_pos n (Zpos d) <= (n # d) * ((2 ^ 53 + 1) # 2 ^ 53))%Q.
Proof.
  intros Hn.
  destruct (rnd_pos_spec n (Zpos d) Hn ltac:(lia))
    as (m' & num & den & p & Hden & Hp & Hunit & _ & _ & Herr & [(-> & -> & -> & _) | (-> & -> & ->)]);
    rewrite Qred_correct; unfold Qle, Qmult, inject_Z; cbn [Qnum Qden];
    rewrite ?Pos2Z.inj_mul, ?Z2Pos.id by lia;
    change (Z.pos (2 ^ 53)) with (2 ^ 53); change (2 ^ 52) with 4503599627370496 in Hunit;
    change (2 ^ 53) with 9007199254740992; split; nia.
Qed.

(** Rounding does not cross an integer: below [2 ^ 53] every integer is a
    float. *)
Lemma rnd_pos_between (n : Z) (d : positive) (k : Z) :
  0 < n -> n < Zpos d * 2 ^ 53 ->
  (k * Zpos d <= n -> (inject_Z k <= rnd_pos n (Zpos d))%Q)
  /\ (n <= k * Zpos d -> (rnd_pos n (Zpos d) <= inject_Z k)%Q).
Proof.
  intros Hn Hlt.
  destruct (rnd_pos_spec n (Zpos d) Hn ltac:(lia))
    as (m' & num & den & p & Hden & Hp & Hunit & Hm & Hr & _ & [(-> & -> & -> & H1) | (-> & -> & ->)]).
  - specialize (H1 Hlt). subst p. rewrite Z.mul_1_r in *.
    split; intros Hk; rewrite Qred_correct; unfold Qle, inject_Z; cbn [Qnum Qden];
      rewrite !Z.mul_1_r.
    + pose proof (Z.div_le_lower_bound n (Zpos d) k ltac:(lia) ltac:(lia)). lia.
    + destruct (Z.eq_dec (n mod Zpos d) 0) as [E0 | E0].
      * rewrite (Hr E0). apply Z.div_le_upper_bound; lia.
      * assert (n <> k * Zpos d).
        { intros ->. rewrite Z.mod_mul in E0 by lia. congruence. }
        pose proof (Z.div_lt_upper_bound n (Zpos d) k ltac:(lia) ltac:(lia)). lia.
  - split; intros Hk; rewrite Qred_correct; unfold Qle, inject_Z; cbn [Qnum Qden];
      rewrite Z2Pos.id by lia; rewrite Z.mul_1_r.
    + pose proof (Z.div_le_lower_bound (n * p) (Zpos d) (k * p) ltac:(lia) ltac:(nia)). lia.
    + destruct (Z.eq_dec ((n * p) mod Zpos d) 0) as [E0 | E0].
      * rewrite (Hr E0). apply Z.div_le_upper_bound; [lia | nia].
      * assert (n * p <> k * p * Zpos d).
        { intros E. rewrite E, Z.mod_mul in E0 by lia. congruence. }
        pose proof (Z.div_lt_upper_bound (n * p) (Zpos d) (k * p) ltac:(lia) ltac:(nia)). lia.
Qed.

Lemma Qred_integer (x : Q) (n : Z) : (Qred x == inject_Z n)%Q -> Qred x = inject_Z n.
Proof.
  intros H. pose proof (gcd_Qred x) as G. destruct (Qred x) as [a b].
  unfold Qeq in H. cbn in H, G.
  assert (a = n * Zpos b) as -> by lia.
  rewrite Z.gcd_comm, Z.mul_comm, Z.gcd_mul_diag_l in G by lia.
  assert (b = 1%positive) as -> by lia.
  unfold inject_Z. f_equal. lia.
Qed.

(** [float(n)] is [n] for an integer below [2 ^ 53]. *)
Lemma float_of_int_exact (n : Z) : 0 <= n < 2 ^ 53 -> float_of_int n = inject_Z n.
Proof.
  intros Hn. unfold float_of_int, rnd. cbn [Qnum Qden inject_Z].
  destruct n as [| p | p]; [reflexivity | | lia].
  destruct (rnd_pos_between (Zpos p) 1 (Zpos p) ltac:(lia) ltac:(lia)) as [Hlo Hhi].
  assert (rnd_pos (Z.pos p) 1 == inject_Z (Zpos p))%Q as E
    by (apply Qle_antisym; [apply Hhi | apply Hlo]; lia).
  unfold rnd_pos in *. apply Qred_integer. exact E.
Qed.

Lemma float_mul_int (n a : Z) (b : positive) :
  0 < n -> 0 < a -> float_mul (inject_Z n) (a # b) = rnd_pos (n * a) (Zpos b).
Proof.
  intros Hn Ha. unfold float_mul, rnd. cbn [Qmult Qnum Qden inject_Z].
  destruct n as [| n | n]; [lia | | lia]. destruct a as [| a | a]; [lia | | lia].
  reflexivity.
Qed.

(** [int(x)] is the floor of a float that is not negative. *)
Lemma int_of_float_floor (x : Q) : (0 <= x)%Q -> int_of_float x = Qfloor x.
Proof.
  intros H. unfold int_of_float, Qfloor. destruct x as [a b]. cbn [Qnum Qden].
  apply Z.quot_div_nonneg; [| lia]. unfold Qle in H. cbn in H. lia.
Qed.

Lemma seven_tenths : rnd (7 # 10) = 3152519739159347 # 4503599627370496.
Proof. vm_compute. reflexivity. Qed.

Lemma two_tenths : rnd (2 # 10) = 3602879701896397 # 18014398509481984.
Proof. vm_compute. reflexivity. Qed.

(** [int(n * 0.7)] and [int(n * 0.2)] for a row count [n]. *)
Lemma int_seven_tenths (n : Z) :
  0 <= n < 2 ^ 49 ->
  let k := int_of_float (float_mul (float_of_int n) (rnd (7 # 10))) in
  7 * n / 10 - 1 <= k <= 7 * n / 10 /\ (n mod 10 <> 0 -> k = 7 * n / 10) /\ 0 <= k.
Proof.
  intros Hn k. subst k. rewrite float_of_int_exact, seven_tenths by lia.
  destruct (Z.eq_dec n 0) as [-> | Hn0];
    [vm_compute; split; [split; discriminate | split; [reflexivity | discriminate]] |].
  rewrite float_mul_int by lia.
  destruct (rnd_pos_error (n * 3152519739159347) 4503599627370496 ltac:(lia)) as [Hlo Hhi].
  set (V := rnd_pos _ _) in *.
  assert (0 <= V)%Q as H0.
  { eapply Qle_trans; [| exact Hlo]. unfold Qle. cbn. lia. }
  rewrite (int_of_float_floor V H0).
  apply Qfloor_resp_le in Hlo, Hhi. unfold Qfloor at 1 in Hlo. unfold Qfloor at 2 in Hhi.
  cbn [Qmult Qnum Qden] in Hlo, Hhi.
  change (Z.pos (4503599627370496 * 2 ^ 53)) with 40564819207303340847894502572032 in *.
  change (2 ^ 53 - 1) with 9007199254740991 in *.
  change (2 ^ 53 + 1) with 9007199254740993 in *.
  change (2 ^ 49) with 562949953421312 in Hn.
  pose proof (Z.div_mod (7 * n) 10 ltac:(lia)) as Hdm.
  pose proof (Z.mod_pos_bound (7 * n) 10 ltac:(lia)) as Hr.
  set (t := 7 * n / 10) in *. set (r := (7 * n) mod 10) in *.
  assert (Qfloor V <= t) as Hup.
  { eapply Z.le_trans; [exact Hhi |].
    apply Z.lt_succ_r. apply Z.div_lt_upper_bound; lia. }
  assert (t - 1 <= Qfloor V) as Hdown.
  { eapply Z.le_trans; [| exact Hlo]. apply Z.div_le_lower_bound; lia. }
  split; [lia |].
  split; [| apply Qfloor_resp_le in H0; exact H0].
  intros Hmod.
  assert (r <> 0) as Hr0.
  { unfold r. intros E. apply Hmod.
    pose proof (Z.div_mod n 10 ltac:(lia)). pose proof (Z.mod_pos_bound n 10 ltac:(lia)).
    rewrite Z.mod_divide in E by lia. destruct E as [c Ec]. lia. }
  assert (t <= Qfloor V).
  { eapply Z.le_trans; [| exact Hlo]. apply Z.div_le_lower_bound; lia. }
  lia.
Qed.

Lemma int_two_tenths (n : Z) :
  0 <= n < 2 ^ 49 ->
  int_of_float (float_mul (float_of_int n) (rnd (2 # 10))) = n / 5.
Proof.
  intros Hn. rewrite float_of_int_exact, two_tenths by lia.
  destruct (Z.eq_dec n 0) as [-> | Hn0]; [vm_compute; reflexivity |].
  rewrite float_mul_int by lia.
  change (2 ^ 49) with 562949953421312 in Hn.
  destruct (rnd_pos_error (n * 3602879701896397) 18014398509481984 ltac:(lia)) as [_ Hhi].
  pose proof (Z.div_mod n 5 ltac:(lia)) as Hdm.
  pose proof (Z.mod_pos_bound n 5 ltac:(lia)) as Hr.
  destruct (rnd_pos_between (n * 3602879701896397) 18014398509481984 (n / 5)
              ltac:(lia) ltac:(change (2 ^ 53) with 9007199254740992; lia)) as [Hlo _].
  specialize (Hlo ltac:(lia)).
  set (V := rnd_pos _ _) in *.
  assert (0 <= V)%Q as H0.
  { eapply Qle_trans; [| exact Hlo]. unfold Qle. cbn. lia. }
  rewrite (int_of_float_floor V H0).
  apply Qfloor_resp_le in Hlo, Hhi. rewrite Qfloor_Z in Hlo. unfold Qfloor at 2 in Hhi.
  cbn [Qmult Qnum Qden] in Hhi.
  change (Z.pos (18014398509481984 * 2 ^ 53)) with 162259276829213363391578010288128 in *.
  change (2 ^ 53 + 1) with 9007199254740993 in *.
  assert (Qfloor V <= n / 5).
  { eapply Z.le_trans; [exact Hhi |].
    apply Z.lt_succ_r. apply Z.div_lt_upper_bound; lia. }
  lia.
Qed.

(** ** The sizes of the split *)

Lemma split_sizes_of (len_data context_length : Z) :
  0 <= len_data < 2 ^ 49 ->
  let s := PatchTST.electricity_split len_data context_length in
  PatchTST.num_test s = len_data / 5
  /\ 7 * len_data / 10 - 1 <= PatchTST.num_train s <= 7 * len_data / 10
  /\ (len_data mod 10 <> 0 -> PatchTST.num_train s = 7 * len_data / 10)
  /\ 0 <= PatchTST.num_train s.
Proof.
  intros Hlen s.
  pose proof (int_seven_tenths len_data Hlen) as (Htrain & Hexact & Hpos).
  pose proof (int_two_tenths len_data Hlen) as Htest.
  subst s. unfold PatchTST.electricity_split, PatchTST.split_of.
  cbn [PatchTST.num_test PatchTST.num_train PatchTST.num_valid].
  repeat split; [exact Htest | apply Htrain | apply Htrain | exact Hexact | exact Hpos].
Qed.

(** X1.  For a dataframe of fewer than [2 ^ 49] rows, [int(len(data) * 0.2)]
    is a fifth of the rows, rounded down, and [int(len(data) * 0.7)] is seven
    tenths of them, rounded down, or one less; one less only when the number
    of rows is a multiple of ten. *)
Theorem split_sizes (len_data context_length : Z) :
  0 <= len_data < 2 ^ 49 ->
  let s := PatchTST.electricity_split len_data context_length in
  PatchTST.num_test s = len_data / 5
  /\ 7 * len_data / 10 - 1 <= PatchTST.num_train s <= 7 * len_data / 10
  /\ (len_data mod 10 <> 0 -> PatchTST.num_train s = 7 * len_data / 10).
Proof.
  intros Hlen s. destruct (split_sizes_of len_data context_length Hlen) as (H1 & H2 & H3 & _).
  repeat split; [exact H1 | apply H2 | apply H2 | exact H3].
Qed.

(** A dataframe of 90 rows: 18 rows for testing and 62 for training. *)
Lemma split_sizes_witness :
  let s := PatchTST.electricity_split 90 512 in
  PatchTST.num_test s = 90 / 5
  /\ 7 * 90 / 10 - 1 <= PatchTST.num_train s <= 7 * 90 / 10
  /\ (90 mod 10 <> 0 -> PatchTST.num_train s = 7 * 90 / 10).
Proof. apply (split_sizes 90 512). lia. Defined.

(** X2.  For a dataframe of fewer than [2 ^ 49] rows no part of the split is
    negative, validation keeps at least a tenth of the rows, and the ends of
    the three windows are in order and stop at the last row. *)
Theorem split_parts_ordered (len_data context_length : Z) :
  0 <= len_data < 2 ^ 49 ->
  let s := PatchTST.electricity_split len_data context_length in
  0 <= PatchTST.num_train s
  /\ 0 <= PatchTST.num_test s
  /\ len_data <= 10 * PatchTST.num_valid s
  /\ 0 <= PatchTST.train_end_index s <= PatchTST.valid_end_index s
  /\ PatchTST.valid_end_index s <= PatchTST.test_end_index s
  /\ PatchTST.test_end_index s = len_data.
Proof.
  intros Hlen s.
  pose proof (split_sizes_of len_data context_length Hlen) as (H1 & H2 & _ & H4).
  assert (PatchTST.num_valid s = len_data - PatchTST.num_train s - PatchTST.num_test s) as E0
    by reflexivity.
  assert (PatchTST.train_end_index s = PatchTST.num_train s) as E2 by reflexivity.
  assert (PatchTST.test_end_index s = len_data) as E3 by reflexivity.
  assert (PatchTST.valid_end_index s = PatchTST.num_train s + PatchTST.num_valid s) as E8
    by reflexivity.
  fold s in H1, H2, H4. clearbody s.
  pose proof (Z.div_mod (7 * len_data) 10 ltac:(lia)).
  pose proof (Z.mod_pos_bound (7 * len_data) 10 ltac:(lia)).
  pose proof (Z.div_mod len_data 5 ltac:(lia)).
  pose proof (Z.mod_pos_bound len_data 5 ltac:(lia)).
  repeat split; lia.
Qed.

(** The Electricity data. *)
Lemma split_parts_ordered_witness :
  let s := PatchTST.electricity_split 26304 512 in
  0 <= PatchTST.num_train s
  /\ 0 <= PatchTST.num_test s
  /\ 26304 <= 10 * PatchTST.num_valid s
  /\ 0 <= PatchTST.train_end_index s <= PatchTST.valid_end_index s
  /\ PatchTST.valid_end_index s <= PatchTST.test_end_index s
  /\ PatchTST.test_end_index s = 26304.
Proof. apply (split_parts_ordered 26304 512). lia. Defined.

(** X3.  A dataframe too short for the context: when seven tenths of the
    rows are fewer than [context_length] the validation window starts before
    row 0, when they are at least [context_length + 1] it does not, and the
    test window starts at or after row 0 exactly when the rows without the
    fifth of them kept for testing are at least [context_length]. *)
Theorem split_of_short_dataframe (len_data context_length : Z) :
  0 <= len_data < 2 ^ 49 ->
  let s := PatchTST.electricity_split len_data context_length in
  (7 * len_data < 10 * context_length -> PatchTST.valid_start_index s < 0)
  /\ (10 * context_length + 10 <= 7 * len_data -> 0 <= PatchTST.valid_start_index s)
  /\ (0 <= PatchTST.test_start_index s <-> context_length <= len_data - len_data / 5).
Proof.
  intros Hlen s.
  pose proof (split_sizes_of len_data context_length Hlen) as (H1 & H2 & _ & _).
  assert (PatchTST.valid_start_index s = PatchTST.num_train s - context_length) as E4
    by reflexivity.
  assert (PatchTST.test_start_index s = len_data - PatchTST.num_test s - context_length) as E5
    by reflexivity.
  fold s in H1, H2. clearbody s.
  pose proof (Z.div_mod (7 * len_data) 10 ltac:(lia)).
  pose proof (Z.mod_pos_bound (7 * len_data) 10 ltac:(lia)).
  repeat split; lia.
Qed.

(** 700 rows and a context of 512. *)
Lemma split_of_short_dataframe_witness :
  let s := PatchTST.electricity_split 700 512 in
  (7 * 700 < 10 * 512 -> PatchTST.valid_start_index s < 0)
  /\ (10 * 512 + 10 <= 7 * 700 -> 0 <= PatchTST.valid_start_index s)
  /\ (0 <= PatchTST.test_start_index s <-> 512 <= 700 - 700 / 5).
Proof. apply (split_of_short_dataframe 700 512). lia. Defined.

(** ** A reported size of zero *)

Lemma rnd_pos_positive (n : Z) (d : positive) : 0 < n -> (0 < rnd_pos n (Zpos d))%Q.
Proof.
  intros Hn. destruct (rnd_pos_error n d Hn) as [Hlo _].
  eapply Qlt_le_trans; [| exact Hlo]. unfold Qlt. cbn. lia.
Qed.

(** [round(x, 2)] of a size in MiB is [0.0] for a file of at most 5242
    bytes, and for no other. *)
Lemma round_ndigits2_MiB_zero (size : Z) :
  0 <= size < 2 ^ 53 ->
  (round_ndigits2 (rnd (inject_Z size / inject_Z (1024 * 1024))) == 0)%Q <-> size <= 5242.
Proof.
  intros Hsize. unfold round_ndigits2.
  pose proof (round_half_even_near (rnd (inject_Z size / inject_Z (1024 * 1024)) * 100)) as Hn.
  set (x := rnd _) in *. set (h := round_half_even _) in *.
  assert (Ex : (x * 100 == (100 * size) # 1048576)%Q).
  { unfold x. rewrite (rnd_MiB size Hsize). change (1024 * 1024) with 1048576.
    unfold Qeq, Qdiv, Qmult, Qinv. cbn. lia. }
  rewrite Ex in Hn. clearbody h. clear Ex x.
  assert ((2 * h - 1) * 1048576 <= 200 * size <= (2 * h + 1) * 1048576) as Hh.
  { destruct Hn as [H1 H2]. unfold Qle, Qminus, Qplus, Qopp, inject_Z in H1, H2.
    cbn in H1, H2. lia. }
  clear Hn. unfold rnd. cbn [Qnum Qden].
  destruct h as [| p | p].
  - split; [lia | reflexivity].
  - split; [| lia]. intros E. pose proof (rnd_pos_positive (Zpos p) 100 ltac:(lia)) as Hp.
    rewrite E in Hp. discriminate Hp.
  - lia.
Qed.

(** X4.  For a saved state of fewer than [2 ^ 53] bytes, [get_model_size]
    reports [0.0] exactly when the state has at most 5242 bytes. *)
Theorem get_model_size_zero {file : Type} (file_size : file -> Z)
    (state_dict : pyval -> pyval) (pickle : pyval -> file)
    (model : pyval) (fs : gmap string file) :
  let size := file_size (pickle (state_dict model)) in
  let r := run (file_library file_size state_dict pickle) (Quant.get_model_size model) fs in
  0 <= size < 2 ^ 53 ->
  exists q : Q, result_of r = Done q /\ ((q == 0)%Q <-> size <= 5242).
Proof.
  intros size r Hsize.
  destruct (get_model_size_run file_size state_dict pickle model fs) as [tr E].
  subst r. rewrite E. eexists. split; [reflexivity |].
  apply round_ndigits2_MiB_zero. exact Hsize.
Qed.

(** A state of 5242 bytes. *)
Lemma get_model_size_zero_witness :
  exists q : Q,
    result_of (run (file_library (fun n : Z => n) (fun v => v) (fun _ => 5242))
                 (Quant.get_model_size (PObj 0)) ∅) = Done q
    /\ ((q == 0)%Q <-> 5242 <= 5242).
Proof.
  apply (get_model_size_zero (fun n : Z => n) (fun v => v) (fun _ => 5242) (PObj 0) ∅).
  lia.
Defined.

(** ** Exceptions of the notebooks' own *)

Lemma raises_run {W A : Type} (lib : library W) (p : prog A) (Q : exn -> Prop) (w : W) (e : exn) :
  raises p Q ->
  result_of (run lib p w) = Failed e ->
  Q e \/ library_raised (trace_of (run lib p w)) = true.
Proof.
  revert w. induction p as [a | e' | c k IH | body handler k IH]; intros w; simpl;
    [| | | intros []].
  - intros _ [=].
  - intros HQ [= <-]. left. exact HQ.
  - intros HQ. destruct (lib c w) as [[e' | x] w'].
    + intros _. right. reflexivity.
    + specialize (IH x w' (HQ x)).
      destruct (run lib (k x) w') as [[o tr] w''].
      unfold result_of, trace_of in *. simpl in *.
      intros E. destruct (IH E) as [H | H]; [left; exact H | right].
      destruct tr as [| e0 tr]; [discriminate H |].
      unfold library_raised in *. rewrite last_cons. 
      destruct (last (e0 :: tr)) eqn:El; [exact H | discriminate H].
Qed.

Lemma raises_bind {A B : Type} (p : prog A) (f : A -> prog B) (Q : exn -> Prop) :
  raises p Q -> (forall a, raises (f a) Q) -> raises (bind p f) Q.
Proof.
  induction p as [a | e | c k IH | body handler k IH]; simpl.
  - intros _ Hf. apply Hf.
  - intros H _. exact H.
  - intros Hk Hf x. apply IH; [apply Hk | exact Hf].
  - intros [].
Qed.

Lemma raises_for_each {X : Type} (xs : list X) (body : X -> prog unit) (Q : exn -> Prop) :
  (forall x, raises (body x) Q) -> raises (for_each xs body) Q.
Proof.
  intros Hb. induction xs as [| x xs IH]; simpl; [trivial |].
  apply raises_bind; [apply Hb | intros _; exact IH].
Qed.

Lemma raises_bind_assoc {A B C : Type} (p : prog A) (f : A -> prog B) (g : B -> prog C)
    (Q : exn -> Prop) :
  raises (bind p (fun a => bind (f a) g)) Q -> raises (bind (bind p f) g) Q.
Proof.
  induction p as [a | e | c k IH | body handler k IH]; simpl.
  - intros H. exact H.
  - intros H. exact H.
  - intros H x. apply IH. apply H.
  - intros H. exact H.
Qed.

(** Going through a program for the exceptions it raises itself: what is
    left to prove is the property of each of them. *)
Ltac exec_raises :=
  unfold mbind, prog_bind;
  repeat first
    [ intro
    | match goal with
      | |- raises (bind (bind _ _) _) _ => apply raises_bind_assoc
      | |- raises (match ?x with _ => _ end) _ => destruct x eqn:?
      | |- raises (bind (match ?x with _ => _ end) _) _ => destruct x eqn:?
      | |- raises (bind (for_each _ _) _) _ =>
          apply raises_bind; [apply raises_for_each |]
      | |- raises (bind (Quant.truediv_int _ _) _) _ => rewrite truediv_int_MiB
      | |- True => exact I
      | |- raises _ _ => progress hnf
      | |- raises ?p ?Q =>
          let p' := eval hnf in p in progress change (raises p' Q)
      end ].

(** X5.  The exceptions of the code's own.  When a run fails and no library
    call raised, the quantization notebook failed with [KeyError(task)] (line
    320) or with [ZeroDivisionError] (line 587), [preprocess_function] with
    [NameError] for one of its five names that is not bound, and
    [compute_metrics] with [NameError] for [task], [metric] or [np] or with
    the [ValueError] of the unpacking.  The PatchTST notebook and
    [get_model_size] raise nothing of their own: a run of theirs fails only
    in a library call that raised. *)
Theorem own_exceptions {W : Type} (lib : library W) (w : W) (e : exn) :
  (forall cfg,
      result_of (run lib (Quant.notebook cfg) w) = Failed e ->
      library_raised (trace_of (run lib (Quant.notebook cfg) w)) = false ->
      e = Exn "KeyError" (Quant.task cfg)
      \/ e = Exn "ZeroDivisionError" "float division by zero")
  /\ (forall cfg,
      result_of (run lib (PatchTST.notebook cfg) w) = Failed e ->
      library_raised (trace_of (run lib (PatchTST.notebook cfg) w)) = true)
  /\ (forall model,
      result_of (run lib (Quant.get_model_size model) w) = Failed e ->
      library_raised (trace_of (run lib (Quant.get_model_size model) w)) = true)
  /\ (forall g examples,
      result_of (run lib (Quant.preprocess_function g examples) w) = Failed e ->
      library_raised (trace_of (run lib (Quant.preprocess_function g examples) w)) = false ->
      exists n, e = Exn "NameError" n /\ g !! n = None
        /\ n ∈ ["sentence1_key"; "sentence2_key"; "tokenizer"; "padding"; "max_seq_length"])
  /\ (forall g eval_pred,
      result_of (run lib (Quant.compute_metrics g eval_pred) w) = Failed e ->
      library_raised (trace_of (run lib (Quant.compute_metrics g eval_pred) w)) = false ->
      e = Exn "ValueError" "unpack"
      \/ exists n, e = Exn "NameError" n /\ g !! n = None /\ n ∈ ["task"; "metric"; "np"]).
Proof.
  repeat apply conj.
  - intros cfg He Hl.
    destruct (raises_run lib (Quant.notebook cfg)
                (fun e => e = Exn "KeyError" (Quant.task cfg)
                          \/ e = Exn "ZeroDivisionError" "float division by zero")
                w e) as [H | H]; [| exact He | exact H | congruence].
    unfold Quant.notebook, Quant.main, Quant.reload, Quant.get_model_size,
      Quant.lookup_task, Quant.truediv_float.
    exec_raises; first [left; reflexivity | right; reflexivity].
  - intros cfg He.
    destruct (raises_run lib (PatchTST.notebook cfg) (fun _ => False) w e)
      as [H | H]; [| exact He | destruct H | exact H].
    unfold PatchTST.notebook, PatchTST.prologue, PatchTST.part1, PatchTST.part2,
      PatchTST.select_by_index, PatchTST.make_preprocessor.
    exec_raises.
  - intros model He.
    destruct (raises_run lib (Quant.get_model_size model) (fun _ => False) w e)
      as [H | H]; [| exact He | destruct H | exact H].
    unfold Quant.get_model_size.
    exec_raises.
  - intros g examples He Hl.
    destruct (raises_run lib (Quant.preprocess_function g examples)
                (fun e => exists n, e = Exn "NameError" n /\ g !! n = None
                   /\ n ∈ ["sentence1_key"; "sentence2_key"; "tokenizer"; "padding";
                           "max_seq_length"])
                w e) as [H | H]; [| exact He | exact H | congruence].
    unfold Quant.preprocess_function, Quant.lookup_name.
    exec_raises; eexists; (split; [reflexivity | split; [eassumption | set_solver]]).
  - intros g eval_pred He Hl.
    destruct (raises_run lib (Quant.compute_metrics g eval_pred)
                (fun e => e = Exn "ValueError" "unpack"
                   \/ exists n, e = Exn "NameError" n /\ g !! n = None
                        /\ n ∈ ["task"; "metric"; "np"])
                w e) as [H | H]; [| exact He | exact H | congruence].
    unfold Quant.compute_metrics, Quant.unpack2, Quant.lookup_name.
    exec_raises;
      first [ left; reflexivity
            | right; eexists; (split; [reflexivity | split; [eassumption | set_solver]]) ].
Qed.

(** A task that is not a GLUE task, with a library that never fails. *)
Lemma own_exceptions_witness :
  Exn "KeyError" "imdb" = Exn "KeyError" "imdb"
  \/ Exn "KeyError" "imdb" = Exn "ZeroDivisionError" "float division by zero".
Proof.
  refine (proj1 (own_exceptions (sample_library 2) 0%N (Exn "KeyError" "imdb"))
            (Quant.Config "imdb" "bert-base-cased" 8 100 50) _ _);
    vm_compute; reflexivity.
Defined.

(** ** A task that is not a GLUE task *)

Lemma lookup_unknown_task (t : string) :
  t ∉ Quant.GLUE_TASKS -> Quant.lookup_task t = Raise (Exn "KeyError" t).
Proof.
  intros Ht. unfold Quant.lookup_task, Quant.task_to_keys.
  rewrite (not_elem_of_list_to_map_1 _ t); [reflexivity |]. exact Ht.
Qed.

(** X6.  With a [task] that is not one of [GLUE_TASKS] no run of the
    quantization notebook completes: no call is made past line 268, so no
    model is loaded and nothing is trained, and unless a library call raised
    before, the run fails with [KeyError(task)]. *)
Theorem unknown_task_stops_at_lookup {W : Type} (lib : library W) (w : W) (cfg : Quant.config) :
  Quant.task cfg ∉ Quant.GLUE_TASKS ->
  ~ succeeded (result_of (run lib (Quant.notebook cfg) w))
  /\ Forall (fun c => (line c <= 268)%nat) (calls (trace_of (run lib (Quant.notebook cfg) w)))
  /\ (library_raised (trace_of (run lib (Quant.notebook cfg) w)) = false ->
      result_of (run lib (Quant.notebook cfg) w) = Failed (Exn "KeyError" (Quant.task cfg))).
Proof.
  intros Ht. pose proof (lookup_unknown_task _ Ht) as El.
  assert (~ succeeded (result_of (run lib (Quant.notebook cfg) w))) as Hn.
  { intros Hs.
    refine (completes_succeeded lib _ (fun _ => False) w _ Hs).
    unfold Quant.notebook, Quant.main. rewrite El. exec. exact I. }
  split; [exact Hn |]. split.
  - apply all_calls_run.
    unfold Quant.notebook, Quant.main. rewrite El.
    exec_calls ltac:(cbn; lia).
  - intros Hl. destruct (result_of (run lib (Quant.notebook cfg) w)) as [a | e] eqn:E.
    + destruct Hn. exact I.
    + destruct (raises_run lib (Quant.notebook cfg)
                  (fun e => e = Exn "KeyError" (Quant.task cfg)) w e) as [H | H];
        [| exact E | rewrite H; reflexivity | congruence].
      unfold Quant.notebook, Quant.main. rewrite El. exec_raises. reflexivity.
Qed.

(** The task [imdb]. *)
Lemma unknown_task_stops_at_lookup_witness :
  ~ succeeded (result_of (run (sample_library 2)
                            (Quant.notebook (Quant.Config "imdb" "bert-base-cased" 8 100 50))
                            0%N))
  /\ Forall (fun c => (line c <= 268)%nat)
       (calls (trace_of (run (sample_library 2)
                           (Quant.notebook (Quant.Config "imdb" "bert-base-cased" 8 100 50))
                           0%N)))
  /\ (library_raised
        (trace_of (run (sample_library 2)
                     (Quant.notebook (Quant.Config "imdb" "bert-base-cased" 8 100 50)) 0%N))
      = false ->
      result_of (run (sample_library 2)
                   (Quant.notebook (Quant.Config "imdb" "bert-base-cased" 8 100 50)) 0%N)
      = Failed (Exn "KeyError" "imdb")).
Proof.
  apply (unknown_task_stops_at_lookup (sample_library 2) 0%N
           (Quant.Config "imdb" "bert-base-cased" 8 100 50)).
  refine (bool_decide_unpack _ _). vm_compute. exact I.
Defined.

(** ** Runs of the quantization notebook that complete *)

Lemma quantization_run (cfg : Quant.config) :
  completes (Quant.notebook cfg) (fun tr _ => completed_quantization cfg tr).
Proof.
  unfold Quant.notebook, Quant.main, Quant.reload, Quant.get_model_size,
    Quant.lookup_task, Quant.truediv_float.
  exec; try exact I.
  all: name_trace tr.
  all: split; [do 2 eexists; repeat split; reflexivity |].
  all: split; [do 6 eexists; repeat split; reflexivity |].
  all: split; [do 4 eexists; repeat split; reflexivity |].
  all: split; [eexists; repeat split; reflexivity |].
  all: do 2 eexists; split; [reflexivity |]; intros Hq;
    match goal with
    | H : float_truediv _ (round_ndigits2 (rnd (inject_Z ?q / _))) = Some _ |- _ =>
        unfold float_truediv in H;
        destruct (round_ndigits2_MiB_zero q ltac:(lia)) as [_ Hz];
        apply Qeq_bool_iff in Hz; [rewrite Hz in H; discriminate H | lia]
    end.
Qed.

(** X7.  In a run that completes, the tokenizer and the model are loaded
    from the same [model_checkpoint], and the [INCTrainer] is built from
    these two. *)
Theorem trainer_built_from_one_checkpoint {W : Type} (lib : library W) (w : W)
    (cfg : Quant.config) :
  succeeded (result_of (run lib (Quant.notebook cfg) w)) ->
  trainer_of_checkpoint cfg (trace_of (run lib (Quant.notebook cfg) w)).
Proof.
  intros Hs. exact (proj1 (completes_succeeded lib _ _ w (quantization_run cfg) Hs)).
Qed.

(** For the settings of the notebook and a library that never fails. *)
Lemma trainer_built_from_one_checkpoint_witness :
  trainer_of_checkpoint Quant.default_config
    (trace_of (run (sample_library 2) (Quant.notebook Quant.default_config) 0%N)).
Proof.
  refine (trainer_built_from_one_checkpoint (sample_library 2) 0%N Quant.default_config _).
  vm_compute. exact I.
Defined.

(** X8.  In a run that completes, the dataset and the metric are loaded for
    the same GLUE configuration, the dataset is mapped through
    [preprocess_function], and the trainer is given the first
    [max_train_samples] rows of the mapped training split and the first
    [max_eval_samples] rows of the mapped validation split. *)
Theorem trainer_gets_truncated_splits {W : Type} (lib : library W) (w : W)
    (cfg : Quant.config) :
  succeeded (result_of (run lib (Quant.notebook cfg) w)) ->
  trainer_datasets cfg (trace_of (run lib (Quant.notebook cfg) w)).
Proof.
  intros Hs.
  exact (proj1 (proj2 (completes_succeeded lib _ _ w (quantization_run cfg) Hs))).
Qed.

(** For the settings of the notebook and a library that never fails. *)
Lemma trainer_gets_truncated_splits_witness :
  trainer_datasets Quant.default_config
    (trace_of (run (sample_library 2) (Quant.notebook Quant.default_config) 0%N)).
Proof.
  refine (trainer_gets_truncated_splits (sample_library 2) 0%N Quant.default_config _).
  vm_compute. exact I.
Defined.

(** X9.  In a run that completes, the full-precision size is measured on
    the copy of the loaded model that was taken before training, and the
    quantized size on [trainer.model] after training and evaluation. *)
Theorem sizes_measured_before_and_after {W : Type} (lib : library W) (w : W)
    (cfg : Quant.config) :
  succeeded (result_of (run lib (Quant.notebook cfg) w)) ->
  sizes_of_copy_and_trained (trace_of (run lib (Quant.notebook cfg) w)).
Proof.
  intros Hs.
  exact (proj1 (proj2 (proj2 (completes_succeeded lib _ _ w (quantization_run cfg) Hs)))).
Qed.

(** For the settings of the notebook and a library that never fails. *)
Lemma sizes_measured_before_and_after_witness :
  sizes_of_copy_and_trained
    (trace_of (run (sample_library 2) (Quant.notebook Quant.default_config) 0%N)).
Proof.
  refine (sizes_measured_before_and_after (sample_library 2) 0%N Quant.default_config _).
  vm_compute. exact I.
Defined.

(** X10.  In a run that completes, [save_model] is given no directory, and
    the two models loaded afterwards are read from the directory that was
    given to the training arguments as [output_dir]. *)
Theorem saved_model_is_loaded_back {W : Type} (lib : library W) (w : W)
    (cfg : Quant.config) :
  succeeded (result_of (run lib (Quant.notebook cfg) w)) ->
  reloads_from_output_dir (trace_of (run lib (Quant.notebook cfg) w)).
Proof.
  intros Hs.
  exact (proj1 (proj2 (proj2 (proj2
           (completes_succeeded lib _ _ w (quantization_run cfg) Hs))))).
Qed.

(** For the settings of the notebook and a library that never fails. *)
Lemma saved_model_is_loaded_back_witness :
  reloads_from_output_dir
    (trace_of (run (sample_library 2) (Quant.notebook Quant.default_config) 0%N)).
Proof.
  refine (saved_model_is_loaded_back (sample_library 2) 0%N Quant.default_config _).
  vm_compute. exact I.
Defined.

(** X11.  A run of the quantization notebook completes only if the size
    answered for the file of the quantized model is not between 0 and 5242
    bytes: for such a file the reported size is [0.0], and line 587 divides
    by it. *)
Theorem tiny_quantized_model_stops_the_run {W : Type} (lib : library W) (w : W)
    (cfg : Quant.config) :
  succeeded (result_of (run lib (Quant.notebook cfg) w)) ->
  quantized_size_not_zero (trace_of (run lib (Quant.notebook cfg) w)).
Proof.
  intros Hs.
  exact (proj2 (proj2 (proj2 (proj2
           (completes_succeeded lib _ _ w (quantization_run cfg) Hs))))).
Qed.

(** For the settings of the notebook and a library that never fails. *)
Lemma tiny_quantized_model_stops_the_run_witness :
  quantized_size_not_zero
    (trace_of (run (sample_library 2) (Quant.notebook Quant.default_config) 0%N)).
Proof.
  refine (tiny_quantized_model_stops_the_run (sample_library 2) 0%N Quant.default_config _).
  vm_compute. exact I.
Defined.

(** ** Runs of the PatchTST notebook that complete *)

Lemma loaded_dirs_around_loop (pre post : list event) ln v xs :
  loaded_dirs (pre ++ loop_events ln "param.requires_grad" v xs ++ post)
  = (loaded_dirs pre ++ loaded_dirs post)%list.
Proof.
  unfold loaded_dirs. rewrite !omap_app.
  assert (omap loaded_dir (loop_events ln "param.requires_grad" v xs) = []) as ->
    by (induction xs as [| x xs IH]; [reflexivity | exact IH]).
  reflexivity.
Qed.

Lemma loads_saved_models_app (saved : list string) (a b : list event) :
  loads_saved_models saved (a ++ b)
  = loads_saved_models saved a && loads_saved_models (rev (model_dirs a) ++ saved) b.
Proof.
  revert saved. induction a as [| e a IH]; intros saved; [reflexivity |].
  cbn [app loads_saved_models]. rewrite IH, andb_assoc. f_equal. f_equal.
  unfold model_dirs. cbn [omap list_omap]. 
  destruct (model_dir e) as [d |]; [| reflexivity].
  cbn [rev]. rewrite <- app_assoc. reflexivity.
Qed.

Lemma loads_saved_models_loop (saved : list string) ln v xs (post : list event) :
  loads_saved_models saved (loop_events ln "param.requires_grad" v xs ++ post)
  = loads_saved_models saved post.
Proof.
  induction xs as [| x xs IH]; [reflexivity | exact IH].
Qed.

Lemma loads_around_loop (pre post : list event) ln v xs :
  loads_saved_models [] (pre ++ loop_events ln "param.requires_grad" v xs ++ post)
  = loads_saved_models [] pre && loads_saved_models (rev (model_dirs pre)) post.
Proof.
  rewrite loads_saved_models_app, loads_saved_models_loop, app_nil_r. reflexivity.
Qed.

Lemma loop_receivers ln f v xs :
  (fun e => recv (ev_call e)) <$> loop_events ln f v xs = Some <$> xs.
Proof. unfold loop_events. rewrite <- list_fmap_compose. reflexivity. Qed.

Lemma loop_arguments ln f v xs :
  (fun e => args (ev_call e)) <$> loop_events ln f v xs = replicate (length xs) [v].
Proof. induction xs as [| x xs IH]; [reflexivity |]. cbn. f_equal. exact IH. Qed.

Lemma patch_tst_run (cfg : PatchTST.config) :
  completes (PatchTST.notebook cfg) (fun tr _ => completed_patch_tst cfg tr).
Proof.
  unfold PatchTST.notebook, PatchTST.prologue, PatchTST.part1, PatchTST.part2,
    PatchTST.select_by_index, PatchTST.make_preprocessor.
  exec. split_at_loop.
  match goal with
  | |- context [ (?pre ++ loop_events ?ln ?f ?v ?xs ++ ?post)%list ] =>
      pose proof (events_around_loop pre post ln f v xs) as Hev;
      pose proof (events_of_loop pre post ln f v xs) as Hloop;
      pose proof (lines_around_loop pre post ln f v xs) as Hlines;
      pose proof (loaded_dirs_around_loop pre post ln v xs) as Hdirs;
      pose proof (loads_around_loop pre post ln v xs) as Hloads;
      set (before := pre) in *; set (after := post) in *;
      set (tr := (before ++ loop_events ln f v xs ++ after)%list) in *
  end.
  clearbody tr.
  repeat apply conj.
  - do 3 eexists; repeat apply conj; try (do 2 eexists; repeat apply conj); flow Hev.
  - do 3 eexists; repeat apply conj; try (do 2 eexists; repeat apply conj); flow Hev.
  - flow Hev.
  - flow Hev.
  - flow Hev.
  - flow Hev.
  - flow Hev.
  - flow Hev.
  - do 4 eexists; repeat apply conj; flow Hev.
  - do 3 eexists; repeat apply conj; flow Hev.
  - do 6 eexists; repeat apply conj; flow Hev.
  - assert (events_at 645 before = []) as Eb by reflexivity.
    assert (events_at 645 after = []) as Ea by reflexivity.
    rewrite Eb, Ea, app_nil_r in Hloop. cbn [app] in Hloop.
    do 4 eexists. split; [flow Hev |]. split; [flow Hev |]. split; [flow Hev |].
    split; [unfold recv_at; rewrite Hloop; apply loop_receivers |].
    split; [unfold args_at; rewrite Hloop; apply loop_arguments |].
    split; [flow Hev |].
    rewrite Hlines, !filter_app,
      (filter_in_replicate [644; 645; 648]%nat _ 645%nat)
      by (apply list_elem_of_further, list_elem_of_here).
    reflexivity.
  - rewrite Hloads. reflexivity.
  - rewrite Hdirs. reflexivity.
Qed.

(** X12.  In a run that completes, in Part 1 and in Part 2 alike: the three
    splits are cut from the one dataframe read, the preprocessor is trained
    on the training rows only, the trained preprocessor is what preprocesses
    all three splits, the trainers are given the training and the validation
    dataset, and the test dataset goes to [evaluate] only. *)
Theorem splits_are_kept_apart {W : Type} (lib : library W) (w : W) (cfg : PatchTST.config) :
  succeeded (result_of (run lib (PatchTST.notebook cfg) w)) ->
  splits_kept_apart (trace_of (run lib (PatchTST.notebook cfg) w))
  /\ target_splits_kept_apart (trace_of (run lib (PatchTST.notebook cfg) w)).
Proof.
  intros Hs.
  destruct (completes_succeeded lib _ _ w (patch_tst_run cfg) Hs) as (H1 & H2 & _).
  split; [exact H1 | exact H2].
Qed.

(** For the settings of the notebook and a library that never fails. *)
Lemma splits_are_kept_apart_witness :
  splits_kept_apart
    (trace_of (run (sample_library 2) (PatchTST.notebook PatchTST.default_config) 0%N))
  /\ target_splits_kept_apart
       (trace_of (run (sample_library 2) (PatchTST.notebook PatchTST.default_config) 0%N)).
Proof.
  refine (splits_are_kept_apart (sample_library 2) 0%N PatchTST.default_config _).
  vm_compute. exact I.
Defined.

(** X13.  In a run that completes, the target data is cut at rows 8640,
    11520 and 14400, and the validation and the test window start
    [context_length] rows before the end of the window before them. *)
Theorem target_rows_by_month {W : Type} (lib : library W) (w : W) (cfg : PatchTST.config) :
  succeeded (result_of (run lib (PatchTST.notebook cfg) w)) ->
  target_windows cfg (trace_of (run lib (PatchTST.notebook cfg) w)).
Proof.
  intros Hs.
  exact (proj1 (proj2 (proj2 (completes_succeeded lib _ _ w (patch_tst_run cfg) Hs)))).
Qed.

(** For the settings of the notebook and a library that never fails. *)
Lemma target_rows_by_month_witness :
  target_windows PatchTST.default_config
    (trace_of (run (sample_library 2) (PatchTST.notebook PatchTST.default_config) 0%N)).
Proof.
  refine (target_rows_by_month (sample_library 2) 0%N PatchTST.default_config _).
  vm_compute. exact I.
Defined.

(** X14.  In a run that completes, the model is configured in Part 1, and
    loaded in Part 2, for as many input channels as the datasets of that
    part have input columns. *)
Theorem channels_are_the_columns {W : Type} (lib : library W) (w : W)
    (cfg : PatchTST.config) :
  succeeded (result_of (run lib (PatchTST.notebook cfg) w)) ->
  channels_of_columns (trace_of (run lib (PatchTST.notebook cfg) w)).
Proof.
  intros Hs.
  exact (proj1 (proj2 (proj2 (proj2
           (completes_succeeded lib _ _ w (patch_tst_run cfg) Hs))))).
Qed.

(** For the settings of the notebook and a library that never fails. *)
Lemma channels_are_the_columns_witness :
  channels_of_columns
    (trace_of (run (sample_library 2) (PatchTST.notebook PatchTST.default_config) 0%N)).
Proof.
  refine (channels_are_the_columns (sample_library 2) 0%N PatchTST.default_config _).
  vm_compute. exact I.
Defined.

(** X15.  In a run that completes, the model configured on line 294 is the
    one trained, evaluated and saved in Part 1; linear probing and full
    fine-tuning each load the model from the directory Part 1 saved into, and
    each of the two trainers trains, evaluates and saves the model it was
    built with, both under the training arguments of line 578. *)
Theorem each_trainer_keeps_its_model {W : Type} (lib : library W) (w : W)
    (cfg : PatchTST.config) :
  succeeded (result_of (run lib (PatchTST.notebook cfg) w)) ->
  pretrained_model_saved (trace_of (run lib (PatchTST.notebook cfg) w))
  /\ fine_tuning_starts_over (trace_of (run lib (PatchTST.notebook cfg) w)).
Proof.
  intros Hs.
  destruct (completes_succeeded lib _ _ w (patch_tst_run cfg) Hs)
    as (_ & _ & _ & _ & H5 & H6 & _).
  split; [exact H5 | exact H6].
Qed.

(** For the settings of the notebook and a library that never fails. *)
Lemma each_trainer_keeps_its_model_witness :
  pretrained_model_saved
    (trace_of (run (sample_library 2) (PatchTST.notebook PatchTST.default_config) 0%N))
  /\ fine_tuning_starts_over
       (trace_of (run (sample_library 2) (PatchTST.notebook PatchTST.default_config) 0%N)).
Proof.
  refine (each_trainer_keeps_its_model (sample_library 2) 0%N PatchTST.default_config _).
  vm_compute. exact I.
Defined.

(** X16.  In a run that completes, [requires_grad] is set to [False] once
    on every parameter the backbone of the first target trainer's model
    lists, in that order, and only then does that trainer train. *)
Theorem backbone_is_frozen_before_probing {W : Type} (lib : library W) (w : W)
    (cfg : PatchTST.config) :
  succeeded (result_of (run lib (PatchTST.notebook cfg) w)) ->
  backbone_frozen (trace_of (run lib (PatchTST.notebook cfg) w)).
Proof.
  intros Hs.
  destruct (completes_succeeded lib _ _ w (patch_tst_run cfg) Hs)
    as (_ & _ & _ & _ & _ & _ & H7 & _).
  exact H7.
Qed.

(** For the settings of the notebook and a library that never fails. *)
Lemma backbone_is_frozen_before_probing_witness :
  backbone_frozen
    (trace_of (run (sample_library 3) (PatchTST.notebook PatchTST.default_config) 0%N)).
Proof.
  refine (backbone_is_frozen_before_probing (sample_library 3) 0%N PatchTST.default_config _).
  vm_compute. exact I.
Defined.

(** X17.  In a run that completes, every directory a model is loaded from
    is one into which a trainer had saved its model earlier in the run; two
    models are loaded, both from the pretrain directory. *)
Theorem models_loaded_were_saved {W : Type} (lib : library W) (w : W)
    (cfg : PatchTST.config) :
  succeeded (result_of (run lib (PatchTST.notebook cfg) w)) ->
  loads_saved_models [] (trace_of (run lib (PatchTST.notebook cfg) w)) = true
  /\ loaded_dirs (trace_of (run lib (PatchTST.notebook cfg) w))
     = ["patchtst/electricity/model/pretrain/"; "patchtst/electricity/model/pretrain/"].
Proof.
  intros Hs.
  destruct (completes_succeeded lib _ _ w (patch_tst_run cfg) Hs)
    as (_ & _ & _ & _ & _ & _ & _ & H8).
  exact H8.
Qed.

(** For the settings of the notebook and a library that never fails. *)
Lemma models_loaded_were_saved_witness :
  loads_saved_models []
    (trace_of (run (sample_library 2) (PatchTST.notebook PatchTST.default_config) 0%N))
  = true
  /\ loaded_dirs
       (trace_of (run (sample_library 2) (PatchTST.notebook PatchTST.default_config) 0%N))
     = ["patchtst/electricity/model/pretrain/"; "patchtst/electricity/model/pretrain/"].
Proof.
  refine (models_loaded_were_saved (sample_library 2) 0%N PatchTST.default_config _).
  vm_compute. exact I.
Defined.

(** ** Window lengths *)

(** X18.  In every run, every [ForecastDFDataset] and the [PatchTSTConfig]
    are given the same [context_length] and the same [prediction_length], and
    the model's [patch_stride] is its [patch_length]. *)
Theorem datasets_and_model_agree_on_windows {W : Type} (lib : library W) (w : W)
    (cfg : PatchTST.config) :
  Forall (fun c =>
            passes "ForecastDFDataset" "context_length"
              (PInt (PatchTST.context_length cfg)) c
            /\ passes "ForecastDFDataset" "prediction_length"
                 (PInt (PatchTST.forecast_horizon cfg)) c
            /\ passes "PatchTSTConfig" "context_length"
                 (PInt (PatchTST.context_length cfg)) c
            /\ passes "PatchTSTConfig" "prediction_length"
                 (PInt (PatchTST.forecast_horizon cfg)) c
            /\ passes "PatchTSTConfig" "patch_stride" (PInt (PatchTST.patch_length cfg)) c
            /\ passes "PatchTSTConfig" "patch_length" (PInt (PatchTST.patch_length cfg)) c)
    (calls (trace_of (run lib (PatchTST.notebook cfg) w))).
Proof.
  apply all_calls_run.
  unfold PatchTST.notebook, PatchTST.prologue, PatchTST.part1, PatchTST.part2,
    PatchTST.select_by_index, PatchTST.make_preprocessor.
  exec_calls ltac:(repeat split; intros E; first [discriminate E | reflexivity]).
Qed.

(** ** The functions the notebook defines *)

(** X19.  When [compute_metrics] returns, its argument yielded a pair,
    [task] and [metric] are bound, the second item of the pair went to
    [metric.compute] unchanged as the references, and what is returned is
    what [metric.compute] answered, after three calls.  When the argument
    yields another number of items, the call fails with [ValueError] after
    the one call. *)
Theorem compute_metrics_of_a_pair {W : Type} (lib : library W) (w : W)
    (g : gmap string pyval) (eval_pred : pyval) :
  (forall r,
      result_of (run lib (Quant.compute_metrics g eval_pred) w) = Done r ->
      metric_of_pair g r (trace_of (run lib (Quant.compute_metrics g eval_pred) w)))
  /\ (forall items,
      answers_at 493 (trace_of (run lib (Quant.compute_metrics g eval_pred) w))
        = [PList items] ->
      length items <> 2%nat ->
      result_of (run lib (Quant.compute_metrics g eval_pred) w)
        = Failed (Exn "ValueError" "unpack")
      /\ length (trace_of (run lib (Quant.compute_metrics g eval_pred) w)) = 1%nat).
Proof.
  split.
  - intros r.
    refine (completes_run lib _ (fun tr r => metric_of_pair g r tr) w r _).
    unfold Quant.compute_metrics, Quant.unpack2, Quant.lookup_name.
    exec; try exact I.
    all: do 4 eexists; repeat split; first [eassumption | reflexivity].
  - intros items Ha Hl.
    unfold Quant.compute_metrics, Quant.unpack2, invoke, mbind, prog_bind in *.
    cbn [bind run] in *.
    destruct (lib _ w) as [[e | xs] w']; [discriminate Ha |].
    destruct xs as [| a [| b [| c xs]]];
      try (cbn [bind run result_of trace_of fst snd length]; split; reflexivity).
    exfalso.
    cbn [bind] in Ha.
    destruct (run lib _ w') as [[o tr] w''].
    unfold trace_of in Ha. cbn in Ha. injection Ha as Ha _. subst items.
    apply Hl. reflexivity.
Qed.

(** A library whose lists have two items. *)
Lemma compute_metrics_of_a_pair_witness :
  metric_of_pair (<["task" := PStr "sst2"]> (<["np" := PObj 8]> {["metric" := PObj 9]}))
    (PObj 6)
    (trace_of (run (sample_library 2)
                 (Quant.compute_metrics
                    (<["task" := PStr "sst2"]> (<["np" := PObj 8]> {["metric" := PObj 9]}))
                    (PObj 0)) 0%N)).
Proof.
  refine (proj1 (compute_metrics_of_a_pair (sample_library 2) 0%N
                   (<["task" := PStr "sst2"]> (<["np" := PObj 8]> {["metric" := PObj 9]}))
                   (PObj 0)) _ _).
  vm_compute. reflexivity.
Defined.

(** X20.  When [preprocess_function] returns, its five names are bound, it
    has read one column of the examples ([sentence1_key]) if [sentence2_key]
    is [None] and two otherwise, and it returns what the tokenizer answered
    when called on the columns read, with the module's [padding] and
    [max_seq_length] and with truncation. *)
Theorem preprocess_function_tokenizes_columns {W : Type} (lib : library W) (w : W)
    (g : gmap string pyval) (examples r : pyval) :
  result_of (run lib (Quant.preprocess_function g examples) w) = Done r ->
  tokenized_columns g examples r
    (trace_of (run lib (Quant.preprocess_function g examples) w)).
Proof.
  refine (completes_run lib _ (fun tr r => tokenized_columns g examples r tr) w r _).
  unfold Quant.preprocess_function, Quant.lookup_name.
  exec; try exact I.
  all: do 5 eexists; repeat split; try eassumption;
    match goal with
    | H : Quant.is_none _ = _ |- _ => try rewrite H
    end; reflexivity.
Qed.

(** The names as the notebook binds them for [sst2]. *)
Lemma preprocess_function_tokenizes_columns_witness :
  tokenized_columns
    (<["sentence1_key" := PStr "sentence"]>
       (<["sentence2_key" := PNone]>
          (<["tokenizer" := PObj 7]>
             (<["padding" := PStr "max_length"]> {["max_seq_length" := PInt 128]}))))
    (PObj 0) (PObj 3)
    (trace_of (run (sample_library 2)
                 (Quant.preprocess_function
                    (<["sentence1_key" := PStr "sentence"]>
                       (<["sentence2_key" := PNone]>
                          (<["tokenizer" := PObj 7]>
                             (<["padding" := PStr "max_length"]>
                                {["max_seq_length" := PInt 128]}))))
                    (PObj 0)) 0%N)).
Proof.
  refine (preprocess_function_tokenizes_columns (sample_library 2) 0%N _ (PObj 0) (PObj 3) _).
  vm_compute. reflexivity.
Defined.

(** ** The same GLUE configuration for the dataset and the metric *)

Lemma actual_task_is_a_configuration (cfg : Quant.config) :
  Quant.actual_task cfg <> "mnli-mm"
  /\ (Quant.task cfg ∈ Quant.GLUE_TASKS -> Quant.actual_task cfg ∈ Quant.GLUE_TASKS).
Proof.
  unfold Quant.actual_task.
  destruct (String.eqb_spec (Quant.task cfg) "mnli-mm") as [E | E].
  - split; [discriminate |]. intros _. apply list_elem_of_further, list_elem_of_here.
  - split; [exact E | intros H; exact H].
Qed.

(** X21.  In every run, [load_dataset] and [evaluate.load] are asked for a
    configuration of GLUE that is never ["mnli-mm"], and that is one of
    [GLUE_TASKS] whenever [task] is. *)
Theorem glue_configuration_is_loaded {W : Type} (lib : library W) (w : W)
    (cfg : Quant.config) :
  Forall (fun c =>
            mem (callee c) ["load_dataset"; "evaluate.load"] = true ->
            exists t : string,
              args c = [PStr "glue"; PStr t]
              /\ t <> "mnli-mm"
              /\ (Quant.task cfg ∈ Quant.GLUE_TASKS -> t ∈ Quant.GLUE_TASKS))
    (calls (trace_of (run lib (Quant.notebook cfg) w))).
Proof.
  apply all_calls_run.
  pose proof (actual_task_is_a_configuration cfg) as Ht.
  unfold Quant.notebook, Quant.main, Quant.reload, Quant.get_model_size,
    Quant.lookup_task, Quant.truediv_float.
  exec_calls ltac:(intros E; first [discriminate E | eexists; split; [reflexivity | exact Ht]]).
Qed.

(** ** The output directory *)

Lemma split_on_not_empty (sep : ascii) (s : string) : split_on sep s <> [].
Proof.
  destruct s as [| c s]; cbn; [discriminate |].
  destruct (Ascii.eqb c sep); [discriminate |].
  destruct (split_on sep s); discriminate.
Qed.

Lemma split_on_without (sep : ascii) (s : string) :
  contains sep s = false -> split_on sep s = [s].
Proof.
  induction s as [| c s IH]; cbn; [reflexivity |].
  destruct (Ascii.eqb c sep); [discriminate |].
  cbn. intros H. rewrite (IH H). reflexivity.
Qed.

Lemma last_item_cons (x : string) (l : list string) :
  l <> [] -> last_item (x :: l) = last_item l.
Proof. destruct l; [congruence | reflexivity]. Qed.

Lemma last_item_split_cons (sep c : ascii) (s : string) :
  last_item (split_on sep (String c s))
  = if Ascii.eqb c sep then last_item (split_on sep s)
    else match split_on sep s with
         | [w] => String c w
         | _ => last_item (split_on sep s)
         end.
Proof.
  pose proof (split_on_not_empty sep s) as Hne.
  cbn [split_on]. destruct (Ascii.eqb c sep).
  - apply last_item_cons. exact Hne.
  - destruct (split_on sep s) as [| w [| w' ws]]; [congruence | reflexivity | reflexivity].
Qed.

Lemma split_on_separator (sep : ascii) (a b : string) :
  exists x y l, split_on sep (a +:+ String sep b) = x :: y :: l.
Proof.
  induction a as [| c a (x & y & l & IH)].
  - change (EmptyString +:+ String sep b) with (String sep b).
    cbn [split_on]. rewrite Ascii.eqb_refl.
    pose proof (split_on_not_empty sep b) as Hne.
    destruct (split_on sep b) as [| y l]; [congruence |]. eauto.
  - change (String c a +:+ String sep b) with (String c (a +:+ String sep b)).
    cbn [split_on]. rewrite IH. destruct (Ascii.eqb c sep); eauto.
Qed.

Lemma last_item_after_separator (sep : ascii) (a b : string) :
  contains sep b = false ->
  last_item (split_on sep (a +:+ String sep b)) = b.
Proof.
  intros Hb. induction a as [| c a IH].
  - change (EmptyString +:+ String sep b) with (String sep b).
    rewrite last_item_split_cons, Ascii.eqb_refl, (split_on_without sep b Hb). reflexivity.
  - change (String c a +:+ String sep b) with (String c (a +:+ String sep b)).
    rewrite last_item_split_cons, IH.
    destruct (split_on_separator sep a b) as (x & y & l & E). rewrite E.
    destruct (Ascii.eqb c sep); reflexivity.
Qed.

Lemma contains_last_item (sep : ascii) (s : string) :
  contains sep (last_item (split_on sep s)) = false.
Proof.
  induction s as [| c s IH]; [reflexivity |].
  rewrite last_item_split_cons.
  destruct (Ascii.eqb c sep) eqn:Ec; [exact IH |].
  destruct (split_on sep s) as [| w [| w' ws]]; [exact IH | | exact IH].
  cbn [contains]. rewrite Ec. exact IH.
Qed.

Lemma contains_app (c : ascii) (a b : string) :
  contains c (a +:+ b) = contains c a || contains c b.
Proof.
  induction a as [| c' a IH]; [reflexivity |].
  change (String c' a +:+ b) with (String c' (a +:+ b)).
  cbn [contains]. rewrite IH, orb_assoc. reflexivity.
Qed.

(** X22.  [save_directory] is made of the last segment of
    [model_checkpoint]: of [name] for a checkpoint [org/name], of the
    checkpoint itself when it has no slash; and it has no slash unless [task]
    has one. *)
Theorem save_directory_is_last_segment (cfg : Quant.config) :
  (forall org name : string,
      Quant.model_checkpoint cfg = org +:+ "/" +:+ name ->
      contains "/" name = false ->
      Quant.save_directory cfg = name +:+ "-finetuned-" +:+ Quant.task cfg)
  /\ (contains "/" (Quant.model_checkpoint cfg) = false ->
      Quant.save_directory cfg
      = Quant.model_checkpoint cfg +:+ "-finetuned-" +:+ Quant.task cfg)
  /\ (contains "/" (Quant.task cfg) = false ->
      contains "/" (Quant.save_directory cfg) = false).
Proof.
  unfold Quant.save_directory. repeat split.
  - intros org name E Hn. rewrite E.
    change ("/" +:+ name) with (String "/" name).
    rewrite (last_item_after_separator "/" org name Hn). reflexivity.
  - intros H. rewrite (split_on_without "/" _ H). reflexivity.
  - intros H. rewrite !contains_app, contains_last_item, H. reflexivity.
Qed.

(** A checkpoint of an organisation. *)
Lemma save_directory_is_last_segment_witness :
  Quant.save_directory
    (Quant.Config "mrpc" "textattack/bert-base-uncased-MRPC" 8 100 50)
  = "bert-base-uncased-MRPC" +:+ "-finetuned-" +:+ "mrpc".
Proof.
  refine (proj1 (save_directory_is_last_segment
                   (Quant.Config "mrpc" "textattack/bert-base-uncased-MRPC" 8 100 50))
            "textattack" "bert-base-uncased-MRPC" _ _); reflexivity.
Defined.
